(** * Tiny HP Monitor: a shallow embedding of [scripts/hp-delta.mjs]

    The repository keeps several revisions of one Foundry VTT module.  Each
    revision is embedded in a module of its own, named after what the
    revision adds:

    - [Reporter]     unnamed/part_003              (dnd5e only, [formatDelta])
    - [Audience]     unnamed/part_001              (NPC audience setting, 30 characters)
    - [MultiSystem]  scripts/hp-delta.mjs 1-409    (path detection, inspiration)
    - [Tracker]      unnamed/part_002              (currency, items, damage systems)
    - [Coalesced]    scripts/hp-delta.mjs 1156-1695 (debounced, unguarded hooks)
    - [Monitor]      scripts/hp-delta.mjs 410-1155 (debounced, spell slots, simple output)

    Conventions of the embedding.

    - A JavaScript string is the list of its UTF-16 code units ([list N]);
      [js "..."] turns a literal of this file (UTF-8) into that list.
    - Numbers are the integral numbers the module counts with (hit points,
      coins, quantities): a finite number is a [Z]; [NaN] and the two
      infinities are kept because [Number.isFinite] tests for them.
      [Number(string)] reads the whole numeric grammar (sign, fraction,
      exponent, radix prefix) and rounds to the nearest double; it has no
      number for a double that is not integral.  Sums and differences are
      those of [Z]: they are the sums and differences of JavaScript as long
      as the operands and the result stay within [2^53] in magnitude, where
      every integer is a double.  Beyond that a difference is a rounded
      double in JavaScript and an exact integer here.
    - Host objects (documents, users, settings) are records; the property tree
      of a document is a [JsVal] read with the host's [getProperty].
    - In all modules but [Boundary] the host is total: its accessors answer.
      [Boundary] models accessors that raise, what a callback has written
      and posted when one does, and the [try]/[catch] of the hook callbacks:
      [Guarded] for scripts/hp-delta.mjs 1-409, [GuardedReporter],
      [GuardedAudience] and [GuardedTracker] for the three unnamed parts,
      [Unguarded] for the [preUpdateActor] of lines 710-758. *)

From Stdlib Require Import ZArith NArith List Bool Lia.
From Stdlib Require Import Strings.String Strings.Ascii Strings.Byte Numbers.DecimalString.
From Stdlib Require Import Sorting.Permutation.
From stdpp Require Import gmap strings list sorting.
Import ListNotations.

Open Scope Z_scope.

(** ** JavaScript strings *)

Abbreviation jsstring := (list N).

Definition utf16_units (cp : N) : jsstring :=
  if (cp <? 65536)%N then [cp]
  else [(55296 + (cp - 65536) / 1024)%N; (56320 + (cp - 65536) mod 1024)%N].

(** Code points of a UTF-8 byte sequence (well-formed input; a truncated
    sequence is dropped). *)
Fixpoint utf8_code_points (bs : list N) : list N :=
  match bs with
  | [] => []
  | b0 :: r0 =>
    if (b0 <? 128)%N then b0 :: utf8_code_points r0
    else match r0 with
    | [] => []
    | b1 :: r1 =>
      if (b0 <? 224)%N then
        ((b0 mod 32) * 64 + b1 mod 64)%N :: utf8_code_points r1
      else match r1 with
      | [] => []
      | b2 :: r2 =>
        if (b0 <? 240)%N then
          ((b0 mod 16) * 4096 + (b1 mod 64) * 64 + b2 mod 64)%N :: utf8_code_points r2
        else match r2 with
        | [] => []
        | b3 :: r3 =>
          ((b0 mod 8) * 262144 + (b1 mod 64) * 4096 + (b2 mod 64) * 64 + b3 mod 64)%N
            :: utf8_code_points r3
        end
      end
    end
  end.

Definition js (s : string) : jsstring :=
  List.concat (List.map utf16_units
    (utf8_code_points (List.map Byte.to_N (list_byte_of_string s)))).

Definition dquote : jsstring := [34%N].

Definition jsstring_eqb (a b : jsstring) : bool := bool_decide (a = b).

Infix "=?s" := jsstring_eqb (at level 70).

(** ** Numbers and values *)

Inductive Number :=
| Fin (z : Z)
| NaN
| Infinity (negative : bool).

#[warnings="-register-all"]
Inductive JsVal :=
| VUndefined
| VNull
| VBool (b : bool)
| VNumber (n : Number)
| VString (s : jsstring)
| VObject (fields : list (jsstring * JsVal)).

Definition vnum (z : Z) : JsVal := VNumber (Fin z).
Definition vstr (s : string) : JsVal := VString (js s).

(** [Number.isFinite] *)
Definition isFinite (n : Number) : bool :=
  match n with Fin _ => true | _ => false end.

(** The double nearest to the ratio [m / d] of a natural number and a
    positive one, ties to the even significand, where that double is
    integral: [Fin].  From [2^1024 - 2^970] on it is an infinity.  A double
    that is not integral is outside the numbers of this embedding: [NaN]
    stands for it. *)
Definition round_ratio (m d : Z) : Number :=
  if m =? 0 then Fin 0
  else
    (* m / d lies in [2^e, 2^(e+1)) *)
    let e0 := Z.log2 m - Z.log2 d in
    let below := if 0 <=? e0 then m <? d * 2 ^ e0 else m * 2 ^ (- e0) <? d in
    let e := Z.max (if below then e0 - 1 else e0) (-1022) in
    (* the significand: m / d in units of 2^(e - 52) *)
    let shift := 52 - e in
    let n := if 0 <=? shift then m * 2 ^ shift else m in
    let u := if 0 <=? shift then d else d * 2 ^ (- shift) in
    let q := n / u in
    let r := n mod u in
    let q := if (u <? 2 * r) || ((2 * r =? u) && Z.odd q) then q + 1 else q in
    if 0 <=? shift then
      if q mod 2 ^ shift =? 0 then Fin (q / 2 ^ shift) else NaN
    else
      if 2 ^ 1024 <=? q * 2 ^ (- shift) then Infinity false else Fin (q * 2 ^ (- shift)).

Definition negate (n : Number) : Number :=
  match n with
  | Fin z => Fin (- z)
  | NaN => NaN
  | Infinity b => Infinity (negb b)
  end.

(** The double nearest to an integer. *)
Definition round_double (z : Z) : Number :=
  if z <? 0 then negate (round_ratio (- z) 1) else round_ratio z 1.

(** Decimal digits of an integer. *)
Definition decimal (z : Z) : jsstring :=
  js (NilEmpty.string_of_int (Z.to_int z)).

Fixpoint strip_zeros (rev_digits : jsstring) : jsstring :=
  match rev_digits with
  | 48%N :: r => strip_zeros r
  | _ => rev_digits
  end.

(** The decimal with the fewest digits, at most 17, that reads back as the
    double [x], and among these the nearest to [x]. *)
Definition shortest_decimal (x : Z) : Z :=
  let n := Z.of_nat (length (decimal x)) in
  let candidate (k : nat) : option Z :=
    let p := 10 ^ (n - Z.of_nat k) in
    let lo := (x / p) * p in
    let hi := lo + p in
    let ok v := match round_double v with Fin y => y =? x | _ => false end in
    match ok lo, ok hi with
    | true, true =>
      if x - lo <? hi - x then Some lo
      else if hi - x <? x - lo then Some hi
      else Some (if Z.even (lo / p) then lo else hi)
    | true, false => Some lo
    | false, true => Some hi
    | false, false => None
    end in
  match List.find (fun k => bool_decide (is_Some (candidate k))) (seq 1 17) with
  | Some k => default x (candidate k)
  | None => x
  end.

(** [Number::toString] of a double of magnitude [10^21] or more:
    [d.ddde+n]. *)
Definition exponential (x : Z) : jsstring :=
  let v := shortest_decimal x in
  let all := decimal v in
  let digits := rev (strip_zeros (rev all)) in
  let e := Z.of_nat (length all) - 1 in
  match digits with
  | d :: [] => [d] ++ js "e+" ++ decimal e
  | d :: rest => [d] ++ js "." ++ rest ++ js "e+" ++ decimal e
  | [] => all
  end.

(** An integral number in a template literal: its decimal digits below
    [10^21], the exponent notation of its double from there on. *)
Definition show_Z (z : Z) : jsstring :=
  if Z.abs z <? 10 ^ 21 then decimal z
  else match round_double (Z.abs z) with
       | Fin x => (if z <? 0 then js "-" else []) ++ exponential x
       | _ => if z <? 0 then js "-Infinity" else js "Infinity"
       end.

Definition show_Number (n : Number) : jsstring :=
  match n with
  | Fin z => show_Z z
  | NaN => js "NaN"
  | Infinity false => js "Infinity"
  | Infinity true => js "-Infinity"
  end.

(** White space and line terminators, as [trim] and [Number(string)] strip them. *)
Definition is_space (c : N) : bool :=
  ((9 <=? c)%N && (c <=? 13)%N) || (c =? 32)%N || (c =? 160)%N || (c =? 5760)%N
  || ((8192 <=? c)%N && (c <=? 8202)%N) || (c =? 8232)%N || (c =? 8233)%N
  || (c =? 8239)%N || (c =? 8287)%N || (c =? 12288)%N || (c =? 65279)%N.

Fixpoint trim_start (s : jsstring) : jsstring :=
  match s with
  | c :: r => if is_space c then trim_start r else s
  | [] => []
  end.

Definition trim (s : jsstring) : jsstring :=
  rev (trim_start (rev (trim_start s))).

Definition is_digit (c : N) : bool := (48 <=? c)%N && (c <=? 57)%N.

(** The value of [c] as a digit: [0-9], [a-z] and [A-Z] from ten on. *)
Definition digit_value (c : N) : option Z :=
  if is_digit c then Some (Z.of_N (c - 48))
  else if (97 <=? c)%N && (c <=? 122)%N then Some (Z.of_N (c - 87))
  else if (65 <=? c)%N && (c <=? 90)%N then Some (Z.of_N (c - 55))
  else None.

(** The value of a string of digits below [radix]; the empty string has none. *)
Fixpoint digits_from (radix acc : Z) (s : jsstring) : option Z :=
  match s with
  | [] => Some acc
  | c :: r =>
    match digit_value c with
    | Some d => if d <? radix then digits_from radix (radix * acc + d) r else None
    | None => None
    end
  end.

Definition digits_value (radix : Z) (s : jsstring) : option Z :=
  match s with
  | [] => None
  | _ => digits_from radix 0 s
  end.

(** The leading decimal digits of a string, and what follows them. *)
Fixpoint span_digits (s : jsstring) : jsstring * jsstring :=
  match s with
  | c :: r =>
    if is_digit c then let (d, rest) := span_digits r in (c :: d, rest) else ([], s)
  | [] => ([], [])
  end.

(** [ExponentPart]: [e] or [E], and a signed integer; none is exponent 0. *)
Definition exponent_part (s : jsstring) : option Z :=
  match s with
  | [] => Some 0
  | c :: r =>
    if (c =? 101)%N || (c =? 69)%N then
      match r with
      | 43%N :: d => digits_value 10 d
      | 45%N :: d => Z.opp <$> digits_value 10 d
      | d => digits_value 10 d
      end
    else None
  end.

(** [StrUnsignedDecimalLiteral]: [Infinity], or digits with an optional
    fraction and an optional exponent; its value is rounded to a double. *)
Definition unsigned_literal (s : jsstring) : Number :=
  if s =?s js "Infinity" then Infinity false
  else
    let (int, after) := span_digits s in
    let '(frac, after) := match after with
                          | 46%N :: r => span_digits r
                          | _ => ([], after)
                          end in
    match digits_value 10 (int ++ frac), exponent_part after with
    | Some m, Some e =>
      let scale := e - Z.of_nat (length frac) in
      if 0 <=? scale then round_ratio (m * 10 ^ scale) 1
      else round_ratio m (10 ^ (- scale))
    | _, _ => NaN
    end.

(** [NonDecimalIntegerLiteral]: [0x], [0o] or [0b] and digits of that radix. *)
Definition radix_literal (s : jsstring) : option Number :=
  match s with
  | 48%N :: c :: digits =>
    let radix := if (c =? 120)%N || (c =? 88)%N then Some 16
                 else if (c =? 111)%N || (c =? 79)%N then Some 8
                 else if (c =? 98)%N || (c =? 66)%N then Some 2
                 else None in
    match radix with
    | Some r => Some (match digits_value r digits with
                      | Some z => round_double z
                      | None => NaN
                      end)
    | None => None
    end
  | _ => None
  end.

(** [Number(string)], the [StringNumericLiteral] grammar: white space
    around nothing is 0; a radix literal takes no sign. *)
Definition StringToNumber (s : jsstring) : Number :=
  match trim s with
  | [] => Fin 0
  | 43%N :: r => unsigned_literal r
  | 45%N :: r => negate (unsigned_literal r)
  | t => match radix_literal t with
         | Some n => n
         | None => unsigned_literal t
         end
  end.

(** [Number(v)] *)
Definition ToNumber (v : JsVal) : Number :=
  match v with
  | VUndefined => NaN
  | VNull => Fin 0
  | VBool b => Fin (if b then 1 else 0)
  | VNumber n => n
  | VString s => StringToNumber s
  | VObject _ => NaN
  end.

(** [Boolean(v)] *)
Definition ToBoolean (v : JsVal) : bool :=
  match v with
  | VUndefined | VNull => false
  | VBool b => b
  | VNumber (Fin z) => negb (z =? 0)
  | VNumber NaN => false
  | VNumber (Infinity _) => true
  | VString s => negb (s =?s [])
  | VObject _ => true
  end.

(** [String(v)] *)
Definition ToString (v : JsVal) : jsstring :=
  match v with
  | VUndefined => js "undefined"
  | VNull => js "null"
  | VBool b => if b then js "true" else js "false"
  | VNumber n => show_Number n
  | VString s => s
  | VObject _ => js "[object Object]"
  end.

(** [typeof v === "undefined"] *)
Definition is_undefined (v : JsVal) : bool :=
  match v with VUndefined => true | _ => false end.

(** [v ?? d] *)
Definition nullish (v d : JsVal) : JsVal :=
  match v with VUndefined | VNull => d | _ => v end.

(** [a || b] *)
Definition js_or (a b : JsVal) : JsVal := if ToBoolean a then a else b.


(** ** Objects and the host's property accessors *)

Fixpoint lookup_field (k : jsstring) (fs : list (jsstring * JsVal)) : option JsVal :=
  match fs with
  | [] => None
  | (k', v) :: r => if k =?s k' then Some v else lookup_field k r
  end.

(** [key.split(".")] *)
Fixpoint split_dots (s : jsstring) : list jsstring :=
  match s with
  | [] => [[]]
  | c :: r =>
    if (c =? 46)%N then [] :: split_dots r
    else match split_dots r with
         | seg :: segs => (c :: seg) :: segs
         | [] => [[c]]
         end
  end.

Fixpoint walk (target : JsVal) (parts : list jsstring) : option JsVal :=
  match parts with
  | [] => Some target
  | p :: r =>
    match target with
    | VObject fs =>
      match lookup_field p fs with
      | Some v => walk v r
      | None => None
      end
    | _ => None
    end
  end.

(** [foundry.utils.getProperty(object, key)]: the key as a whole if the object
    has it, else the dotted path; [undefined] when a step is missing. *)
Definition getProperty (object : JsVal) (key : jsstring) : JsVal :=
  match key, object with
  | [], _ => VUndefined
  | _, VObject fs =>
    match lookup_field key fs with
    | Some v => v
    | None => match walk object (split_dots key) with Some v => v | None => VUndefined end
    end
  | _, _ => VUndefined
  end.

(** [foundry.utils.hasProperty(object, key)] *)
Definition hasProperty (object : JsVal) (key : jsstring) : bool :=
  match key, object with
  | [], _ => false
  | _, VObject fs =>
    match lookup_field key fs with
    | Some _ => true
    | None => match walk object (split_dots key) with Some _ => true | None => false end
    end
  | _, _ => false
  end.

(** ** Whole characters: [Array.from(string)], [slice], [join] *)

Definition is_lead (c : N) : bool := (55296 <=? c)%N && (c <=? 56319)%N.
Definition is_trail (c : N) : bool := (56320 <=? c)%N && (c <=? 57343)%N.

(** The string iterator: a leading surrogate followed by a trailing one is
    one element, any other unit is an element of its own. *)
Fixpoint Array_from (s : jsstring) : list jsstring :=
  match s with
  | [] => []
  | c :: rest =>
    match rest with
    | d :: rest' =>
      if is_lead c && is_trail d then [c; d] :: Array_from rest'
      else [c] :: Array_from rest
    | [] => [[c]]
    end
  end.

(** [chars.join("")] *)
Definition join (chars : list jsstring) : jsstring := List.concat chars.

(** [chars.slice(0, n)] *)
Definition slice0 (n : nat) (chars : list jsstring) : list jsstring := firstn n chars.

(** A whole display character: one unit, or a surrogate pair. *)
Definition whole_character (ch : jsstring) : Prop :=
  (exists c, ch = [c]) \/ (exists h l, ch = [h; l] /\ is_lead h = true /\ is_trail l = true).

(** A cut between [a] and [b] that separates the two halves of a pair. *)
Definition splits_pair (a b : jsstring) : Prop :=
  exists a' h l b', a = a' ++ [h] /\ b = l :: b' /\ is_lead h = true /\ is_trail l = true.

(** What every revision's [clipName] does, for its budget and its marker. *)
Definition clipped (budget : nat) (marker : jsstring) (s out : jsstring) : Prop :=
  let chars := Array_from s in
  ((length chars <= budget)%nat -> out = s) /\
  ((budget < length chars)%nat ->
     out = join (firstn budget chars) ++ marker /\
     length (firstn budget chars) = budget /\
     Forall whole_character (firstn budget chars) /\
     join (firstn budget chars) ++ join (skipn budget chars) = s /\
     ~ splits_pair (join (firstn budget chars)) (join (skipn budget chars))).


(** ** Host objects *)

Record User := { user_id : jsstring; isGM : bool }.

Record Token := { token_name : JsVal }.

(** An actor document: its property tree ([name], [type], [system], ...)
    and what the host attaches to it. *)
Record Actor := {
  actor_uuid : jsstring;
  actor_props : list (jsstring * JsVal);
  actor_isToken : bool;
  actor_token : option Token;
  getActiveTokens : list Token;
  (** [actor.testUserPermission?.(u, OWNER)]; [None] when the method is absent *)
  testUserPermission : option (User -> bool)
}.

(** An item document; [item_parent] is [Some] when [item.parent instanceof Actor]. *)
Record Item := {
  item_uuid : jsstring;
  item_props : list (jsstring * JsVal);
  item_parent : option Actor
}.

(** The [game] global.  [npcAudience] is the setting every revision registers
    in its [init] hook and reads with a bare [game.settings.get]; [settings]
    answers the keys read through [getWorldBool] and [getWorldPath], [None]
    where [game.settings.get] raises. *)
Record Game := {
  system_id : jsstring;
  npcAudience : JsVal;
  settings : jsstring -> option JsVal;
  users : list User;
  userId : jsstring
}.

Definition actor_doc (a : Actor) : JsVal := VObject (actor_props a).
Definition item_doc (i : Item) : JsVal := VObject (item_props i).

(** [doc.key] *)
Definition prop (fields : list (jsstring * JsVal)) (key : string) : JsVal :=
  match lookup_field (js key) fields with Some v => v | None => VUndefined end.

(** [v === "literal"] *)
Definition is_string (v : JsVal) (lit : string) : bool :=
  match v with VString s => s =?s js lit | _ => false end.

(** Truthiness of a path that is a string or [null]. *)
Definition truthy_path (path : option jsstring) : bool :=
  match path with Some (_ :: _) => true | _ => false end.

(** ** Utilities shared by the revisions with configurable paths
    ([MultiSystem], [Tracker], [Coalesced], [Monitor]) *)

Definition getWorldBool (g : Game) (key : string) (def : bool) : bool :=
  match settings g (js key) with
  | Some v => ToBoolean v
  | None => def
  end.

Definition getWorldPath (g : Game) (key : string) : option jsstring :=
  match settings g (js key) with
  | Some (VString v) =>
    match trim v with
    | [] => None
    | s => Some s
    end
  | _ => None
  end.

Definition readNumber (doc : JsVal) (path : option jsstring) : Z :=
  if negb (truthy_path path) then 0
  else match path with
       | Some p => match ToNumber (getProperty doc p) with Fin z => z | _ => 0 end
       | None => 0
       end.

Definition readRaw (doc : JsVal) (path : option jsstring) : JsVal :=
  if negb (truthy_path path) then VUndefined
  else match path with
       | Some p => getProperty doc p
       | None => VUndefined
       end.

Definition willUpdatePath (update : JsVal) (path : option jsstring) : bool :=
  match path with
  | Some p => truthy_path path && hasProperty update p
  | None => false
  end.

(** The resolved path table. *)
Record PathTable := {
  hpPath : option jsstring;
  tempPath : option jsstring;
  tempMaxPath : option jsstring;
  damageSystem : bool
}.

(** [Number.isFinite(Number(foundry.utils.getProperty(sample, p)))] *)
Definition probes (sample : JsVal) (p : jsstring) : bool :=
  isFinite (ToNumber (getProperty sample p)).

(** [candidates.find(...) || null] *)
Definition find_or_null (sample : JsVal) (candidates : list jsstring) : option jsstring :=
  match List.find (probes sample) candidates with
  | Some (c :: p) => Some (c :: p)
  | _ => None
  end.

(** [sampleActor ?? {}] *)
Definition sample_doc (sampleActor : option Actor) : JsVal :=
  match sampleActor with Some a => actor_doc a | None => VObject [] end.

(** A JavaScript [Map] with string keys: insertion order, [set] replaces in place. *)
Fixpoint Map_set {V} (k : jsstring) (v : V) (m : list (jsstring * V)) : list (jsstring * V) :=
  match m with
  | [] => [(k, v)]
  | (k', v') :: r => if k =?s k' then (k, v) :: r else (k', v') :: Map_set k v r
  end.

Definition Map_of {V} (entries : list (jsstring * V)) : list (jsstring * V) :=
  fold_left (fun m e => Map_set (fst e) (snd e) m) entries [].

(** [(...lists) => [...new Map(lists.flat().map(u => [u.id, u])).values()]] *)
Definition uniq (lists : list (list User)) : list User :=
  List.map snd (Map_of (List.map (fun u => (user_id u, u)) (List.concat lists))).

(** [game.users.filter(u => actor.testUserPermission?.(u, OWNER))] *)
Definition owners_of (g : Game) (actor : Actor) : list User :=
  match testUserPermission actor with
  | Some test => List.filter test (users g)
  | None => []
  end.

(** A created chat message: content, whisper targets and the module's flags. *)
Record ChatMessage := {
  content : jsstring;
  whisper : list jsstring;
  kind : jsstring;
  cls : jsstring
}.

Definition icon (classes : string) : jsstring :=
  js "<i class=" ++ dquote ++ js classes ++ dquote ++ js "></i>".

Definition div (classes : string) (body : jsstring) : jsstring :=
  js "<div class=" ++ dquote ++ js classes ++ dquote ++ js ">" ++ body ++ js "</div>".

Definition span (classes : string) (body : jsstring) : jsstring :=
  js "<span class=" ++ dquote ++ js classes ++ dquote ++ js ">" ++ body ++ js "</span>".

(** [delta > 0 ? "+" : "-"] *)
Definition sign_of (delta : Z) : jsstring := if 0 <? delta then js "+" else js "-".

(** [value.key], and [value?.key]: [undefined] off anything but an object. *)
Definition member (v : JsVal) (key : string) : JsVal :=
  match v with
  | VObject fs => prop fs key
  | _ => VUndefined
  end.

(** Arithmetic of [Number] where a revision computes with unchecked values. *)
Definition num_sub (a b : Number) : Number :=
  match a, b with
  | Fin x, Fin y => Fin (x - y)
  | NaN, _ | _, NaN => NaN
  | Infinity s, Fin _ => Infinity s
  | Fin _, Infinity s => Infinity (negb s)
  | Infinity s, Infinity s' => if eqb s s' then NaN else Infinity s
  end.

Definition num_abs (a : Number) : Number :=
  match a with
  | Fin x => Fin (Z.abs x)
  | NaN => NaN
  | Infinity _ => Infinity false
  end.

(** [a > 0], [a >= 0], [a !== 0] *)
Definition num_pos (a : Number) : bool :=
  match a with Fin x => 0 <? x | NaN => false | Infinity s => negb s end.
Definition num_nonneg (a : Number) : bool :=
  match a with Fin x => 0 <=? x | NaN => false | Infinity s => negb s end.
Definition num_nonzero (a : Number) : bool :=
  match a with Fin x => negb (x =? 0) | _ => true end.

(** The first active token's name, or the actor's: the name resolution of
    the revisions without links. *)
Definition tokenName (actor : Actor) : JsVal :=
  let name := prop (actor_props actor) "name" in
  if actor_isToken actor && bool_decide (is_Some (actor_token actor)) then
    match actor_token actor with
    | Some t => js_or (token_name t) name
    | None => name
    end
  else
    match getActiveTokens actor with
    | t :: _ => js_or (token_name t) name
    | [] => name
    end.

Module Reporter.
(** unnamed/part_003 *)

Definition formatDelta (delta : Number) : jsstring :=
  let sign := if num_nonneg delta then js "+" else js "-" in
  sign ++ js " " ++ show_Number (num_abs delta).

(** [options[MOD_ID]]; a field is [Some] when [typeof] it is ["number"]. *)
Record Payload := { oldHP : option Number; oldTHP : option Number; oldTHPMax : option Number }.

(** [Hooks.on("updateActor")]: the messages created, in order. *)
Definition updateActor (g : Game) (actor : Actor) (options : option Payload)
    (user : jsstring) : list ChatMessage :=
  if negb (system_id g =?s js "dnd5e") then []
  else if negb (user =?s userId g) then []
  else match options with
  | None => []
  | Some payload =>
    let hp := nullish (member (member (prop (actor_props actor) "system") "attributes") "hp")
                      (VObject []) in
    let tokenName := ToString (tokenName actor) in
    let gmUsers := List.filter isGM (users g) in
    let recipients :=
      if is_string (prop (actor_props actor) "type") "npc" then gmUsers
      else uniq [gmUsers ++ owners_of g actor] in
    let whisper := List.map user_id recipients in
    let whisper := match whisper with [] => [userId g] | _ => whisper end in
    let results :=
      (match oldHP payload with
       | Some oldHP =>
         let newHP := ToNumber (nullish (member hp "value") (vnum 0)) in
         let delta := num_sub newHP oldHP in
         if num_nonzero delta then
           [(tokenName ++ js " HP: " ++ show_Number oldHP ++ js " " ++ formatDelta delta
               ++ js " → " ++ show_Number newHP,
             if num_pos delta then "hp-gain" else "hp-loss", "hp")]
         else []
       | None => []
       end)
      ++
      (match oldTHP payload with
       | Some oldTHP =>
         let newTHP := ToNumber (nullish (member hp "temp") (vnum 0)) in
         let deltaT := num_sub newTHP oldTHP in
         if num_nonzero deltaT then
           [(tokenName ++ js " Temp HP: " ++ show_Number oldTHP ++ js " " ++ formatDelta deltaT
               ++ js " → " ++ show_Number newTHP, "hp-temp", "temp")]
         else []
       | None => []
       end)
      ++
      (match oldTHPMax payload with
       | Some oldTHPMax =>
         let newTHPMax := ToNumber (nullish (member hp "tempmax") (vnum 0)) in
         let deltaTM := num_sub newTHPMax oldTHPMax in
         if num_nonzero deltaTM then
           [(tokenName ++ js " Temp Max HP: " ++ show_Number oldTHPMax ++ js " "
               ++ formatDelta deltaTM ++ js " → " ++ show_Number newTHPMax,
             "hp-tempmax", "tempmax")]
         else []
       | None => []
       end) in
    List.map (fun r => {| content := div "hp-delta-line" (fst (fst r));
                          whisper := whisper;
                          kind := js (snd r);
                          cls := js (snd (fst r)) |}) results
  end.
End Reporter.

Module Audience.
(** unnamed/part_001 *)
Definition MAX_NAME_CHARS : nat := 30.

Definition clipName (name : JsVal) : jsstring :=
  let chars := Array_from (ToString (nullish name (VString []))) in
  if (length chars <=? MAX_NAME_CHARS)%nat then join chars
  else join (slice0 MAX_NAME_CHARS chars) ++ js "[...]".
End Audience.

Module MultiSystem.
(** scripts/hp-delta.mjs, lines 1-409 *)
Definition MAX_NAME_CHARS : nat := 25.

Definition clipName (name : JsVal) : jsstring :=
  let chars := Array_from (ToString (nullish name (VString []))) in
  if (length chars <=? MAX_NAME_CHARS)%nat then join chars
  else join (slice0 MAX_NAME_CHARS chars) ++ js "[...]".

Definition candidatesHP : list jsstring :=
  [js "system.attributes.hp.value"; js "system.hp.value"; js "system.health.value";
   js "system.attributes.health.value"; js "system.resources.hp.value";
   js "system.vitals.hp.value"].
Definition candidatesTemp : list jsstring :=
  [js "system.attributes.hp.temp"; js "system.hp.temp"; js "system.health.temp"].
Definition candidatesTempMax : list jsstring :=
  [js "system.attributes.hp.tempmax"; js "system.hp.tempmax"; js "system.health.tempmax"].

(** This revision's table has no [damageSystem] entry; the field is [false]. *)
Definition detectSystemPaths (g : Game) (sampleActor : option Actor) : PathTable :=
  let sys := system_id g in
  if sys =?s js "dnd5e" then
    {| hpPath := Some (js "system.attributes.hp.value");
       tempPath := Some (js "system.attributes.hp.temp");
       tempMaxPath := Some (js "system.attributes.hp.tempmax");
       damageSystem := false |}
  else if sys =?s js "pf2e" then
    {| hpPath := Some (js "system.attributes.hp.value");
       tempPath := Some (js "system.attributes.hp.temp");
       tempMaxPath := None;
       damageSystem := false |}
  else if sys =?s js "shadowdark" then
    {| hpPath := Some (js "system.hp.value");
       tempPath := None;
       tempMaxPath := None;
       damageSystem := false |}
  else
    {| hpPath := find_or_null (sample_doc sampleActor) candidatesHP;
       tempPath := find_or_null (sample_doc sampleActor) candidatesTemp;
       tempMaxPath := find_or_null (sample_doc sampleActor) candidatesTempMax;
       damageSystem := false |}.

Definition resolvePaths (g : Game) (actor : option Actor) : PathTable :=
  let auto := getWorldBool g "autoDetectPaths" true in
  if auto then detectSystemPaths g actor
  else
    {| hpPath := getWorldPath g "hpPath";
       tempPath := getWorldPath g "tempHpPath";
       tempMaxPath := getWorldPath g "tempHpMaxPath";
       damageSystem := false |}.

Definition getDnd5eInspirationPath : jsstring := js "system.attributes.inspiration".

Definition getDisplayName (actor : Actor) : jsstring := clipName (tokenName actor).

(** Lines 170-188: [recipients] as computed from the audience setting. *)
Definition audience (g : Game) (actor : Actor) : list User :=
  let gmUsers := List.filter isGM (users g) in
  let owners := owners_of g actor in
  let mode := nullish (npcAudience g) (vstr "gm-owners") in
  if is_string (prop (actor_props actor) "type") "npc" then
    if is_string mode "gm" then gmUsers
    else if is_string mode "gm-players" then
      let players := List.filter (fun u => negb (isGM u)) (users g) in
      uniq [gmUsers; players]
    else uniq [gmUsers; owners]
  else uniq [gmUsers; owners].

(** Lines 169-191, with the fallback of line 189. *)
Definition buildRecipients (g : Game) (actor : Actor) : list jsstring :=
  let gmUsers := List.filter isGM (users g) in
  let recipients := audience g actor in
  let recipients := match recipients with [] => gmUsers | _ => recipients end in
  List.map user_id recipients.

(** [options[MOD_ID]] *)
Record Payload := {
  oldHP : option Z;
  oldTHP : option Z;
  oldTHPMax : option Z;
  oldInspiration : option bool
}.

Definition empty_payload : Payload :=
  {| oldHP := None; oldTHP := None; oldTHPMax := None; oldInspiration := None |}.

(** The body of [Hooks.on("preUpdateActor")], lines 277-300, on a host that
    answers: [options[MOD_ID]] afterwards. *)
Definition preUpdateActor (g : Game) (actor : Actor) (update : JsVal)
    (options : option Payload) : option Payload :=
  let paths := resolvePaths g (Some actor) in
  let doc := actor_doc actor in
  let willHP := willUpdatePath update (hpPath paths) in
  let willTHP := willUpdatePath update (tempPath paths) in
  let willTHPMax := willUpdatePath update (tempMaxPath paths) in
  let inspEnabled := (system_id g =?s js "dnd5e")
                     && getWorldBool g "trackDnd5eInspiration" false in
  let inspPath := if inspEnabled then Some getDnd5eInspirationPath else None in
  let willInsp := if truthy_path inspPath then willUpdatePath update inspPath else false in
  if negb willHP && negb willTHP && negb willTHPMax && negb willInsp then options
  else
    let oldHP' := readNumber doc (hpPath paths) in
    let oldTHP' := readNumber doc (tempPath paths) in
    let oldTHPMax' := readNumber doc (tempMaxPath paths) in
    let oldInsp := match inspPath with
                   | Some _ => Some (ToBoolean (readRaw doc inspPath))
                   | None => None
                   end in
    let stash := default empty_payload options in
    Some {| oldHP := if willHP then Some oldHP' else oldHP stash;
            oldTHP := if willTHP then Some oldTHP' else oldTHP stash;
            oldTHPMax := if willTHPMax then Some oldTHPMax' else oldTHPMax stash;
            oldInspiration := if willInsp then oldInsp else oldInspiration stash |}.

Definition create (whisper : list jsstring) (r : jsstring * string * string) : ChatMessage :=
  {| content := div "hp-delta-line" (fst (fst r));
     whisper := whisper;
     kind := js (snd r);
     cls := js (snd (fst r)) |}.

(** The [results] of [Hooks.on("updateActor")], lines 318-375. *)
Definition results (g : Game) (actor : Actor) (payload : Payload)
  : list (jsstring * string * string) :=
  let paths := resolvePaths g (Some actor) in
  let doc := actor_doc actor in
  let displayName := getDisplayName actor in
  (match oldHP payload with
   | Some oldHP =>
     if truthy_path (hpPath paths) then
       let newHP := readNumber doc (hpPath paths) in
       let delta := newHP - oldHP in
       if negb (delta =? 0) then
         let sign := sign_of delta in
         let mag := Z.abs delta in
         let line := displayName ++ js " HP: " ++ show_Z oldHP ++ js " " ++ sign ++ js " "
                       ++ show_Z mag ++ js " → " ++ show_Z newHP in
         let cls := if 0 <? delta then "hp-gain" else "hp-loss" in
         [(line, cls, "hp")]
       else []
     else []
   | None => []
   end)
  ++
  (match oldTHP payload with
   | Some oldTHP =>
     if truthy_path (tempPath paths) then
       let newTHP := readNumber doc (tempPath paths) in
       let deltaT := newTHP - oldTHP in
       if negb (deltaT =? 0) then
         let signT := sign_of deltaT in
         let magT := Z.abs deltaT in
         let line := displayName ++ js " Temp: " ++ show_Z oldTHP ++ js " " ++ signT ++ js " "
                       ++ show_Z magT ++ js " → " ++ show_Z newTHP in
         [(line, "hp-temp", "temp")]
       else []
     else []
   | None => []
   end)
  ++
  (match oldTHPMax payload with
   | Some oldTHPMax =>
     if truthy_path (tempMaxPath paths) then
       let newTHPMax := readNumber doc (tempMaxPath paths) in
       let deltaTM := newTHPMax - oldTHPMax in
       if negb (deltaTM =? 0) then
         let signTM := sign_of deltaTM in
         let magTM := Z.abs deltaTM in
         let line := displayName ++ js " Temp Max: " ++ show_Z oldTHPMax ++ js " " ++ signTM
                       ++ js " " ++ show_Z magTM ++ js " → " ++ show_Z newTHPMax in
         [(line, "hp-tempmax", "tempmax")]
       else []
     else []
   | None => []
   end)
  ++
  (match oldInspiration payload with
   | Some oldInsp =>
     if (system_id g =?s js "dnd5e") && getWorldBool g "trackDnd5eInspiration" false then
       let newInsp := ToBoolean (readRaw doc (Some getDnd5eInspirationPath)) in
       if negb (eqb newInsp oldInsp) then
         let line := if newInsp then displayName ++ js " gained Heroic Inspiration"
                     else displayName ++ js " spent Heroic Inspiration" in
         [(line, "hp-inspiration", "inspiration")]
       else []
     else []
   | None => []
   end).

(** [Hooks.on("updateActor")], lines 311-392, on a host that answers: the
    messages created, in order. *)
Definition updateActor (g : Game) (actor : Actor) (options : option Payload)
    (user : jsstring) : list ChatMessage :=
  if negb (user =?s userId g) then []
  else match options with
       | None => []
       | Some payload =>
         let whisper := buildRecipients g actor in
         List.map (create whisper) (results g actor payload)
       end.
End MultiSystem.

Module Monitor.
(** scripts/hp-delta.mjs, lines 410-1155 *)
Definition MAX_NAME_CHARS : nat := 25.
Definition DEBOUNCE_MS : Z := 350.

Definition clipName (name : JsVal) : jsstring :=
  let chars := Array_from (ToString (nullish name (VString []))) in
  if (length chars <=? MAX_NAME_CHARS)%nat then join chars
  else join (slice0 MAX_NAME_CHARS chars) ++ js "…".

Definition getActorLink (actor : Actor) : jsstring :=
  let token := match actor_token actor with
               | Some t => Some t
               | None => head (getActiveTokens actor)
               end in
  let rawName := js_or (match token with Some t => token_name t | None => VUndefined end)
                       (prop (actor_props actor) "name") in
  let label := clipName rawName in
  js "@UUID[" ++ actor_uuid actor ++ js "]{" ++ label ++ js "}".

Definition candidatesHP : list jsstring :=
  [js "system.attributes.hp.value"; js "system.hp.value"; js "system.health.value"].
Definition candidatesTemp : list jsstring :=
  [js "system.attributes.hp.temp"; js "system.hp.temp"].
Definition candidatesTempMax : list jsstring :=
  [js "system.attributes.hp.tempmax"; js "system.hp.tempmax"].

Definition detectSystemPaths (g : Game) (sampleActor : option Actor) : PathTable :=
  let sys := system_id g in
  if sys =?s js "dnd5e" then
    {| hpPath := Some (js "system.attributes.hp.value");
       tempPath := Some (js "system.attributes.hp.temp");
       tempMaxPath := Some (js "system.attributes.hp.tempmax");
       damageSystem := false |}
  else if sys =?s js "pf2e" then
    {| hpPath := Some (js "system.attributes.hp.value");
       tempPath := Some (js "system.attributes.hp.temp");
       tempMaxPath := None;
       damageSystem := false |}
  else if sys =?s js "shadowdark" then
    {| hpPath := Some (js "system.hp.value");
       tempPath := None;
       tempMaxPath := None;
       damageSystem := false |}
  else
    {| hpPath := find_or_null (sample_doc sampleActor) candidatesHP;
       tempPath := find_or_null (sample_doc sampleActor) candidatesTemp;
       tempMaxPath := find_or_null (sample_doc sampleActor) candidatesTempMax;
       damageSystem := false |}.

Definition resolvePaths (g : Game) (actor : option Actor) : PathTable :=
  if getWorldBool g "autoDetectPaths" true then detectSystemPaths g actor
  else
    {| hpPath := getWorldPath g "hpPath";
       tempPath := getWorldPath g "tempHpPath";
       tempMaxPath := getWorldPath g "tempHpMaxPath";
       damageSystem := false |}.

Definition getDnd5eInspirationPath : jsstring := js "system.attributes.inspiration".
Definition successPath : jsstring := js "system.attributes.death.success".
Definition failurePath : jsstring := js "system.attributes.death.failure".

(** One stashed spell slot: [{ level, path, oldValue }]. *)
Record Slot := { level : Z; path : jsstring; oldValue : Z }.

Definition getDnd5eSpellSlotPaths : list (Z * jsstring) :=
  List.map (fun lvl => (lvl, js "system.spells.spell" ++ show_Z lvl ++ js ".value"))
           [1; 2; 3; 4; 5; 6; 7; 8; 9].

Definition is_object (v : JsVal) : bool :=
  match v with VObject _ => true | _ => false end.

Definition hasOwnProperty (v : JsVal) (k : jsstring) : bool :=
  match v with
  | VObject fs => match lookup_field k fs with Some _ => true | None => false end
  | _ => false
  end.

(** [{ basePath, coins }] *)
Definition detectCurrencyInfo (g : Game) (actor : Actor) : option jsstring * list jsstring :=
  let manualBase := getWorldPath g "currencyBasePath" in
  let candidates :=
    match manualBase with
    | Some b => [b]
    | None => if system_id g =?s js "pf2e"
              then [js "system.currencies"; js "system.currency"]
              else [js "system.currency"]
    end in
  match List.find (fun p => is_object (getProperty (actor_doc actor) p)) candidates with
  | Some (c :: p) =>
    let obj := getProperty (actor_doc actor) (c :: p) in
    (Some (c :: p),
     List.filter (hasOwnProperty obj) [js "pp"; js "gp"; js "ep"; js "sp"; js "cp"])
  | _ => (None, [])
  end.

Definition buildRecipients (g : Game) (actor : Actor) : list jsstring :=
  let mode := nullish (npcAudience g) (vstr "gm-owners") in
  let gmUsers := List.filter isGM (users g) in
  let owners := owners_of g actor in
  if is_string (prop (actor_props actor) "type") "npc" then
    if is_string mode "gm" then List.map user_id gmUsers
    else if is_string mode "gm-players" then
      List.map user_id (uniq [gmUsers; List.filter (fun u => negb (isGM u)) (users g)])
    else List.map user_id (uniq [gmUsers; owners])
  else List.map user_id (uniq [gmUsers; owners]).

(** [toUpperCase] on the letters a-z (the denominations are ASCII). *)
Definition toUpperCase (s : jsstring) : jsstring :=
  List.map (fun c => if (97 <=? c)%N && (c <=? 122)%N then (c - 32)%N else c) s.

Definition coinLabel (denom systemId : jsstring) : jsstring :=
  let dnd5e := [(js "pp", js "Platinum"); (js "gp", js "Gold"); (js "ep", js "Electrum");
                (js "sp", js "Silver"); (js "cp", js "Copper")] in
  let pf2e := [(js "pp", js "Platinum"); (js "gp", js "Gold");
               (js "sp", js "Silver"); (js "cp", js "Copper")] in
  let labels := if systemId =?s js "dnd5e" then Some dnd5e
                else if systemId =?s js "pf2e" then Some pf2e else None in
  match labels with
  | Some table =>
    match List.find (fun e => fst e =?s denom) table with
    | Some e => snd e
    | None => toUpperCase denom
    end
  | None => toUpperCase denom
  end.

(** The message [postMonitorMessage] hands to [ChatMessage.create]. *)
Definition postMonitorMessage (g : Game) (actor : Actor)
    (line : jsstring) (cls kind : string) (isMultiline : bool) : ChatMessage :=
  let whisper := buildRecipients g actor in
  let cssLine := if isMultiline then "tiny-monitor-line tm-multiline" else "tiny-monitor-line" in
  {| content := div cssLine line;
     whisper := whisper;
     kind := js kind;
     cls := js cls |}.

Definition buildMonitorLine (actor : Actor) (icon text : jsstring) : jsstring :=
  icon ++ span "tm-actor" (getActorLink actor) ++ span "tm-text" text.

(** The pending debounce state of one actor ([timer] is the handle of
    [setTimeout], a positive integer). *)
Record Pending := {
  oldHP : option Z;
  oldTHP : option Z;
  oldTHPMax : option Z;
  oldInspiration : option bool;
  currencyBase : option jsstring;
  currencyCoins : list jsstring;
  currencyOld : gmap jsstring Z;
  deathSavesOld : option (Z * Z);
  spellSlotsOld : gmap Z Slot;
  timer : option positive
}.

Section ProcessActorUpdate.
Variable g : Game.
Variable actor : Actor.
Variable data : Pending.

Let paths := resolvePaths g (Some actor).
Let doc := actor_doc actor.

(** [hp-delta.mjs] 824-842 *)
Definition hp_lines : list ChatMessage :=
  match oldHP data with
  | Some old =>
    if truthy_path (hpPath paths) then
      let newHP := readNumber doc (hpPath paths) in
      let delta := newHP - old in
      if negb (delta =? 0) then
        let cls := if (if damageSystem paths then delta <? 0 else 0 <? delta)
                   then "tiny-monitor-gain" else "tiny-monitor-loss" in
        let icon := icon "fa-solid fa-heart" in
        let sign := sign_of delta in
        let abs := Z.abs delta in
        let isSimple := getWorldBool g "simpleOutput" false in
        let label := if damageSystem paths then js "Damage" else js "HP" in
        let text :=
          if isSimple
          then label ++ js ": " ++ sign ++ js " " ++ show_Z abs
          else label ++ js ": " ++ show_Z old ++ js " " ++ sign ++ js " " ++ show_Z abs
                 ++ js " → " ++ show_Z newHP in
        [postMonitorMessage g actor (buildMonitorLine actor icon text) cls "hp" false]
      else []
    else []
  | None => []
  end.

(** 844-861 *)
Definition temp_lines : list ChatMessage :=
  match oldTHP data with
  | Some old =>
    if truthy_path (tempPath paths) then
      let newTHP := readNumber doc (tempPath paths) in
      let delta := newTHP - old in
      if negb (delta =? 0) then
        let icon := icon "fa-solid fa-shield-halved" in
        let sign := sign_of delta in
        let abs := Z.abs delta in
        let isSimple := getWorldBool g "simpleOutput" false in
        let text :=
          if isSimple
          then js "Temp: " ++ sign ++ js " " ++ show_Z abs
          else js "Temp: " ++ show_Z old ++ js " " ++ sign ++ js " " ++ show_Z abs
                 ++ js " → " ++ show_Z newTHP in
        [postMonitorMessage g actor (buildMonitorLine actor icon text)
           "tiny-monitor-temp" "temp" false]
      else []
    else []
  | None => []
  end.

(** 863-880 *)
Definition tempmax_lines : list ChatMessage :=
  match oldTHPMax data with
  | Some old =>
    if truthy_path (tempMaxPath paths) then
      let newTHPMax := readNumber doc (tempMaxPath paths) in
      let delta := newTHPMax - old in
      if negb (delta =? 0) then
        let icon := icon "fa-solid fa-circle-plus" in
        let sign := sign_of delta in
        let abs := Z.abs delta in
        let isSimple := getWorldBool g "simpleOutput" false in
        let text :=
          if isSimple
          then js "Temp Max: " ++ sign ++ js " " ++ show_Z abs
          else js "Temp Max: " ++ show_Z old ++ js " " ++ sign ++ js " " ++ show_Z abs
                 ++ js " → " ++ show_Z newTHPMax in
        [postMonitorMessage g actor (buildMonitorLine actor icon text)
           "tiny-monitor-tempmax" "tempmax" false]
      else []
    else []
  | None => []
  end.

(** 882-890 *)
Definition inspiration_lines : list ChatMessage :=
  match oldInspiration data with
  | Some old =>
    if system_id g =?s js "dnd5e" then
      let newInsp := ToBoolean (readRaw doc (Some getDnd5eInspirationPath)) in
      if negb (eqb newInsp old) then
        let icon := icon "fa-solid fa-dice-d20" in
        let line := buildMonitorLine actor icon
                      ((if newInsp then js "gained" else js "spent") ++ js " Heroic Inspiration") in
        [postMonitorMessage g actor line "tiny-monitor-inspiration" "inspiration" false]
      else []
    else []
  | None => []
  end.

(** 892-914, the body of the loop over [data.currencyCoins] *)
Definition currency_line (base k : jsstring) : list ChatMessage :=
  let oldVal := match currencyOld data !! k with Some v => v | None => 0 end in
  let newVal := readNumber doc (Some (base ++ js "." ++ k)) in
  let delta := newVal - oldVal in
  if negb (delta =? 0) then
    let icon := icon "fa-solid fa-coins" in
    let sign := sign_of delta in
    let abs := Z.abs delta in
    let name := coinLabel k (system_id g) in
    let isSimple := getWorldBool g "simpleOutput" false in
    let text :=
      if isSimple
      then name ++ js ": " ++ sign ++ js " " ++ show_Z abs
      else name ++ js ": " ++ show_Z oldVal ++ js " " ++ sign ++ js " " ++ show_Z abs
             ++ js " → " ++ show_Z newVal in
    let line := buildMonitorLine actor icon text in
    let cls := if 0 <? delta then "tiny-monitor-currency-gain"
               else "tiny-monitor-currency-loss" in
    [postMonitorMessage g actor line cls "currency" false]
  else [].

Definition currency_lines : list ChatMessage :=
  if truthy_path (currencyBase data) then
    match currencyBase data with
    | Some base => List.concat (List.map (currency_line base) (currencyCoins data))
    | None => []
    end
  else [].

(** 916-957 *)
Definition deathsave_lines : list ChatMessage :=
  match deathSavesOld data with
  | Some (oldSucc, oldFail) =>
    let newSucc := readNumber doc (Some successPath) in
    let newFail := readNumber doc (Some failurePath) in
    (if negb (newSucc =? oldSucc) then
       let delta := newSucc - oldSucc in
       let icon := icon "fa-solid fa-heart-pulse" in
       if 0 <? delta then
         let line := buildMonitorLine actor icon
           (js "gained " ++ show_Z delta ++ js " Death Save "
            ++ (if delta =? 1 then js "Success" else js "Successes")
            ++ js " (" ++ show_Z newSucc ++ js "/3)") in
         [postMonitorMessage g actor line "tiny-monitor-gain" "deathsave" false]
       else
         let absDelta := Z.abs delta in
         let line := buildMonitorLine actor icon
           (js "lost " ++ show_Z absDelta ++ js " Death Save "
            ++ (if absDelta =? 1 then js "Success" else js "Successes")
            ++ js " (" ++ show_Z newSucc ++ js "/3)") in
         [postMonitorMessage g actor line "tiny-monitor-loss" "deathsave" false]
     else [])
    ++
    (if negb (newFail =? oldFail) then
       let delta := newFail - oldFail in
       let icon := icon "fa-solid fa-skull" in
       if 0 <? delta then
         let line := buildMonitorLine actor icon
           (js "gained " ++ show_Z delta ++ js " Death Save "
            ++ (if delta =? 1 then js "Failure" else js "Failures")
            ++ js " (" ++ show_Z newFail ++ js "/3)") in
         [postMonitorMessage g actor line "tiny-monitor-loss" "deathsave" false]
       else
         let absDelta := Z.abs delta in
         let line := buildMonitorLine actor icon
           (js "lost " ++ show_Z absDelta ++ js " Death Save "
            ++ (if absDelta =? 1 then js "Failure" else js "Failures")
            ++ js " (" ++ show_Z newFail ++ js "/3)") in
         [postMonitorMessage g actor line "tiny-monitor-gain" "deathsave" false]
     else [])
  | None => []
  end.

(** 959-981, the body of the loop over the sorted levels *)
Definition spellslot_line (lvl : Z) : list ChatMessage :=
  match spellSlotsOld data !! lvl with
  | Some slotData =>
    let newVal := readNumber doc (Some (path slotData)) in
    let oldVal := oldValue slotData in
    let delta := newVal - oldVal in
    if negb (delta =? 0) then
      let icon := icon "fa-solid fa-hat-wizard" in
      let action := if delta <? 0 then js "expended" else js "regained" in
      let cls := if delta <? 0 then "tiny-monitor-spellslot-expend"
                 else "tiny-monitor-spellslot-regain" in
      let absDelta := Z.abs delta in
      let slotWord := if absDelta =? 1 then js "slot" else js "slots" in
      let quantityStr := if 1 <? absDelta then show_Z absDelta ++ js " " else [] in
      let line := buildMonitorLine actor icon
        (action ++ js " " ++ quantityStr ++ js "level " ++ show_Z lvl ++ js " " ++ slotWord) in
      [postMonitorMessage g actor line cls "spellslot" false]
    else []
  | None => []
  end.

Definition spellslot_lines : list ChatMessage :=
  let sortedLevels := merge_sort Z.le (List.map fst (map_to_list (spellSlotsOld data))) in
  List.concat (List.map spellslot_line sortedLevels).

(** The messages [processActorUpdate(actor, data)] creates, in order. *)
Definition processActorUpdate : list ChatMessage :=
  hp_lines ++ temp_lines ++ tempmax_lines ++ inspiration_lines
  ++ currency_lines ++ deathsave_lines ++ spellslot_lines.
End ProcessActorUpdate.

(** *** The stash of [preUpdateActor]: [options[MOD_ID]] *)

Module Payload.
Record Currency := { basePath : jsstring; coins : list jsstring; old : gmap jsstring Z }.

Record t := {
  oldHP : option Z;
  oldTHP : option Z;
  oldTHPMax : option Z;
  oldInspiration : option bool;
  currency : option Currency;
  deathSaves : option (Z * Z);
  spellSlots : option (list Slot)
}.
End Payload.

(** [Object.fromEntries] *)
Definition fromEntries (entries : list (jsstring * Z)) : gmap jsstring Z :=
  fold_left (fun m e => <[fst e := snd e]> m) entries ∅.

(** [hp-delta.mjs] 710-758; [None] when the hook returns without a stash. *)
Definition preUpdateActor (g : Game) (actor : Actor) (update : JsVal) : option Payload.t :=
  let paths := resolvePaths g (Some actor) in
  let doc := actor_doc actor in
  let sys := system_id g in
  let willHP := willUpdatePath update (hpPath paths) in
  let willTHP := willUpdatePath update (tempPath paths) in
  let willTHPMax := willUpdatePath update (tempMaxPath paths) in
  let inspPath :=
    if (sys =?s js "dnd5e") && getWorldBool g "trackDnd5eInspiration" false
    then Some getDnd5eInspirationPath else None in
  let willInsp := if truthy_path inspPath then willUpdatePath update inspPath else false in
  let currencyPayload :=
    if getWorldBool g "trackCurrency" false && ((sys =?s js "dnd5e") || (sys =?s js "pf2e")) then
      let '(basePath, coins) := detectCurrencyInfo g actor in
      match basePath with
      | Some base =>
        if truthy_path basePath && negb (Nat.eqb (length coins) 0)
           && (willUpdatePath update basePath
               || existsb (fun k => willUpdatePath update (Some (base ++ js "." ++ k))) coins)
        then Some (base, coins) else None
      | None => None
      end
    else None in
  let deathPayload :=
    if (sys =?s js "dnd5e") && getWorldBool g "trackDnd5eDeathSaves" false
       && is_string (prop (actor_props actor) "type") "character" then
      if willUpdatePath update (Some successPath) || willUpdatePath update (Some failurePath)
      then Some (readNumber doc (Some successPath), readNumber doc (Some failurePath))
      else None
    else None in
  let spellSlotsPayload :=
    if (sys =?s js "dnd5e") && getWorldBool g "trackDnd5eSpellSlots" true then
      let changedSlots :=
        List.filter (fun s => willUpdatePath update (Some (snd s))) getDnd5eSpellSlotPaths in
      if (0 <? length changedSlots)%nat then
        Some (List.map (fun s => {| level := fst s; path := snd s;
                                    oldValue := readNumber doc (Some (snd s)) |}) changedSlots)
      else None
    else None in
  if negb willHP && negb willTHP && negb willTHPMax && negb willInsp
     && negb (bool_decide (is_Some currencyPayload))
     && negb (bool_decide (is_Some deathPayload))
     && negb (bool_decide (is_Some spellSlotsPayload))
  then None
  else Some
    {| Payload.oldHP := if willHP then Some (readNumber doc (hpPath paths)) else None;
       Payload.oldTHP := if willTHP then Some (readNumber doc (tempPath paths)) else None;
       Payload.oldTHPMax := if willTHPMax then Some (readNumber doc (tempMaxPath paths)) else None;
       Payload.oldInspiration :=
         if willInsp then Some (ToBoolean (readRaw doc inspPath)) else None;
       Payload.currency :=
         match currencyPayload with
         | Some (base, coins) =>
           Some {| Payload.basePath := base;
                   Payload.coins := coins;
                   Payload.old := fromEntries
                     (List.map (fun k => (k, readNumber doc (Some (base ++ js "." ++ k)))) coins) |}
         | None => None
         end;
       Payload.deathSaves := deathPayload;
       Payload.spellSlots := spellSlotsPayload |}.

(** *** The debounce state *)

(** A pending [setTimeout]: when it is due, and what its callback closes
    over (the actor object, by its uuid; the uuid; the pending object, by
    its address). *)
Record Timer := {
  deadline : Z;
  closure_actor : jsstring;
  closure_uuid : jsstring;
  closure_pending : positive
}.

(** The module's state and the part of the host it runs in.  [heap] holds
    the pending objects, which [ACTOR_DEBOUNCE] and the timer closures share
    by address; [actors] holds the live actor objects; [chat] is the chat
    log; [flushes] records the calls of [processActorUpdate]. *)
Record Runtime := {
  now : Z;
  next_handle : positive;
  timers : gmap positive Timer;
  next_address : positive;
  heap : gmap positive Pending;
  ACTOR_DEBOUNCE : gmap jsstring positive;
  actors : gmap jsstring Actor;
  chat : list ChatMessage;
  flushes : list (jsstring * Pending)
}.

Definition fresh_pending : Pending :=
  {| oldHP := None; oldTHP := None; oldTHPMax := None; oldInspiration := None;
     currencyBase := None; currencyCoins := [];
     currencyOld := ∅; deathSavesOld := None; spellSlotsOld := ∅; timer := None |}.

(** [if (pending.x === undefined) pending.x = payload.x] *)
Definition keep {A} (pending payload : option A) : option A :=
  match pending with
  | None => payload
  | Some _ => pending
  end.

Definition merge_currencyOld (c : Payload.Currency) (currencyOld : gmap jsstring Z)
  : gmap jsstring Z :=
  fold_left (fun m k =>
               match m !! k, Payload.old c !! k with
               | None, Some v => <[k := v]> m
               | _, _ => m
               end) (Payload.coins c) currencyOld.

Definition merge_spellSlotsOld (slots : list Slot) (spellSlotsOld : gmap Z Slot)
  : gmap Z Slot :=
  fold_left (fun m slot =>
               match m !! level slot with
               | None => <[level slot := slot]> m
               | Some _ => m
               end) slots spellSlotsOld.

(** The merge of [updateActor], lines 784-810. *)
Definition merge (pending : Pending) (payload : Payload.t) : Pending :=
  {| oldHP := keep (oldHP pending) (Payload.oldHP payload);
     oldTHP := keep (oldTHP pending) (Payload.oldTHP payload);
     oldTHPMax := keep (oldTHPMax pending) (Payload.oldTHPMax payload);
     oldInspiration := keep (oldInspiration pending) (Payload.oldInspiration payload);
     currencyBase :=
       match Payload.currency payload with
       | Some c => Some (Payload.basePath c)
       | None => currencyBase pending
       end;
     currencyCoins :=
       match Payload.currency payload with
       | Some c => Payload.coins c
       | None => currencyCoins pending
       end;
     currencyOld :=
       match Payload.currency payload with
       | Some c => merge_currencyOld c (currencyOld pending)
       | None => currencyOld pending
       end;
     deathSavesOld :=
       match Payload.deathSaves payload with
       | Some d => keep (deathSavesOld pending) (Some d)
       | None => deathSavesOld pending
       end;
     spellSlotsOld :=
       match Payload.spellSlots payload with
       | Some slots => merge_spellSlotsOld slots (spellSlotsOld pending)
       | None => spellSlotsOld pending
       end;
     timer := timer pending |}.

Definition set_timer (h : option positive) (p : Pending) : Pending :=
  {| oldHP := oldHP p; oldTHP := oldTHP p; oldTHPMax := oldTHPMax p;
     oldInspiration := oldInspiration p;
     currencyBase := currencyBase p; currencyCoins := currencyCoins p;
     currencyOld := currencyOld p; deathSavesOld := deathSavesOld p;
     spellSlotsOld := spellSlotsOld p; timer := h |}.

(** [Hooks.on("updateActor")], lines 764-819. *)
Definition updateActor (g : Game) (actor : Actor) (options : option Payload.t)
    (user : jsstring) (rt : Runtime) : Runtime :=
  match options with
  | Some payload =>
    if negb (user =?s userId g) then rt
    else
      let uuid := actor_uuid actor in
      (* ACTOR_DEBOUNCE.get(uuid) ?? { ... } *)
      let '(address, pending, next) :=
        match ACTOR_DEBOUNCE rt !! uuid with
        | Some a => (a, default fresh_pending (heap rt !! a), next_address rt)
        | None => (next_address rt, fresh_pending, Pos.succ (next_address rt))
        end in
      (* if (pending.timer) clearTimeout(pending.timer) *)
      let cleared :=
        match timer pending with
        | Some h => delete h (timers rt)
        | None => timers rt
        end in
      let merged := merge pending payload in
      (* pending.timer = setTimeout(..., DEBOUNCE_MS) *)
      let h := next_handle rt in
      let callback := {| deadline := now rt + DEBOUNCE_MS;
                         closure_actor := uuid;
                         closure_uuid := uuid;
                         closure_pending := address |} in
      {| now := now rt;
         next_handle := Pos.succ h;
         timers := <[h := callback]> cleared;
         next_address := next;
         heap := <[address := set_timer (Some h) merged]> (heap rt);
         ACTOR_DEBOUNCE := <[uuid := address]> (ACTOR_DEBOUNCE rt);
         actors := actors rt;
         chat := chat rt;
         flushes := flushes rt |}
  | None => rt
  end.

(** The timer callback, lines 813-816: [processActorUpdate(actor, pending)],
    then [ACTOR_DEBOUNCE.delete(uuid)].  The messages are created in the
    order of the awaits, with the actor as it is when the timer fires. *)
Definition callback (g : Game) (t : Timer) (rt : Runtime) : Runtime :=
  let pending := default fresh_pending (heap rt !! closure_pending t) in
  let posted :=
    match actors rt !! closure_actor t with
    | Some actor => processActorUpdate g actor pending
    | None => []
    end in
  {| now := now rt;
     next_handle := next_handle rt;
     timers := timers rt;
     next_address := next_address rt;
     heap := heap rt;
     ACTOR_DEBOUNCE := delete (closure_uuid t) (ACTOR_DEBOUNCE rt);
     actors := actors rt;
     chat := chat rt ++ posted;
     flushes := flushes rt ++ [(closure_uuid t, pending)] |}.

(** *** The host's clock and its update cycle *)

Definition earlier (a b : positive * Timer) : Prop :=
  deadline (snd a) < deadline (snd b)
  \/ (deadline (snd a) = deadline (snd b) /\ (fst a <= fst b)%positive).

#[local] Instance earlier_dec a b : Decision (earlier a b).
Proof. unfold earlier. apply _. Defined.

Definition due (t : Z) (rt : Runtime) : list (positive * Timer) :=
  merge_sort earlier
    (List.filter (fun ht => deadline (snd ht) <=? t) (map_to_list (timers rt))).

(** Run one due timer, unless it was cleared meanwhile. *)
Definition run_timer (g : Game) (rt : Runtime) (ht : positive * Timer) : Runtime :=
  match timers rt !! fst ht with
  | Some t =>
    callback g t
      {| now := Z.max (now rt) (deadline t);
         next_handle := next_handle rt;
         timers := delete (fst ht) (timers rt);
         next_address := next_address rt;
         heap := heap rt;
         ACTOR_DEBOUNCE := ACTOR_DEBOUNCE rt;
         actors := actors rt;
         chat := chat rt;
         flushes := flushes rt |}
  | None => rt
  end.

(** [ms] milliseconds pass: the timers that come due run, earliest first. *)
Definition elapse (g : Game) (ms : Z) (rt : Runtime) : Runtime :=
  let t := now rt + ms in
  let rt' := fold_left (run_timer g) (due t rt) rt in
  {| now := t;
     next_handle := next_handle rt';
     timers := timers rt';
     next_address := next_address rt';
     heap := heap rt';
     ACTOR_DEBOUNCE := ACTOR_DEBOUNCE rt';
     actors := actors rt';
     chat := chat rt';
     flushes := flushes rt' |}.

(** The host commits a change: the actor object now reads [actor]. *)
Definition commit (actor : Actor) (rt : Runtime) : Runtime :=
  {| now := now rt;
     next_handle := next_handle rt;
     timers := timers rt;
     next_address := next_address rt;
     heap := heap rt;
     ACTOR_DEBOUNCE := ACTOR_DEBOUNCE rt;
     actors := <[actor_uuid actor := actor]> (actors rt);
     chat := chat rt;
     flushes := flushes rt |}.

(** One delta event: [gap] milliseconds after the previous one, the host
    has written [actor] and calls [updateActor] with the stash [payload],
    on behalf of the current user. *)
Record Delta := { gap : Z; after : Actor; stash : Payload.t }.

Definition ingest (g : Game) (rt : Runtime) (d : Delta) : Runtime :=
  updateActor g (after d) (Some (stash d)) (userId g) (commit (after d) (elapse g (gap d) rt)).

Definition burst (g : Game) (ds : list Delta) (rt : Runtime) : Runtime :=
  fold_left (ingest g) ds rt.

(** One update by the current user, through both hooks: [preUpdateActor] on
    the actor as it is, the commit, [updateActor] on the actor as it is
    afterwards. *)
Definition update_cycle (g : Game) (before after : Actor) (update : JsVal)
    (rt : Runtime) : Runtime :=
  updateActor g after (preUpdateActor g before update) (userId g) (commit after rt).

Definition boot : Runtime :=
  {| now := 0; next_handle := 1%positive; timers := ∅; next_address := 1%positive;
     heap := ∅; ACTOR_DEBOUNCE := ∅; actors := ∅; chat := []; flushes := [] |}.

(** *** Items *)

(** [a || b] on numbers *)
Definition or_number (a b : Z) : Z := if a =? 0 then b else a.

(** The pending debounce state of one item. *)
Module ItemData.
Record t := { oldQty : option Z; oldName : option jsstring; timer : option positive }.
End ItemData.

(** [hp-delta.mjs] 1059-1102: the messages [processItemUpdate(item, data)]
    creates, in order. *)
Definition processItemUpdate (g : Game) (item : Item) (data : ItemData.t)
  : list ChatMessage :=
  match item_parent item with
  | None => []
  | Some parent =>
    let icon := icon "fa-solid fa-backpack" in
    (match ItemData.oldQty data with
     | Some oldQty =>
       let newQty := or_number (readNumber (item_doc item) (Some (js "system.quantity"))) 0 in
       if negb (newQty =? oldQty) then
         let safeItemName := clipName (prop (item_props item) "name") in
         let delta := newQty - oldQty in
         let sign := sign_of delta in
         let abs := Z.abs delta in
         let isSimple := getWorldBool g "simpleOutput" false in
         if (oldQty =? 0) && (newQty =? 1) then
           [postMonitorMessage g parent
              (buildMonitorLine parent icon (js "added " ++ safeItemName))
              "tiny-monitor-item-inc" "item" true]
         else if (oldQty =? 1) && (newQty =? 0) then
           [postMonitorMessage g parent
              (buildMonitorLine parent icon (js "deleted " ++ safeItemName))
              "tiny-monitor-item-dec" "item" true]
         else
           let text :=
             if isSimple
             then sign ++ js " " ++ show_Z abs
             else show_Z oldQty ++ js " " ++ sign ++ js " " ++ show_Z abs
                    ++ js " → " ++ show_Z newQty in
           let line := buildMonitorLine parent icon (safeItemName ++ js ": " ++ text) in
           [postMonitorMessage g parent line
              (if 0 <? delta then "tiny-monitor-item-inc" else "tiny-monitor-item-dec")
              "item" true]
       else []
     | None => []
     end)
    ++
    (match ItemData.oldName data with
     | Some oldName =>
       if negb (match prop (item_props item) "name" with
                | VString s => s =?s oldName
                | _ => false
                end) then
         let line := buildMonitorLine parent icon
           (js "Item: " ++ clipName (VString oldName) ++ js " → "
            ++ clipName (prop (item_props item) "name")) in
         [postMonitorMessage g parent line "tiny-monitor-item" "item" true]
       else []
     | None => []
     end)
  end.

(** What [preDeleteItem] keeps for [deleteItem]. *)
Record DeleteStash := {
  stash_actor : Actor;
  stash_whisper : list jsstring;
  stash_name : jsstring;
  stash_qty : Z;
  stash_hasQty : bool
}.

(** [hp-delta.mjs] 1108-1119.  [ITEM_DELETE_STASH] is keyed by the item
    object, here by its uuid. *)
Definition preDeleteItem (g : Game) (item : Item)
    (ITEM_DELETE_STASH : gmap jsstring DeleteStash) : gmap jsstring DeleteStash :=
  if negb (getWorldBool g "trackItemChanges" false) then ITEM_DELETE_STASH
  else match item_parent item with
       | None => ITEM_DELETE_STASH
       | Some parent =>
         <[item_uuid item :=
             {| stash_actor := parent;
                stash_whisper := buildRecipients g parent;
                stash_name := clipName (prop (item_props item) "name");
                stash_qty := readNumber (item_doc item) (Some (js "system.quantity"));
                stash_hasQty := hasProperty (item_doc item) (js "system.quantity") |}]>
           ITEM_DELETE_STASH
       end.

(** [hp-delta.mjs] 1121-1145: the stash afterwards and the messages created. *)
Definition deleteItem (g : Game) (item : Item) (user : jsstring)
    (ITEM_DELETE_STASH : gmap jsstring DeleteStash)
  : gmap jsstring DeleteStash * list ChatMessage :=
  if negb (user =?s userId g) || negb (getWorldBool g "trackItemChanges" false)
  then (ITEM_DELETE_STASH, [])
  else
    let payload := ITEM_DELETE_STASH !! item_uuid item in
    let stash' := delete (item_uuid item) ITEM_DELETE_STASH in
    match payload with
    | None => (stash', [])
    | Some p =>
      let oldQty := stash_qty p in
      if stash_hasQty p && (oldQty =? 0) then (stash', [])
      else
        let treatAsSingleton := negb (stash_hasQty p) || (oldQty <=? 1) in
        let icon := icon "fa-solid fa-backpack" in
        let line :=
          if treatAsSingleton || getWorldBool g "simpleOutput" false
          then buildMonitorLine (stash_actor p) icon (js "deleted " ++ stash_name p)
          else buildMonitorLine (stash_actor p) icon
                 (stash_name p ++ js ": " ++ show_Z oldQty ++ js " - " ++ show_Z oldQty
                  ++ js " → 0") in
        (stash',
         [{| content := div "tiny-monitor-line tm-multiline" line;
             whisper := stash_whisper p;
             kind := js "item";
             cls := js "tiny-monitor-item-dec" |}])
    end.
End Monitor.

Module Tracker.
(** unnamed/part_002 *)
Definition MAX_NAME_CHARS : nat := 25.

Definition clipName (name : JsVal) : jsstring :=
  let chars := Array_from (ToString (nullish name (VString []))) in
  if (length chars <=? MAX_NAME_CHARS)%nat then join chars
  else join (slice0 MAX_NAME_CHARS chars) ++ js "[...]".

Definition detectSystemPaths (g : Game) (sampleActor : option Actor) : PathTable :=
  let sys := system_id g in
  if sys =?s js "demonlord" then
    {| hpPath := Some (js "system.characteristics.health.value");
       tempPath := None;
       tempMaxPath := Some (js "system.characteristics.health.max");
       damageSystem := true |}
  else if sys =?s js "dnd5e" then
    {| hpPath := Some (js "system.attributes.hp.value");
       tempPath := Some (js "system.attributes.hp.temp");
       tempMaxPath := Some (js "system.attributes.hp.tempmax");
       damageSystem := false |}
  else if sys =?s js "pf2e" then
    {| hpPath := Some (js "system.attributes.hp.value");
       tempPath := Some (js "system.attributes.hp.temp");
       tempMaxPath := None;
       damageSystem := false |}
  else if sys =?s js "shadowdark" then
    {| hpPath := Some (js "system.hp.value");
       tempPath := None;
       tempMaxPath := None;
       damageSystem := false |}
  else
    {| hpPath := find_or_null (sample_doc sampleActor) MultiSystem.candidatesHP;
       tempPath := find_or_null (sample_doc sampleActor) MultiSystem.candidatesTemp;
       tempMaxPath := find_or_null (sample_doc sampleActor) MultiSystem.candidatesTempMax;
       damageSystem := false |}.

Definition resolvePaths (g : Game) (actor : option Actor) : PathTable :=
  let auto := getWorldBool g "autoDetectPaths" true in
  if auto then detectSystemPaths g actor
  else
    {| hpPath := getWorldPath g "hpPath";
       tempPath := getWorldPath g "tempHpPath";
       tempMaxPath := getWorldPath g "tempHpMaxPath";
       damageSystem := false |}.

Definition getDnd5eInspirationPath : jsstring := js "system.attributes.inspiration".
Definition successPath : jsstring := js "system.attributes.death.success".
Definition failurePath : jsstring := js "system.attributes.death.failure".

Definition getDisplayName (actor : Actor) : jsstring := clipName (tokenName actor).

Definition buildRecipients (g : Game) (actor : Actor) : list jsstring :=
  let gmUsers := List.filter isGM (users g) in
  let owners := owners_of g actor in
  let mode := nullish (npcAudience g) (vstr "gm-owners") in
  let recipients :=
    if is_string (prop (actor_props actor) "type") "npc" then
      if is_string mode "gm" then gmUsers
      else if is_string mode "gm-players" then
        let players := List.filter (fun u => negb (isGM u)) (users g) in
        uniq [gmUsers; players]
      else uniq [gmUsers; owners]
    else uniq [gmUsers; owners] in
  let recipients := match recipients with [] => gmUsers | _ => recipients end in
  List.map user_id recipients.

Definition coinLabel (denom systemId : jsstring) : jsstring :=
  let dnd5e := [(js "pp", js "Platinum"); (js "gp", js "Gold"); (js "ep", js "Electrum");
                (js "sp", js "Silver"); (js "cp", js "Copper")] in
  let pf2e := [(js "pp", js "Platinum"); (js "gp", js "Gold");
               (js "sp", js "Silver"); (js "cp", js "Copper")] in
  let map := if systemId =?s js "pf2e" then pf2e else dnd5e in
  match List.find (fun e => fst e =?s denom) map with
  | Some e => snd e
  | None => Monitor.toUpperCase denom
  end.

(** [options[MOD_ID]] *)
Record Currency := { basePath : jsstring; coins : list jsstring; old : gmap jsstring Z }.

Record Payload := {
  oldHP : option Z;
  oldTHP : option Z;
  oldTHPMax : option Z;
  oldInspiration : option bool;
  currency : option Currency;
  deathSaves : option (Z * Z)
}.

(** The [results] of [Hooks.on("updateActor")], lines 507-601. *)
Definition results (g : Game) (actor : Actor) (payload : Payload)
  : list (jsstring * string * string) :=
  let paths := resolvePaths g (Some actor) in
  let doc := actor_doc actor in
  let displayName := getDisplayName actor in
  (match oldHP payload with
   | Some oldHP =>
     if truthy_path (hpPath paths) then
       let newHP := readNumber doc (hpPath paths) in
       let delta := newHP - oldHP in
       if negb (delta =? 0) then
         let sign := sign_of delta in
         let mag := Z.abs delta in
         let line :=
           if damageSystem paths
           then displayName ++ js " Damage: " ++ show_Z oldHP ++ js " " ++ sign ++ js " "
                  ++ show_Z mag ++ js " → " ++ show_Z newHP
           else displayName ++ js " HP: " ++ show_Z oldHP ++ js " " ++ sign ++ js " "
                  ++ show_Z mag ++ js " → " ++ show_Z newHP in
         let cls :=
           if damageSystem paths then (if delta <? 0 then "hp-gain" else "hp-loss")
           else (if 0 <? delta then "hp-gain" else "hp-loss") in
         [(line, cls, "hp")]
       else []
     else []
   | None => []
   end)
  ++
  (match oldTHP payload with
   | Some oldTHP =>
     if truthy_path (tempPath paths) then
       let newTHP := readNumber doc (tempPath paths) in
       let deltaT := newTHP - oldTHP in
       if negb (deltaT =? 0) then
         let signT := sign_of deltaT in
         let magT := Z.abs deltaT in
         let line := displayName ++ js " Temp: " ++ show_Z oldTHP ++ js " " ++ signT ++ js " "
                       ++ show_Z magT ++ js " → " ++ show_Z newTHP in
         [(line, "hp-temp", "temp")]
       else []
     else []
   | None => []
   end)
  ++
  (match oldTHPMax payload with
   | Some oldTHPMax =>
     if truthy_path (tempMaxPath paths) then
       let newTHPMax := readNumber doc (tempMaxPath paths) in
       let deltaTM := newTHPMax - oldTHPMax in
       if negb (deltaTM =? 0) then
         let signTM := sign_of deltaTM in
         let magTM := Z.abs deltaTM in
         let line := displayName ++ js " Temp Max: " ++ show_Z oldTHPMax ++ js " " ++ signTM
                       ++ js " " ++ show_Z magTM ++ js " → " ++ show_Z newTHPMax in
         [(line, "hp-tempmax", "tempmax")]
       else []
     else []
   | None => []
   end)
  ++
  (match oldInspiration payload with
   | Some oldInsp =>
     if (system_id g =?s js "dnd5e") && getWorldBool g "trackDnd5eInspiration" false then
       let newInsp := ToBoolean (readRaw doc (Some getDnd5eInspirationPath)) in
       if negb (eqb newInsp oldInsp) then
         let line := if newInsp then displayName ++ js " gained Heroic Inspiration"
                     else displayName ++ js " spent Heroic Inspiration" in
         [(line, "hp-inspiration", "inspiration")]
       else []
     else []
   | None => []
   end)
  ++
  (match currency payload with
   | Some c =>
     if getWorldBool g "trackCurrency" false
        && ((system_id g =?s js "dnd5e") || (system_id g =?s js "pf2e")) then
       List.concat (List.map (fun k =>
         let oldAmt := match old c !! k with Some v => v | None => 0 end in
         let newAmt := readNumber doc (Some (basePath c ++ js "." ++ k)) in
         let delta := newAmt - oldAmt in
         if delta =? 0 then []
         else
           let sign := sign_of delta in
           let mag := Z.abs delta in
           let label := coinLabel k (system_id g) in
           let line := displayName ++ js " " ++ label ++ js ": " ++ show_Z oldAmt ++ js " "
                         ++ sign ++ js " " ++ show_Z mag ++ js " → " ++ show_Z newAmt in
           [(line, "hp-currency", "currency")]) (coins c))
     else []
   | None => []
   end)
  ++
  (match deathSaves payload with
   | Some (oldSucc, oldFail) =>
     if (system_id g =?s js "dnd5e") && getWorldBool g "trackDnd5eDeathSaves" false
        && is_string (prop (actor_props actor) "type") "character" then
       let newSucc := readNumber doc (Some successPath) in
       let newFail := readNumber doc (Some failurePath) in
       let succInc := oldSucc <? newSucc in
       let failInc := oldFail <? newFail in
       if succInc || failInc then
         let cls := if succInc then "hp-gain" else "hp-loss" in
         let line := displayName ++ js " " ++ show_Z newSucc ++ js " Death Save Successes, "
                       ++ show_Z newFail ++ js " Fails" in
         [(line, cls, "deathsave")]
       else []
     else []
   | None => []
   end).

(** [Hooks.on("updateActor")], lines 500-618, on a host that answers. *)
Definition updateActor (g : Game) (actor : Actor) (options : option Payload)
    (user : jsstring) : list ChatMessage :=
  if negb (user =?s userId g) then []
  else match options with
       | None => []
       | Some payload =>
         let whisper := buildRecipients g actor in
         List.map (MultiSystem.create whisper) (results g actor payload)
       end.

(** *** Items *)

Definition postItemMessage (g : Game) (actor : Actor) (line : jsstring) : ChatMessage :=
  {| content := div "hp-delta-line hp-multiline" line;
     whisper := buildRecipients g actor;
     kind := js "item";
     cls := js "hp-item" |}.

Definition dnd5eIsSpellPreparedLike (item : Item) : bool :=
  let method := ToString (nullish (readRaw (item_doc item) (Some (js "system.method")))
                                  (VString [])) in
  let preparedVal := readRaw (item_doc item) (Some (js "system.prepared")) in
  let prepared := ToBoolean preparedVal in
  if method =?s js "prepared" then prepared
  else if method =?s js "always" then true
  else if (method =?s []) && negb (is_undefined preparedVal) then prepared
  else false.

Definition computePreparedAfter (item : Item) (change : JsVal) : bool :=
  let has := hasProperty change in
  let get := getProperty change in
  let methodGiven :=
    if has (js "system.method") then Some (ToString (get (js "system.method")))
    else if has (js "system.preparation.mode")
         then Some (ToString (get (js "system.preparation.mode")))
         else None in
  let '(preparedGivenPresent, preparedGiven) :=
    if has (js "system.prepared") then (true, ToBoolean (get (js "system.prepared")))
    else if has (js "system.preparation.prepared")
         then (true, ToBoolean (get (js "system.preparation.prepared")))
         else (false, false) in
  let methodGiven :=
    if preparedGivenPresent && negb (bool_decide (is_Some methodGiven))
    then Some (js "prepared") else methodGiven in
  match methodGiven with
  | Some m =>
    if m =?s js "always" then true
    else if m =?s js "prepared" then
      if preparedGivenPresent then preparedGiven
      else ToBoolean (readRaw (item_doc item) (Some (js "system.prepared")))
    else false
  | None => dnd5eIsSpellPreparedLike item
  end.

(** The entry of [ITEM_UPDATE_STASH] for an item. *)
Record ItemStash := { oldQty : option Z; oldName : option jsstring }.

(** [Hooks.on("updateItem")], lines 675-738, on a host that answers: the
    stash afterwards and the messages created, in order. *)
Definition updateItem (g : Game) (item : Item) (change : JsVal) (user : jsstring)
    (ITEM_UPDATE_STASH : gmap jsstring ItemStash)
  : gmap jsstring ItemStash * list ChatMessage :=
  if negb (user =?s userId g) then (ITEM_UPDATE_STASH, [])
  else match item_parent item with
  | None => (ITEM_UPDATE_STASH, [])
  | Some actor =>
    let stash := default {| oldQty := None; oldName := None |}
                         (ITEM_UPDATE_STASH !! item_uuid item) in
    let displayName := getDisplayName actor in
    (delete (item_uuid item) ITEM_UPDATE_STASH,
     (match oldQty stash with
      | Some oldQty =>
        if getWorldBool g "trackItemChanges" false then
          let newQty := Monitor.or_number
                          (readNumber (item_doc item) (Some (js "system.quantity"))) 0 in
          if negb (newQty =? oldQty) then
            let sign := sign_of (newQty - oldQty) in
            let mag := Z.abs (newQty - oldQty) in
            let safeItemName := clipName (prop (item_props item) "name") in
            let line := displayName ++ js "'s Item: " ++ safeItemName ++ js " — "
                          ++ show_Z oldQty ++ js " " ++ sign ++ js " " ++ show_Z mag
                          ++ js " → " ++ show_Z newQty in
            [postItemMessage g actor line]
          else []
        else []
      | None => []
      end)
     ++
     (match oldName stash with
      | Some oldName =>
        if getWorldBool g "trackItemChanges" false then
          let newName := ToString (nullish (prop (item_props item) "name") (VString [])) in
          if negb (newName =?s oldName) then
            let safeOld := clipName (VString oldName) in
            let safeNew := clipName (VString newName) in
            let line := displayName ++ js "'s Item renamed: " ++ safeOld ++ js " → "
                          ++ safeNew in
            [postItemMessage g actor line]
          else []
        else []
      | None => []
      end)
     ++
     (if (system_id g =?s js "dnd5e") && getWorldBool g "trackDnd5eSpellPrep" false
         && is_string (prop (item_props item) "type") "spell" then
        let changedPrepared :=
          willUpdatePath change (Some (js "system.prepared"))
          || willUpdatePath change (Some (js "system.preparation.prepared")) in
        let changedMethod :=
          willUpdatePath change (Some (js "system.method"))
          || willUpdatePath change (Some (js "system.preparation.mode")) in
        if changedPrepared || changedMethod then
          let effectivePrepared := computePreparedAfter item change in
          let prefix := if effectivePrepared then js "prepared" else js "unprepared" in
          let safeItemName := clipName (prop (item_props item) "name") in
          let spellLevel := readNumber (item_doc item) (Some (js "system.level")) in
          let levelTxt := js " (Lv " ++ show_Z spellLevel ++ js ")" in
          [{| content := div "hp-delta-line hp-multiline"
                           (displayName ++ js " " ++ prefix ++ js ": " ++ safeItemName
                            ++ levelTxt);
              whisper := buildRecipients g actor;
              kind := js "spellprep";
              cls := js "hp-spellprep" |}]
        else []
      else []))
  end.
End Tracker.

Module Coalesced.
(** scripts/hp-delta.mjs, lines 1156-1695.  [clipName], [getActorLink] and
    [buildRecipients] (1177-1188, 1272-1284) have the text of lines 430-441
    and 530-542. *)
Definition clipName := Monitor.clipName.
Definition getActorLink := Monitor.getActorLink.
Definition buildRecipients := Monitor.buildRecipients.

(** What [preDeleteItem] keeps for [deleteItem]. *)
Record DeleteStash := {
  stash_link : jsstring;
  stash_whisper : list jsstring;
  stash_name : jsstring;
  stash_qty : Z;
  stash_hasQty : bool
}.

(** Lines 1649-1660. *)
Definition preDeleteItem (g : Game) (item : Item)
    (ITEM_DELETE_STASH : gmap jsstring DeleteStash) : gmap jsstring DeleteStash :=
  if negb (getWorldBool g "trackItemChanges" false) then ITEM_DELETE_STASH
  else match item_parent item with
       | None => ITEM_DELETE_STASH
       | Some parent =>
         <[item_uuid item :=
             {| stash_link := getActorLink parent;
                stash_whisper := buildRecipients g parent;
                stash_name := clipName (prop (item_props item) "name");
                stash_qty := readNumber (item_doc item) (Some (js "system.quantity"));
                stash_hasQty := hasProperty (item_doc item) (js "system.quantity") |}]>
           ITEM_DELETE_STASH
       end.

(** Lines 1662-1686. *)
Definition deleteItem (g : Game) (item : Item) (user : jsstring)
    (ITEM_DELETE_STASH : gmap jsstring DeleteStash)
  : gmap jsstring DeleteStash * list ChatMessage :=
  if negb (user =?s userId g) || negb (getWorldBool g "trackItemChanges" false)
  then (ITEM_DELETE_STASH, [])
  else
    let payload := ITEM_DELETE_STASH !! item_uuid item in
    let stash' := delete (item_uuid item) ITEM_DELETE_STASH in
    match payload with
    | None => (stash', [])
    | Some p =>
      let oldQty := stash_qty p in
      if stash_hasQty p && (oldQty =? 0) then (stash', [])
      else
        let treatAsSingleton := negb (stash_hasQty p) || (oldQty <=? 1) in
        let icon := icon "fa-solid fa-backpack" in
        let line :=
          if treatAsSingleton
          then icon ++ js " " ++ stash_link p ++ js " Item deleted: " ++ stash_name p
          else icon ++ js " " ++ stash_link p ++ js "'s Item: " ++ stash_name p ++ js " — "
                 ++ show_Z oldQty ++ js " - " ++ show_Z oldQty ++ js " → 0" in
        (stash',
         [{| content := div "tiny-monitor-line tm-multiline" line;
             whisper := stash_whisper p;
             kind := js "item";
             cls := js "tiny-monitor-item-dec" |}])
    end.
End Coalesced.

(** * Host calls that raise *)

Module Boundary.

(** A host call answers or raises. *)
Inductive Outcome (A : Type) : Type :=
| Returns (a : A)
| Raises (error : jsstring).

Arguments Returns {A} a.
Arguments Raises {A} error.

Definition bind {A B} (c : Outcome A) (k : A -> Outcome B) : Outcome B :=
  match c with
  | Returns a => k a
  | Raises e => Raises e
  end.

Notation "x <- c ;; k" := (bind c (fun x => k))
  (at level 100, c at next level, right associativity).

(** The calls into the host that the hooks make, and that may raise:
    [game.settings.get], [foundry.utils.getProperty] and [hasProperty],
    [actor.testUserPermission], [actor.getActiveTokens],
    [ChatMessage.create], [message.getFlag], [game.actors.get], and on the
    rendered element [closest], [find] and [classList.add] or [addClass].
    Reading a field of a document or of an object of the module does not
    raise. *)
Inductive HostCall :=
| SettingsGet (key : jsstring)
| GetProperty (key : jsstring)
| HasProperty (key : jsstring)
| TestUserPermission (user : jsstring)
| GetActiveTokens
| ChatMessageCreate (content : jsstring)
| GetFlag (key : jsstring)
| ActorsGet (id : JsVal)
| Closest (selector : jsstring)
| Find (selector : jsstring)
| AddClass (cls : jsstring).

(** A host: the game as before, and the calls that raise, with their errors. *)
Record Host := {
  game : Game;
  raises : HostCall -> option jsstring
}.

(** The host whose calls all answer. *)
Definition answering (g : Game) : Host := {| game := g; raises := fun _ => None |}.

Definition call {A} (h : Host) (c : HostCall) (answer : A) : Outcome A :=
  match raises h c with
  | Some e => Raises e
  | None => Returns answer
  end.

(** [game.settings.get(MOD_ID, key)] *)
Definition settings_get (h : Host) (key : jsstring) : Outcome JsVal :=
  match settings (game h) key with
  | Some v => call h (SettingsGet key) v
  | None => Raises (js "not a registered game setting")
  end.

(** [foundry.utils.getProperty], [foundry.utils.hasProperty] *)
Definition get (h : Host) (object : JsVal) (key : jsstring) : Outcome JsVal :=
  call h (GetProperty key) (getProperty object key).

Definition has (h : Host) (object : JsVal) (key : jsstring) : Outcome bool :=
  call h (HasProperty key) (hasProperty object key).

(** [list.find(f)], [list.filter(f)], [list.some(f)], [list.map(f)] with a
    callback that may raise: the elements are visited in order. *)
Fixpoint findE {A} (f : A -> Outcome bool) (l : list A) : Outcome (option A) :=
  match l with
  | [] => Returns None
  | x :: r => b <- f x ;; if b then Returns (Some x) else findE f r
  end.

Fixpoint filterE {A} (f : A -> Outcome bool) (l : list A) : Outcome (list A) :=
  match l with
  | [] => Returns []
  | x :: r => b <- f x ;; rest <- filterE f r ;; Returns (if b then x :: rest else rest)
  end.

Fixpoint someE {A} (f : A -> Outcome bool) (l : list A) : Outcome bool :=
  match l with
  | [] => Returns false
  | x :: r => b <- f x ;; if b then Returns true else someE f r
  end.

Fixpoint mapE {A B} (f : A -> Outcome B) (l : list A) : Outcome (list B) :=
  match l with
  | [] => Returns []
  | x :: r => y <- f x ;; rest <- mapE f r ;; Returns (y :: rest)
  end.

(** The utilities, as in every revision with configurable paths.  The two
    setting readers catch what [game.settings.get] raises. *)
Definition getWorldBool (h : Host) (key : string) (def : bool) : bool :=
  match settings_get h (js key) with
  | Returns v => ToBoolean v
  | Raises _ => def
  end.

Definition getWorldPath (h : Host) (key : string) : option jsstring :=
  match settings_get h (js key) with
  | Returns (VString v) =>
    match trim v with
    | [] => None
    | s => Some s
    end
  | _ => None
  end.

Definition readNumber (h : Host) (doc : JsVal) (path : option jsstring) : Outcome Z :=
  if negb (truthy_path path) then Returns 0
  else match path with
       | Some p => v <- get h doc p ;;
                   Returns (match ToNumber v with Fin z => z | _ => 0 end)
       | None => Returns 0
       end.

Definition readRaw (h : Host) (doc : JsVal) (path : option jsstring) : Outcome JsVal :=
  if negb (truthy_path path) then Returns VUndefined
  else match path with
       | Some p => get h doc p
       | None => Returns VUndefined
       end.

Definition willUpdatePath (h : Host) (update : JsVal) (path : option jsstring)
  : Outcome bool :=
  match path with
  | Some p => if truthy_path path then has h update p else Returns false
  | None => Returns false
  end.

(** [candidates.find(p => Number.isFinite(Number(getProperty(sample, p)))) || null] *)
Definition find_or_null (h : Host) (sample : JsVal) (candidates : list jsstring)
  : Outcome (option jsstring) :=
  r <- findE (fun p => v <- get h sample p ;; Returns (isFinite (ToNumber v))) candidates ;;
  Returns (match r with Some (c :: p) => Some (c :: p) | _ => None end).

(** What a hook leaves behind: the chat log, the console, the classes of
    the rendered message element and those of its [.message-content]. *)
Record State := {
  chat : list ChatMessage;
  console : list (string * jsstring);
  classes : list jsstring;
  content_classes : list jsstring
}.

(** [console.error(label, err)] *)
Definition log (label : string) (err : jsstring) (st : State) : State :=
  {| chat := chat st; console := console st ++ [(label, err)];
     classes := classes st; content_classes := content_classes st |}.

(** The chat log with one more message. *)
Definition posted (m : ChatMessage) (st : State) : State :=
  {| chat := chat st ++ [m]; console := console st;
     classes := classes st; content_classes := content_classes st |}.

(** [element.classList.add(cls)], [html.addClass(cls)]: a class list holds a
    class once. *)
Definition class_added (cls : jsstring) (l : list jsstring) : list jsstring :=
  if existsb (fun c => c =?s cls) l then l else l ++ [cls].

Definition classList_add (cls : jsstring) (st : State) : State :=
  {| chat := chat st; console := console st;
     classes := class_added cls (classes st); content_classes := content_classes st |}.

Definition content_addClass (cls : jsstring) (st : State) : State :=
  {| chat := chat st; console := console st;
     classes := classes st; content_classes := class_added cls (content_classes st) |}.

(** An effect on a state.  Inside an [async] callback [Raises] is the
    rejection of an awaited promise. *)
Definition Run (A : Type) : Type := State -> State * Outcome A.

(** [await ChatMessage.create(message)] *)
Definition create (h : Host) (m : ChatMessage) : Run unit :=
  fun st =>
    match raises h (ChatMessageCreate (content m)) with
    | Some e => (st, Raises e)
    | None => (posted m st, Returns tt)
    end.

(** [for (const r of results) await ChatMessage.create(...)] *)
Fixpoint create_all (h : Host) (ms : list ChatMessage) : Run unit :=
  fun st =>
    match ms with
    | [] => (st, Returns tt)
    | m :: r =>
      match create h m st with
      | (st', Returns _) => create_all h r st'
      | (st', Raises e) => (st', Raises e)
      end
    end.

(** ** Callbacks that write a store

    [options[MOD_ID]] and the two [WeakMap]s of unnamed/part_002 are written
    while a callback runs: what a callback wrote before a call raised stays
    written.  A [Step] threads such a store [S] beside the state. *)

Definition Step (S A : Type) : Type := S -> State -> S * State * Outcome A.

Definition ret {S A} (a : A) : Step S A := fun s st => (s, st, Returns a).

Definition and_then {S A B} (c : Step S A) (k : A -> Step S B) : Step S B :=
  fun s st =>
    match c s st with
    | (s', st', Returns a) => k a s' st'
    | (s', st', Raises e) => (s', st', Raises e)
    end.

Notation "x <~ c ;; k" := (and_then c (fun x => k))
  (at level 100, c at next level, right associativity).

(** A host call, which reads. *)
Definition host {S A} (c : Outcome A) : Step S A := fun s st => (s, st, c).

Definition load {S} : Step S S := fun s st => (s, st, Returns s).

Definition store {S} (s : S) : Step S unit := fun _ st => (s, st, Returns tt).

(** [await ChatMessage.create(message)], once and in a loop. *)
Definition post {S} (h : Host) (m : ChatMessage) : Step S unit :=
  fun s st => let (st', r) := create h m st in (s, st', r).

Definition post_all {S} (h : Host) (ms : list ChatMessage) : Step S unit :=
  fun s st => let (st', r) := create_all h ms st in (s, st', r).

(** A call on the rendered element that, when it answers, changes it. *)
Definition render {S} (h : Host) (c : HostCall) (change : State -> State) : Step S unit :=
  fun s st =>
    match call h c tt with
    | Returns _ => (s, change st, Returns tt)
    | Raises e => (s, st, Raises e)
    end.

(** [try { body } catch (err) { console.error(label, err) }] around the
    whole of a callback. *)
Definition try_step {S} (body : Step S unit) (label : string) : Step S unit :=
  fun s st =>
    match body s st with
    | (s', st', Raises err) => (s', log label err st', Returns tt)
    | (s', st', Returns _) => (s', st', Returns tt)
    end.

(** The name resolution of the revisions without links: [actor.name], the
    token's name on a token actor, else the first active token's. *)
Definition tokenName (h : Host) (actor : Actor) : Outcome JsVal :=
  let name := prop (actor_props actor) "name" in
  if actor_isToken actor && bool_decide (is_Some (actor_token actor)) then
    Returns (match actor_token actor with
             | Some t => js_or (token_name t) name
             | None => name
             end)
  else
    active <- call h GetActiveTokens (getActiveTokens actor) ;;
    Returns (match active with
             | t :: _ => js_or (token_name t) name
             | [] => name
             end).

(** [game.users.filter(u => actor.testUserPermission?.(u, OWNER))] *)
Definition owners_of (h : Host) (actor : Actor) : Outcome (list User) :=
  match testUserPermission actor with
  | Some test =>
    filterE (fun u => call h (TestUserPermission (user_id u)) (test u)) (users (game h))
  | None => Returns []
  end.

(** ** The guarded hooks of scripts/hp-delta.mjs, lines 1-409 *)

Module Guarded.

Definition detectSystemPaths (h : Host) (sampleActor : option Actor) : Outcome PathTable :=
  let sys := system_id (game h) in
  if sys =?s js "dnd5e" then
    Returns {| hpPath := Some (js "system.attributes.hp.value");
               tempPath := Some (js "system.attributes.hp.temp");
               tempMaxPath := Some (js "system.attributes.hp.tempmax");
               damageSystem := false |}
  else if sys =?s js "pf2e" then
    Returns {| hpPath := Some (js "system.attributes.hp.value");
               tempPath := Some (js "system.attributes.hp.temp");
               tempMaxPath := None;
               damageSystem := false |}
  else if sys =?s js "shadowdark" then
    Returns {| hpPath := Some (js "system.hp.value");
               tempPath := None;
               tempMaxPath := None;
               damageSystem := false |}
  else
    hp <- find_or_null h (sample_doc sampleActor) MultiSystem.candidatesHP ;;
    temp <- find_or_null h (sample_doc sampleActor) MultiSystem.candidatesTemp ;;
    tempMax <- find_or_null h (sample_doc sampleActor) MultiSystem.candidatesTempMax ;;
    Returns {| hpPath := hp; tempPath := temp; tempMaxPath := tempMax;
               damageSystem := false |}.

Definition resolvePaths (h : Host) (actor : option Actor) : Outcome PathTable :=
  let auto := getWorldBool h "autoDetectPaths" true in
  if auto then detectSystemPaths h actor
  else
    Returns {| hpPath := getWorldPath h "hpPath";
               tempPath := getWorldPath h "tempHpPath";
               tempMaxPath := getWorldPath h "tempHpMaxPath";
               damageSystem := false |}.

Definition getDisplayName (h : Host) (actor : Actor) : Outcome jsstring :=
  let name := prop (actor_props actor) "name" in
  if actor_isToken actor && bool_decide (is_Some (actor_token actor)) then
    Returns (MultiSystem.clipName
               (match actor_token actor with
                | Some t => js_or (token_name t) name
                | None => name
                end))
  else
    active <- call h GetActiveTokens (getActiveTokens actor) ;;
    Returns (MultiSystem.clipName
               (match active with
                | t :: _ => js_or (token_name t) name
                | [] => name
                end)).

Definition buildRecipients (h : Host) (actor : Actor) : Outcome (list jsstring) :=
  let gmUsers := List.filter isGM (users (game h)) in
  owners <- match testUserPermission actor with
            | Some test =>
              filterE (fun u => call h (TestUserPermission (user_id u)) (test u))
                      (users (game h))
            | None => Returns []
            end ;;
  raw <- call h (SettingsGet (js "npcAudience")) (npcAudience (game h)) ;;
  let mode := nullish raw (vstr "gm-owners") in
  let recipients :=
    if is_string (prop (actor_props actor) "type") "npc" then
      if is_string mode "gm" then gmUsers
      else if is_string mode "gm-players" then
        let players := List.filter (fun u => negb (isGM u)) (users (game h)) in
        uniq [gmUsers; players]
      else uniq [gmUsers; owners]
    else uniq [gmUsers; owners] in
  let recipients := match recipients with [] => gmUsers | _ => recipients end in
  Returns (List.map user_id recipients).

(** Lines 277-300: [options[MOD_ID]] after them.  Every read comes before
    the first write to [options]. *)
Definition stashed (h : Host) (actor : Actor) (update : JsVal)
    (options : option MultiSystem.Payload) : Outcome (option MultiSystem.Payload) :=
  let doc := actor_doc actor in
  paths <- resolvePaths h (Some actor) ;;
  willHP <- willUpdatePath h update (hpPath paths) ;;
  willTHP <- willUpdatePath h update (tempPath paths) ;;
  willTHPMax <- willUpdatePath h update (tempMaxPath paths) ;;
  let inspEnabled := (system_id (game h) =?s js "dnd5e")
                     && getWorldBool h "trackDnd5eInspiration" false in
  let inspPath := if inspEnabled then Some MultiSystem.getDnd5eInspirationPath else None in
  willInsp <- (if truthy_path inspPath then willUpdatePath h update inspPath
               else Returns false) ;;
  if negb willHP && negb willTHP && negb willTHPMax && negb willInsp then Returns options
  else
    oldHP <- readNumber h doc (hpPath paths) ;;
    oldTHP <- readNumber h doc (tempPath paths) ;;
    oldTHPMax <- readNumber h doc (tempMaxPath paths) ;;
    oldInsp <- match inspPath with
               | Some _ => v <- readRaw h doc inspPath ;; Returns (Some (ToBoolean v))
               | None => Returns None
               end ;;
    let stash := default MultiSystem.empty_payload options in
    Returns (Some
      {| MultiSystem.oldHP := if willHP then Some oldHP else MultiSystem.oldHP stash;
         MultiSystem.oldTHP := if willTHP then Some oldTHP else MultiSystem.oldTHP stash;
         MultiSystem.oldTHPMax :=
           if willTHPMax then Some oldTHPMax else MultiSystem.oldTHPMax stash;
         MultiSystem.oldInspiration :=
           if willInsp then oldInsp else MultiSystem.oldInspiration stash |}).

(** The body of the [try] of [preUpdateActor], on [options[MOD_ID]]. *)
Definition preUpdateActor_body (h : Host) (actor : Actor) (update : JsVal)
  : Step (option MultiSystem.Payload) unit :=
  options <~ load ;;
  stash <~ host (stashed h actor update options) ;;
  store stash.

(** [Hooks.on("preUpdateActor")], lines 275-304. *)
Definition preUpdateActor (h : Host) (actor : Actor) (update : JsVal)
  : Step (option MultiSystem.Payload) unit :=
  try_step (preUpdateActor_body h actor update) "[tiny-hp-monitor] preUpdateActor error".

(** Lines 318-375: the messages to create; every read of the hook is here. *)
Definition plan (h : Host) (actor : Actor) (payload : MultiSystem.Payload)
  : Outcome (list ChatMessage) :=
  let doc := actor_doc actor in
  paths <- resolvePaths h (Some actor) ;;
  displayName <- getDisplayName h actor ;;
  whisper <- buildRecipients h actor ;;
  hp <- match MultiSystem.oldHP payload with
        | Some oldHP =>
          if truthy_path (hpPath paths) then
            newHP <- readNumber h doc (hpPath paths) ;;
            let delta := newHP - oldHP in
            Returns
              (if negb (delta =? 0) then
                 [(displayName ++ js " HP: " ++ show_Z oldHP ++ js " " ++ sign_of delta
                     ++ js " " ++ show_Z (Z.abs delta) ++ js " → " ++ show_Z newHP,
                   if 0 <? delta then "hp-gain" else "hp-loss", "hp")]
               else [])
          else Returns []
        | None => Returns []
        end ;;
  temp <- match MultiSystem.oldTHP payload with
          | Some oldTHP =>
            if truthy_path (tempPath paths) then
              newTHP <- readNumber h doc (tempPath paths) ;;
              let deltaT := newTHP - oldTHP in
              Returns
                (if negb (deltaT =? 0) then
                   [(displayName ++ js " Temp: " ++ show_Z oldTHP ++ js " " ++ sign_of deltaT
                       ++ js " " ++ show_Z (Z.abs deltaT) ++ js " → " ++ show_Z newTHP,
                     "hp-temp", "temp")]
                 else [])
            else Returns []
          | None => Returns []
          end ;;
  tempmax <- match MultiSystem.oldTHPMax payload with
             | Some oldTHPMax =>
               if truthy_path (tempMaxPath paths) then
                 newTHPMax <- readNumber h doc (tempMaxPath paths) ;;
                 let deltaTM := newTHPMax - oldTHPMax in
                 Returns
                   (if negb (deltaTM =? 0) then
                      [(displayName ++ js " Temp Max: " ++ show_Z oldTHPMax ++ js " "
                          ++ sign_of deltaTM ++ js " " ++ show_Z (Z.abs deltaTM) ++ js " → "
                          ++ show_Z newTHPMax,
                        "hp-tempmax", "tempmax")]
                    else [])
               else Returns []
             | None => Returns []
             end ;;
  insp <- match MultiSystem.oldInspiration payload with
          | Some oldInsp =>
            if (system_id (game h) =?s js "dnd5e")
               && getWorldBool h "trackDnd5eInspiration" false then
              v <- readRaw h doc (Some MultiSystem.getDnd5eInspirationPath) ;;
              let newInsp := ToBoolean v in
              Returns
                (if negb (eqb newInsp oldInsp) then
                   [(if newInsp then displayName ++ js " gained Heroic Inspiration"
                     else displayName ++ js " spent Heroic Inspiration",
                     "hp-inspiration", "inspiration")]
                 else [])
            else Returns []
          | None => Returns []
          end ;;
  Returns (List.map (MultiSystem.create whisper) (hp ++ temp ++ tempmax ++ insp)).

(** The body of the [try] of [updateActor], lines 313-388. *)
Definition updateActor_body (h : Host) (actor : Actor)
    (options : option MultiSystem.Payload) (user : jsstring) : Step unit unit :=
  if negb (user =?s userId (game h)) then ret tt
  else match options with
       | None => ret tt
       | Some payload =>
         messages <~ host (plan h actor payload) ;;
         post_all h messages
       end.

(** [Hooks.on("updateActor")], lines 311-392. *)
Definition updateActor (h : Host) (actor : Actor)
    (options : option MultiSystem.Payload) (user : jsstring) : Step unit unit :=
  try_step (updateActor_body h actor options user) "[tiny-hp-monitor] updateActor error".

(** The body of the [try] of [renderChatMessage], lines 400-405.  [flags]
    are the module's flags on the message; [li] tells whether the rendered
    html has a [.chat-message] element, whose class list is [classes]. *)
Definition renderChatMessage_body (h : Host) (flags : jsstring -> JsVal) (li : bool)
  : Step unit unit :=
  isHpDelta <~ host (call h (GetFlag (js "isHpDelta")) (flags (js "isHpDelta"))) ;;
  if negb (ToBoolean isHpDelta) then ret tt
  else
    found <~ host (call h (Closest (js ".chat-message")) li) ;;
    if negb found then ret tt
    else
      done <~ render h (AddClass (js "hp-delta")) (classList_add (js "hp-delta")) ;;
      cls <~ host (call h (GetFlag (js "cls")) (flags (js "cls"))) ;;
      if ToBoolean cls
      then render h (AddClass (ToString cls)) (classList_add (ToString cls))
      else ret tt.

(** [Hooks.on("renderChatMessage")], lines 398-409. *)
Definition renderChatMessage (h : Host) (flags : jsstring -> JsVal) (li : bool)
  : Step unit unit :=
  try_step (renderChatMessage_body h flags li) "[tiny-hp-monitor] renderChatMessage error".

End Guarded.

(** ** The unguarded [preUpdateActor] of scripts/hp-delta.mjs, lines 710-758 *)

Module Unguarded.

Definition detectSystemPaths (h : Host) (sampleActor : option Actor) : Outcome PathTable :=
  let sys := system_id (game h) in
  if sys =?s js "dnd5e" then
    Returns {| hpPath := Some (js "system.attributes.hp.value");
               tempPath := Some (js "system.attributes.hp.temp");
               tempMaxPath := Some (js "system.attributes.hp.tempmax");
               damageSystem := false |}
  else if sys =?s js "pf2e" then
    Returns {| hpPath := Some (js "system.attributes.hp.value");
               tempPath := Some (js "system.attributes.hp.temp");
               tempMaxPath := None;
               damageSystem := false |}
  else if sys =?s js "shadowdark" then
    Returns {| hpPath := Some (js "system.hp.value");
               tempPath := None;
               tempMaxPath := None;
               damageSystem := false |}
  else
    hp <- find_or_null h (sample_doc sampleActor) Monitor.candidatesHP ;;
    temp <- find_or_null h (sample_doc sampleActor) Monitor.candidatesTemp ;;
    tempMax <- find_or_null h (sample_doc sampleActor) Monitor.candidatesTempMax ;;
    Returns {| hpPath := hp; tempPath := temp; tempMaxPath := tempMax;
               damageSystem := false |}.

Definition resolvePaths (h : Host) (actor : option Actor) : Outcome PathTable :=
  if getWorldBool h "autoDetectPaths" true then detectSystemPaths h actor
  else
    Returns {| hpPath := getWorldPath h "hpPath";
               tempPath := getWorldPath h "tempHpPath";
               tempMaxPath := getWorldPath h "tempHpMaxPath";
               damageSystem := false |}.

Definition detectCurrencyInfo (h : Host) (actor : Actor)
  : Outcome (option jsstring * list jsstring) :=
  let manualBase := getWorldPath h "currencyBasePath" in
  let candidates :=
    match manualBase with
    | Some b => [b]
    | None => if system_id (game h) =?s js "pf2e"
              then [js "system.currencies"; js "system.currency"]
              else [js "system.currency"]
    end in
  found <- findE (fun p => o <- get h (actor_doc actor) p ;; Returns (Monitor.is_object o))
                 candidates ;;
  match found with
  | Some (c :: p) =>
    (* the object found is the one the loop has just read *)
    let obj := getProperty (actor_doc actor) (c :: p) in
    Returns (Some (c :: p),
             List.filter (Monitor.hasOwnProperty obj)
                         [js "pp"; js "gp"; js "ep"; js "sp"; js "cp"])
  | _ => Returns (None, [])
  end.

(** [Hooks.on("preUpdateActor")], lines 710-758: no [try]; what the callback
    raises reaches its caller.  [None] when it returns without a stash. *)
Definition preUpdateActor (h : Host) (actor : Actor) (update : JsVal)
  : Outcome (option Monitor.Payload.t) :=
  let doc := actor_doc actor in
  paths <- resolvePaths h (Some actor) ;;
  let sys := system_id (game h) in
  willHP <- willUpdatePath h update (hpPath paths) ;;
  willTHP <- willUpdatePath h update (tempPath paths) ;;
  willTHPMax <- willUpdatePath h update (tempMaxPath paths) ;;
  let inspPath :=
    if (sys =?s js "dnd5e") && getWorldBool h "trackDnd5eInspiration" false
    then Some Monitor.getDnd5eInspirationPath else None in
  willInsp <- (if truthy_path inspPath then willUpdatePath h update inspPath
               else Returns false) ;;
  currencyPayload <-
    (if getWorldBool h "trackCurrency" false && ((sys =?s js "dnd5e") || (sys =?s js "pf2e"))
     then
       info <- detectCurrencyInfo h actor ;;
       match fst info with
       | Some base =>
         if truthy_path (fst info) && negb (Nat.eqb (length (snd info)) 0) then
           baseChanged <- willUpdatePath h update (fst info) ;;
           anyChanged <-
             (if baseChanged then Returns true
              else someE (fun k => willUpdatePath h update (Some (base ++ js "." ++ k)))
                         (snd info)) ;;
           Returns (if anyChanged then Some (base, snd info) else None)
         else Returns None
       | None => Returns None
       end
     else Returns None) ;;
  deathPayload <-
    (if (sys =?s js "dnd5e") && getWorldBool h "trackDnd5eDeathSaves" false
        && is_string (prop (actor_props actor) "type") "character" then
       willSucc <- willUpdatePath h update (Some Monitor.successPath) ;;
       will <- (if willSucc then Returns true
                else willUpdatePath h update (Some Monitor.failurePath)) ;;
       if will then
         oldSucc <- readNumber h doc (Some Monitor.successPath) ;;
         oldFail <- readNumber h doc (Some Monitor.failurePath) ;;
         Returns (Some (oldSucc, oldFail))
       else Returns None
     else Returns None) ;;
  spellSlotsPayload <-
    (if (sys =?s js "dnd5e") && getWorldBool h "trackDnd5eSpellSlots" true then
       changedSlots <- filterE (fun s => willUpdatePath h update (Some (snd s)))
                               Monitor.getDnd5eSpellSlotPaths ;;
       if (0 <? length changedSlots)%nat then
         slots <- mapE (fun s => v <- readNumber h doc (Some (snd s)) ;;
                                 Returns {| Monitor.level := fst s; Monitor.path := snd s;
                                            Monitor.oldValue := v |}) changedSlots ;;
         Returns (Some slots)
       else Returns None
     else Returns None) ;;
  if negb willHP && negb willTHP && negb willTHPMax && negb willInsp
     && negb (bool_decide (is_Some currencyPayload))
     && negb (bool_decide (is_Some deathPayload))
     && negb (bool_decide (is_Some spellSlotsPayload))
  then Returns None
  else
    oldHP <- (if willHP then v <- readNumber h doc (hpPath paths) ;; Returns (Some v)
              else Returns None) ;;
    oldTHP <- (if willTHP then v <- readNumber h doc (tempPath paths) ;; Returns (Some v)
               else Returns None) ;;
    oldTHPMax <- (if willTHPMax then v <- readNumber h doc (tempMaxPath paths) ;;
                                     Returns (Some v)
                  else Returns None) ;;
    oldInspiration <- (if willInsp then v <- readRaw h doc inspPath ;;
                                        Returns (Some (ToBoolean v))
                       else Returns None) ;;
    currency <-
      match currencyPayload with
      | Some (base, coins) =>
        entries <- mapE (fun k => v <- readNumber h doc (Some (base ++ js "." ++ k)) ;;
                                  Returns (k, v)) coins ;;
        Returns (Some {| Monitor.Payload.basePath := base;
                         Monitor.Payload.coins := coins;
                         Monitor.Payload.old := Monitor.fromEntries entries |})
      | None => Returns None
      end ;;
    Returns (Some
      {| Monitor.Payload.oldHP := oldHP;
         Monitor.Payload.oldTHP := oldTHP;
         Monitor.Payload.oldTHPMax := oldTHPMax;
         Monitor.Payload.oldInspiration := oldInspiration;
         Monitor.Payload.currency := currency;
         Monitor.Payload.deathSaves := deathPayload;
         Monitor.Payload.spellSlots := spellSlotsPayload |}).

End Unguarded.

(** ** The guarded hooks of unnamed/part_003 *)

Module GuardedReporter.

Definition empty_payload : Reporter.Payload :=
  {| Reporter.oldHP := None; Reporter.oldTHP := None; Reporter.oldTHPMax := None |}.

(** [actor.system?.attributes?.hp ?? {}] *)
Definition hp_of (actor : Actor) : JsVal :=
  nullish (member (member (prop (actor_props actor) "system") "attributes") "hp")
          (VObject []).

(** The body of the [try] of [preUpdateActor], lines 22-42, on
    [options[MOD_ID]]: the three [hasProperty] calls come before the writes. *)
Definition preUpdateActor_body (h : Host) (actor : Actor) (update : JsVal)
  : Step (option Reporter.Payload) unit :=
  if negb (system_id (game h) =?s js "dnd5e") then ret tt
  else
    willHP <~ host (has h update (js "system.attributes.hp.value")) ;;
    willTHP <~ host (has h update (js "system.attributes.hp.temp")) ;;
    willTHPMax <~ host (has h update (js "system.attributes.hp.tempmax")) ;;
    if negb willHP && negb willTHP && negb willTHPMax then ret tt
    else
      let hp := hp_of actor in
      let oldHP := ToNumber (nullish (member hp "value") (vnum 0)) in
      let oldTHP := ToNumber (nullish (member hp "temp") (vnum 0)) in
      let oldTHPMax := ToNumber (nullish (member hp "tempmax") (vnum 0)) in
      options <~ load ;;
      let stash := default empty_payload options in
      store (Some
        {| Reporter.oldHP := if willHP then Some oldHP else Reporter.oldHP stash;
           Reporter.oldTHP := if willTHP then Some oldTHP else Reporter.oldTHP stash;
           Reporter.oldTHPMax :=
             if willTHPMax then Some oldTHPMax else Reporter.oldTHPMax stash |}).

(** [Hooks.on("preUpdateActor")], lines 20-46. *)
Definition preUpdateActor (h : Host) (actor : Actor) (update : JsVal)
  : Step (option Reporter.Payload) unit :=
  try_step (preUpdateActor_body h actor update) "[tiny-hp-monitor] preUpdateActor error".

(** Lines 58-116: the messages to create; every read of the hook is here. *)
Definition plan (h : Host) (actor : Actor) (payload : Reporter.Payload)
  : Outcome (list ChatMessage) :=
  let g := game h in
  let hp := hp_of actor in
  name <- tokenName h actor ;;
  let tokenName := ToString name in
  let gmUsers := List.filter isGM (users g) in
  recipients <- (if is_string (prop (actor_props actor) "type") "npc" then Returns gmUsers
                 else owners <- owners_of h actor ;;
                      Returns (uniq [gmUsers ++ owners])) ;;
  let whisper := List.map user_id recipients in
  let whisper := match whisper with [] => [userId g] | _ => whisper end in
  let results :=
    (match Reporter.oldHP payload with
     | Some oldHP =>
       let newHP := ToNumber (nullish (member hp "value") (vnum 0)) in
       let delta := num_sub newHP oldHP in
       if num_nonzero delta then
         [(tokenName ++ js " HP: " ++ show_Number oldHP ++ js " "
             ++ Reporter.formatDelta delta ++ js " → " ++ show_Number newHP,
           if num_pos delta then "hp-gain" else "hp-loss", "hp")]
       else []
     | None => []
     end)
    ++
    (match Reporter.oldTHP payload with
     | Some oldTHP =>
       let newTHP := ToNumber (nullish (member hp "temp") (vnum 0)) in
       let deltaT := num_sub newTHP oldTHP in
       if num_nonzero deltaT then
         [(tokenName ++ js " Temp HP: " ++ show_Number oldTHP ++ js " "
             ++ Reporter.formatDelta deltaT ++ js " → " ++ show_Number newTHP,
           "hp-temp", "temp")]
       else []
     | None => []
     end)
    ++
    (match Reporter.oldTHPMax payload with
     | Some oldTHPMax =>
       let newTHPMax := ToNumber (nullish (member hp "tempmax") (vnum 0)) in
       let deltaTM := num_sub newTHPMax oldTHPMax in
       if num_nonzero deltaTM then
         [(tokenName ++ js " Temp Max HP: " ++ show_Number oldTHPMax ++ js " "
             ++ Reporter.formatDelta deltaTM ++ js " → " ++ show_Number newTHPMax,
           "hp-tempmax", "tempmax")]
       else []
     | None => []
     end) in
  Returns (List.map (fun r => {| content := div "hp-delta-line" (fst (fst r));
                                 whisper := whisper;
                                 kind := js (snd r);
                                 cls := js (snd (fst r)) |}) results).

(** The body of the [try] of [updateActor], lines 52-129. *)
Definition updateActor_body (h : Host) (actor : Actor) (options : option Reporter.Payload)
    (user : jsstring) : Step unit unit :=
  if negb (system_id (game h) =?s js "dnd5e") then ret tt
  else if negb (user =?s userId (game h)) then ret tt
  else match options with
       | None => ret tt
       | Some payload =>
         messages <~ host (plan h actor payload) ;;
         post_all h messages
       end.

(** [Hooks.on("updateActor")], lines 50-133. *)
Definition updateActor (h : Host) (actor : Actor) (options : option Reporter.Payload)
    (user : jsstring) : Step unit unit :=
  try_step (updateActor_body h actor options user) "[tiny-hp-monitor] updateActor error".

(** The body of the [try] of [renderChatMessage], lines 138-142.  [html] is
    the rendered element; [content] tells whether it has a
    [.message-content], whose class list is [content_classes]. *)
Definition renderChatMessage_body (h : Host) (flags : jsstring -> JsVal) (content : bool)
  : Step unit unit :=
  isHpDelta <~ host (call h (GetFlag (js "isHpDelta")) (flags (js "isHpDelta"))) ;;
  if negb (ToBoolean isHpDelta) then ret tt
  else
    cls <~ host (call h (GetFlag (js "cls")) (flags (js "cls"))) ;;
    done <~ render h (AddClass (js "hp-delta")) (classList_add (js "hp-delta")) ;;
    done <~ (if ToBoolean cls
          then render h (AddClass (ToString cls)) (classList_add (ToString cls))
          else ret tt) ;;
    found <~ host (call h (Find (js ".message-content")) content) ;;
    render h (AddClass (js "hp-delta-content"))
           (if found then content_addClass (js "hp-delta-content") else fun st => st).

(** [Hooks.on("renderChatMessage")], lines 136-146. *)
Definition renderChatMessage (h : Host) (flags : jsstring -> JsVal) (content : bool)
  : Step unit unit :=
  try_step (renderChatMessage_body h flags content)
           "[tiny-hp-monitor] renderChatMessage error".

End GuardedReporter.

(** ** The guarded hooks of unnamed/part_001 *)

Module GuardedAudience.

(** [preUpdateActor], lines 41-67, has the text of unnamed/part_003, lines
    20-46. *)
Definition preUpdateActor_body := GuardedReporter.preUpdateActor_body.

Definition preUpdateActor (h : Host) (actor : Actor) (update : JsVal)
  : Step (option Reporter.Payload) unit :=
  try_step (preUpdateActor_body h actor update) "[tiny-hp-monitor] preUpdateActor error".

(** Lines 79-154: the messages to create.  The recipients of lines 93-114
    are computed as in [buildRecipients] of scripts/hp-delta.mjs, lines
    169-191. *)
Definition plan (h : Host) (actor : Actor) (payload : Reporter.Payload)
  : Outcome (list ChatMessage) :=
  let hp := GuardedReporter.hp_of actor in
  name <- tokenName h actor ;;
  let displayName := Audience.clipName name in
  whisper <- Guarded.buildRecipients h actor ;;
  let results :=
    (match Reporter.oldHP payload with
     | Some oldHP =>
       let newHP := ToNumber (nullish (member hp "value") (vnum 0)) in
       let delta := num_sub newHP oldHP in
       if num_nonzero delta then
         let sign := if num_pos delta then js "+" else js "-" in
         let mag := num_abs delta in
         [(displayName ++ js " HP: " ++ show_Number oldHP ++ js " " ++ sign ++ js " "
             ++ show_Number mag ++ js " → " ++ show_Number newHP,
           if num_pos delta then "hp-gain" else "hp-loss", "hp")]
       else []
     | None => []
     end)
    ++
    (match Reporter.oldTHP payload with
     | Some oldTHP =>
       let newTHP := ToNumber (nullish (member hp "temp") (vnum 0)) in
       let deltaT := num_sub newTHP oldTHP in
       if num_nonzero deltaT then
         let signT := if num_pos deltaT then js "+" else js "-" in
         let magT := num_abs deltaT in
         [(displayName ++ js " Temp: " ++ show_Number oldTHP ++ js " " ++ signT ++ js " "
             ++ show_Number magT ++ js " → " ++ show_Number newTHP,
           "hp-temp", "temp")]
       else []
     | None => []
     end)
    ++
    (match Reporter.oldTHPMax payload with
     | Some oldTHPMax =>
       let newTHPMax := ToNumber (nullish (member hp "tempmax") (vnum 0)) in
       let deltaTM := num_sub newTHPMax oldTHPMax in
       if num_nonzero deltaTM then
         let signTM := if num_pos deltaTM then js "+" else js "-" in
         let magTM := num_abs deltaTM in
         [(displayName ++ js " Temp Max: " ++ show_Number oldTHPMax ++ js " " ++ signTM
             ++ js " " ++ show_Number magTM ++ js " → " ++ show_Number newTHPMax,
           "hp-tempmax", "tempmax")]
       else []
     | None => []
     end) in
  Returns (List.map (MultiSystem.create whisper) results).

(** The body of the [try] of [updateActor], lines 73-167. *)
Definition updateActor_body (h : Host) (actor : Actor) (options : option Reporter.Payload)
    (user : jsstring) : Step unit unit :=
  if negb (system_id (game h) =?s js "dnd5e") then ret tt
  else if negb (user =?s userId (game h)) then ret tt
  else match options with
       | None => ret tt
       | Some payload =>
         messages <~ host (plan h actor payload) ;;
         post_all h messages
       end.

(** [Hooks.on("updateActor")], lines 71-171. *)
Definition updateActor (h : Host) (actor : Actor) (options : option Reporter.Payload)
    (user : jsstring) : Step unit unit :=
  try_step (updateActor_body h actor options user) "[tiny-hp-monitor] updateActor error".

(** [renderChatMessage], lines 174-185, has the text of scripts/hp-delta.mjs,
    lines 398-409. *)
Definition renderChatMessage := Guarded.renderChatMessage.

End GuardedAudience.

(** ** The guarded hooks of unnamed/part_002 *)

Module GuardedTracker.

Definition detectSystemPaths (h : Host) (sampleActor : option Actor) : Outcome PathTable :=
  let sys := system_id (game h) in
  if sys =?s js "demonlord" then
    Returns {| hpPath := Some (js "system.characteristics.health.value");
               tempPath := None;
               tempMaxPath := Some (js "system.characteristics.health.max");
               damageSystem := true |}
  else if sys =?s js "dnd5e" then
    Returns {| hpPath := Some (js "system.attributes.hp.value");
               tempPath := Some (js "system.attributes.hp.temp");
               tempMaxPath := Some (js "system.attributes.hp.tempmax");
               damageSystem := false |}
  else if sys =?s js "pf2e" then
    Returns {| hpPath := Some (js "system.attributes.hp.value");
               tempPath := Some (js "system.attributes.hp.temp");
               tempMaxPath := None;
               damageSystem := false |}
  else if sys =?s js "shadowdark" then
    Returns {| hpPath := Some (js "system.hp.value");
               tempPath := None;
               tempMaxPath := None;
               damageSystem := false |}
  else
    hp <- find_or_null h (sample_doc sampleActor) MultiSystem.candidatesHP ;;
    temp <- find_or_null h (sample_doc sampleActor) MultiSystem.candidatesTemp ;;
    tempMax <- find_or_null h (sample_doc sampleActor) MultiSystem.candidatesTempMax ;;
    Returns {| hpPath := hp; tempPath := temp; tempMaxPath := tempMax;
               damageSystem := false |}.

Definition resolvePaths (h : Host) (actor : option Actor) : Outcome PathTable :=
  let auto := getWorldBool h "autoDetectPaths" true in
  if auto then detectSystemPaths h actor
  else
    Returns {| hpPath := getWorldPath h "hpPath";
               tempPath := getWorldPath h "tempHpPath";
               tempMaxPath := getWorldPath h "tempHpMaxPath";
               damageSystem := false |}.

(** Lines 135-167: [{ basePath, coins }]. *)
Definition detectCurrencyInfo (h : Host) (actor : Actor)
  : Outcome (option jsstring * list jsstring) :=
  let sys := system_id (game h) in
  let manualBase := getWorldPath h "currencyBasePath" in
  let candidates :=
    match manualBase with
    | Some b => [b]
    | None =>
      if sys =?s js "dnd5e" then [js "system.currency"]
      else if sys =?s js "pf2e" then
        [js "system.currencies"; js "system.currency";
         js "system.wealth.treasure.currencies"; js "system.wealth.currency";
         js "system.treasure.currency"]
      else
        [js "system.currency"; js "system.currencies"; js "system.wealth.currency";
         js "system.treasure.currency"]
    end in
  found <- findE (fun p => o <- get h (actor_doc actor) p ;; Returns (Monitor.is_object o))
                 candidates ;;
  match found with
  | Some (c :: p) =>
    (* the object found is the one the loop has just read *)
    let obj := getProperty (actor_doc actor) (c :: p) in
    Returns (Some (c :: p),
             List.filter (Monitor.hasOwnProperty obj)
                         [js "pp"; js "gp"; js "ep"; js "sp"; js "cp"])
  | _ => Returns (None, [])
  end.

(** Lines 185-194. *)
Definition getDisplayName (h : Host) (actor : Actor) : Outcome jsstring :=
  name <- tokenName h actor ;;
  Returns (Tracker.clipName name).

(** Lines 196-217 have the text of scripts/hp-delta.mjs, lines 169-191. *)
Definition buildRecipients := Guarded.buildRecipients.

Definition empty_payload : Tracker.Payload :=
  {| Tracker.oldHP := None; Tracker.oldTHP := None; Tracker.oldTHPMax := None;
     Tracker.oldInspiration := None; Tracker.currency := None;
     Tracker.deathSaves := None |}.

(** The body of the [try] of [preUpdateActor], lines 422-489, on
    [options[MOD_ID]].  The coins are read (line 478) after the first writes
    (lines 470-473). *)
Definition preUpdateActor_body (h : Host) (actor : Actor) (update : JsVal)
  : Step (option Tracker.Payload) unit :=
  let doc := actor_doc actor in
  let sys := system_id (game h) in
  paths <~ host (resolvePaths h (Some actor)) ;;
  willHP <~ host (willUpdatePath h update (hpPath paths)) ;;
  willTHP <~ host (willUpdatePath h update (tempPath paths)) ;;
  willTHPMax <~ host (willUpdatePath h update (tempMaxPath paths)) ;;
  let inspEnabled := (sys =?s js "dnd5e") && getWorldBool h "trackDnd5eInspiration" false in
  let inspPath := if inspEnabled then Some Tracker.getDnd5eInspirationPath else None in
  willInsp <~ host (if truthy_path inspPath then willUpdatePath h update inspPath
                    else Returns false) ;;
  let currencyEnabled :=
    getWorldBool h "trackCurrency" false && ((sys =?s js "dnd5e") || (sys =?s js "pf2e")) in
  currencyPayload <~ host
    (if currencyEnabled then
       info <- detectCurrencyInfo h actor ;;
       match fst info with
       | Some base =>
         if truthy_path (fst info) && negb (Nat.eqb (length (snd info)) 0) then
           baseChanged <- willUpdatePath h update (fst info) ;;
           anyCoinChanged <-
             someE (fun k => willUpdatePath h update (Some (base ++ js "." ++ k)))
                   (snd info) ;;
           Returns (if baseChanged || anyCoinChanged then Some (base, snd info) else None)
         else Returns None
       | None => Returns None
       end
     else Returns None) ;;
  deathPayload <~ host
    (if (sys =?s js "dnd5e") && getWorldBool h "trackDnd5eDeathSaves" false
        && is_string (prop (actor_props actor) "type") "character" then
       willSucc <- willUpdatePath h update (Some Tracker.successPath) ;;
       willFail <- willUpdatePath h update (Some Tracker.failurePath) ;;
       if willSucc || willFail then
         oldSucc <- readNumber h doc (Some Tracker.successPath) ;;
         oldFail <- readNumber h doc (Some Tracker.failurePath) ;;
         Returns (Some (oldSucc, oldFail))
       else Returns None
     else Returns None) ;;
  if negb willHP && negb willTHP && negb willTHPMax && negb willInsp
     && negb (bool_decide (is_Some currencyPayload))
     && negb (bool_decide (is_Some deathPayload))
  then ret tt
  else
    oldHP <~ host (readNumber h doc (hpPath paths)) ;;
    oldTHP <~ host (readNumber h doc (tempPath paths)) ;;
    oldTHPMax <~ host (readNumber h doc (tempMaxPath paths)) ;;
    oldInsp <~ host (match inspPath with
                     | Some _ => v <- readRaw h doc inspPath ;; Returns (Some (ToBoolean v))
                     | None => Returns None
                     end) ;;
    options <~ load ;;
    let stash := default empty_payload options in
    let written :=
      {| Tracker.oldHP := if willHP then Some oldHP else Tracker.oldHP stash;
         Tracker.oldTHP := if willTHP then Some oldTHP else Tracker.oldTHP stash;
         Tracker.oldTHPMax := if willTHPMax then Some oldTHPMax else Tracker.oldTHPMax stash;
         Tracker.oldInspiration := if willInsp then oldInsp else Tracker.oldInspiration stash;
         Tracker.currency := Tracker.currency stash;
         Tracker.deathSaves := Tracker.deathSaves stash |} in
    done <~ store (Some written) ;;
    currency <~ match currencyPayload with
                | Some (base, coins) =>
                  entries <~ host (mapE (fun k =>
                                           v <- readNumber h doc (Some (base ++ js "." ++ k)) ;;
                                           Returns (k, v)) coins) ;;
                  ret (Some {| Tracker.basePath := base; Tracker.coins := coins;
                               Tracker.old := Monitor.fromEntries entries |})
                | None => ret (Tracker.currency stash)
                end ;;
    store (Some
      {| Tracker.oldHP := Tracker.oldHP written;
         Tracker.oldTHP := Tracker.oldTHP written;
         Tracker.oldTHPMax := Tracker.oldTHPMax written;
         Tracker.oldInspiration := Tracker.oldInspiration written;
         Tracker.currency := currency;
         Tracker.deathSaves := match deathPayload with
                               | Some d => Some d
                               | None => Tracker.deathSaves stash
                               end |}).

(** [Hooks.on("preUpdateActor")], lines 420-493. *)
Definition preUpdateActor (h : Host) (actor : Actor) (update : JsVal)
  : Step (option Tracker.Payload) unit :=
  try_step (preUpdateActor_body h actor update) "[tiny-hp-monitor] preUpdateActor error".

(** Lines 507-601: the messages to create; every read of the hook is here. *)
Definition plan (h : Host) (actor : Actor) (payload : Tracker.Payload)
  : Outcome (list ChatMessage) :=
  let g := game h in
  let doc := actor_doc actor in
  paths <- resolvePaths h (Some actor) ;;
  displayName <- getDisplayName h actor ;;
  whisper <- buildRecipients h actor ;;
  hp <- match Tracker.oldHP payload with
        | Some oldHP =>
          if truthy_path (hpPath paths) then
            newHP <- readNumber h doc (hpPath paths) ;;
            let delta := newHP - oldHP in
            Returns
              (if negb (delta =? 0) then
                 let sign := sign_of delta in
                 let mag := Z.abs delta in
                 let line :=
                   if damageSystem paths
                   then displayName ++ js " Damage: " ++ show_Z oldHP ++ js " " ++ sign
                          ++ js " " ++ show_Z mag ++ js " → " ++ show_Z newHP
                   else displayName ++ js " HP: " ++ show_Z oldHP ++ js " " ++ sign
                          ++ js " " ++ show_Z mag ++ js " → " ++ show_Z newHP in
                 let cls :=
                   if damageSystem paths then (if delta <? 0 then "hp-gain" else "hp-loss")
                   else (if 0 <? delta then "hp-gain" else "hp-loss") in
                 [(line, cls, "hp")]
               else [])
          else Returns []
        | None => Returns []
        end ;;
  temp <- match Tracker.oldTHP payload with
          | Some oldTHP =>
            if truthy_path (tempPath paths) then
              newTHP <- readNumber h doc (tempPath paths) ;;
              let deltaT := newTHP - oldTHP in
              Returns
                (if negb (deltaT =? 0) then
                   [(displayName ++ js " Temp: " ++ show_Z oldTHP ++ js " " ++ sign_of deltaT
                       ++ js " " ++ show_Z (Z.abs deltaT) ++ js " → " ++ show_Z newTHP,
                     "hp-temp", "temp")]
                 else [])
            else Returns []
          | None => Returns []
          end ;;
  tempmax <- match Tracker.oldTHPMax payload with
             | Some oldTHPMax =>
               if truthy_path (tempMaxPath paths) then
                 newTHPMax <- readNumber h doc (tempMaxPath paths) ;;
                 let deltaTM := newTHPMax - oldTHPMax in
                 Returns
                   (if negb (deltaTM =? 0) then
                      [(displayName ++ js " Temp Max: " ++ show_Z oldTHPMax ++ js " "
                          ++ sign_of deltaTM ++ js " " ++ show_Z (Z.abs deltaTM) ++ js " → "
                          ++ show_Z newTHPMax,
                        "hp-tempmax", "tempmax")]
                    else [])
               else Returns []
             | None => Returns []
             end ;;
  insp <- match Tracker.oldInspiration payload with
          | Some oldInsp =>
            if (system_id g =?s js "dnd5e")
               && getWorldBool h "trackDnd5eInspiration" false then
              v <- readRaw h doc (Some Tracker.getDnd5eInspirationPath) ;;
              let newInsp := ToBoolean v in
              Returns
                (if negb (eqb newInsp oldInsp) then
                   [(if newInsp then displayName ++ js " gained Heroic Inspiration"
                     else displayName ++ js " spent Heroic Inspiration",
                     "hp-inspiration", "inspiration")]
                 else [])
            else Returns []
          | None => Returns []
          end ;;
  currency <- match Tracker.currency payload with
              | Some c =>
                if getWorldBool h "trackCurrency" false
                   && ((system_id g =?s js "dnd5e") || (system_id g =?s js "pf2e")) then
                  lines <- mapE (fun k =>
                    let oldAmt := match Tracker.old c !! k with Some v => v | None => 0 end in
                    newAmt <- readNumber h doc (Some (Tracker.basePath c ++ js "." ++ k)) ;;
                    let delta := newAmt - oldAmt in
                    Returns
                      (if delta =? 0 then []
                       else
                         let label := Tracker.coinLabel k (system_id g) in
                         [(displayName ++ js " " ++ label ++ js ": " ++ show_Z oldAmt
                             ++ js " " ++ sign_of delta ++ js " " ++ show_Z (Z.abs delta)
                             ++ js " → " ++ show_Z newAmt,
                           "hp-currency", "currency")])) (Tracker.coins c) ;;
                  Returns (List.concat lines)
                else Returns []
              | None => Returns []
              end ;;
  death <- match Tracker.deathSaves payload with
           | Some (oldSucc, oldFail) =>
             if (system_id g =?s js "dnd5e") && getWorldBool h "trackDnd5eDeathSaves" false
                && is_string (prop (actor_props actor) "type") "character" then
               newSucc <- readNumber h doc (Some Tracker.successPath) ;;
               newFail <- readNumber h doc (Some Tracker.failurePath) ;;
               let succInc := oldSucc <? newSucc in
               let failInc := oldFail <? newFail in
               Returns
                 (if succInc || failInc then
                    [(displayName ++ js " " ++ show_Z newSucc ++ js " Death Save Successes, "
                        ++ show_Z newFail ++ js " Fails",
                      if succInc then "hp-gain" else "hp-loss", "deathsave")]
                  else [])
             else Returns []
           | None => Returns []
           end ;;
  Returns (List.map (MultiSystem.create whisper)
                    (hp ++ temp ++ tempmax ++ insp ++ currency ++ death)).

(** The body of the [try] of [updateActor], lines 502-614. *)
Definition updateActor_body (h : Host) (actor : Actor) (options : option Tracker.Payload)
    (user : jsstring) : Step unit unit :=
  if negb (user =?s userId (game h)) then ret tt
  else match options with
       | None => ret tt
       | Some payload =>
         messages <~ host (plan h actor payload) ;;
         post_all h messages
       end.

(** [Hooks.on("updateActor")], lines 500-618. *)
Definition updateActor (h : Host) (actor : Actor) (options : option Tracker.Payload)
    (user : jsstring) : Step unit unit :=
  try_step (updateActor_body h actor options user) "[tiny-hp-monitor] updateActor error".

(** *** Items *)

(** Lines 625-636. *)
Definition postItemMessage {S} (h : Host) (actor : Actor) (line : jsstring) : Step S unit :=
  whisper <~ host (buildRecipients h actor) ;;
  post h {| content := div "hp-delta-line hp-multiline" line;
            whisper := whisper;
            kind := js "item";
            cls := js "hp-item" |}.

(** The body of the [try] of [createItem], lines 640-649. *)
Definition createItem_body (h : Host) (item : Item) (user : jsstring) : Step unit unit :=
  if negb (user =?s userId (game h)) then ret tt
  else if negb (getWorldBool h "trackItemChanges" false) then ret tt
  else match item_parent item with
       | None => ret tt
       | Some actor =>
         quantity <~ host (readNumber h (item_doc item) (Some (js "system.quantity"))) ;;
         let qty := Monitor.or_number quantity 1 in
         displayName <~ host (getDisplayName h actor) ;;
         let safeItemName := Tracker.clipName (prop (item_props item) "name") in
         let line := displayName ++ js " Item: " ++ safeItemName ++ js " — 0 + "
                       ++ show_Z qty ++ js " → " ++ show_Z qty in
         postItemMessage h actor line
       end.

(** [Hooks.on("createItem")], lines 638-653. *)
Definition createItem (h : Host) (item : Item) (user : jsstring) : Step unit unit :=
  try_step (createItem_body h item user) "[tiny-hp-monitor] createItem error".

Definition empty_stash : Tracker.ItemStash :=
  {| Tracker.oldQty := None; Tracker.oldName := None |}.

(** The body of the [try] of [preUpdateItem], lines 657-669, on
    [ITEM_UPDATE_STASH]. *)
Definition preUpdateItem_body (h : Host) (item : Item) (change : JsVal)
  : Step (gmap jsstring Tracker.ItemStash) unit :=
  match item_parent item with
  | None => ret tt
  | Some _ =>
    let trackItems := getWorldBool h "trackItemChanges" false in
    willQty <~ host (if trackItems
                     then willUpdatePath h change (Some (js "system.quantity"))
                     else Returns false) ;;
    willName <~ host (if trackItems then willUpdatePath h change (Some (js "name"))
                      else Returns false) ;;
    if negb willQty && negb willName then ret tt
    else
      stashes <~ load ;;
      let stash := default empty_stash (stashes !! item_uuid item) in
      oldQty <~ host (if willQty then
                        quantity <- readNumber h (item_doc item)
                                      (Some (js "system.quantity")) ;;
                        Returns (Some (Monitor.or_number quantity 0))
                      else Returns (Tracker.oldQty stash)) ;;
      let oldName :=
        if willName
        then Some (ToString (nullish (prop (item_props item) "name") (VString [])))
        else Tracker.oldName stash in
      store (<[item_uuid item := {| Tracker.oldQty := oldQty; Tracker.oldName := oldName |}]>
               stashes)
  end.

(** [Hooks.on("preUpdateItem")], lines 655-673. *)
Definition preUpdateItem (h : Host) (item : Item) (change : JsVal)
  : Step (gmap jsstring Tracker.ItemStash) unit :=
  try_step (preUpdateItem_body h item change) "[tiny-hp-monitor] preUpdateItem error".

(** Lines 236-248. *)
Definition dnd5eIsSpellPreparedLike (h : Host) (item : Item) : Outcome bool :=
  methodVal <- readRaw h (item_doc item) (Some (js "system.method")) ;;
  let method := ToString (nullish methodVal (VString [])) in
  preparedVal <- readRaw h (item_doc item) (Some (js "system.prepared")) ;;
  let prepared := ToBoolean preparedVal in
  Returns (if method =?s js "prepared" then prepared
           else if method =?s js "always" then true
           else if (method =?s []) && negb (is_undefined preparedVal) then prepared
           else false).

(** Lines 256-291. *)
Definition computePreparedAfter (h : Host) (item : Item) (change : JsVal) : Outcome bool :=
  hasMethod <- has h change (js "system.method") ;;
  methodGiven <-
    (if hasMethod then v <- get h change (js "system.method") ;; Returns (Some (ToString v))
     else
       hasMode <- has h change (js "system.preparation.mode") ;;
       if hasMode
       then v <- get h change (js "system.preparation.mode") ;; Returns (Some (ToString v))
       else Returns None) ;;
  hasPrepared <- has h change (js "system.prepared") ;;
  given <-
    (if hasPrepared
     then v <- get h change (js "system.prepared") ;; Returns (true, ToBoolean v)
     else
       hasLegacy <- has h change (js "system.preparation.prepared") ;;
       if hasLegacy
       then v <- get h change (js "system.preparation.prepared") ;;
            Returns (true, ToBoolean v)
       else Returns (false, false)) ;;
  let preparedGivenPresent := fst given in
  let preparedGiven := snd given in
  let methodGiven :=
    if preparedGivenPresent && negb (bool_decide (is_Some methodGiven))
    then Some (js "prepared") else methodGiven in
  match methodGiven with
  | Some m =>
    if m =?s js "always" then Returns true
    else if m =?s js "prepared" then
      if preparedGivenPresent then Returns preparedGiven
      else v <- readRaw h (item_doc item) (Some (js "system.prepared")) ;;
           Returns (ToBoolean v)
    else Returns false
  | None => dnd5eIsSpellPreparedLike h item
  end.

(** [a || b] of two [willUpdatePath] calls: the second is made when the
    first answers [false]. *)
Definition either (h : Host) (change : JsVal) (a b : string) : Outcome bool :=
  first <- willUpdatePath h change (Some (js a)) ;;
  if first then Returns true else willUpdatePath h change (Some (js b)).

(** The body of the [try] of [updateItem], lines 677-734, on
    [ITEM_UPDATE_STASH]: the entry is deleted before anything is read. *)
Definition updateItem_body (h : Host) (item : Item) (change : JsVal) (user : jsstring)
  : Step (gmap jsstring Tracker.ItemStash) unit :=
  if negb (user =?s userId (game h)) then ret tt
  else match item_parent item with
  | None => ret tt
  | Some actor =>
    stashes <~ load ;;
    let stash := default empty_stash (stashes !! item_uuid item) in
    done <~ store (delete (item_uuid item) stashes) ;;
    displayName <~ host (getDisplayName h actor) ;;
    done <~ (if getWorldBool h "trackItemChanges" false then
            match Tracker.oldQty stash with
            | Some oldQty =>
              quantity <~ host (readNumber h (item_doc item) (Some (js "system.quantity"))) ;;
              let newQty := Monitor.or_number quantity 0 in
              if negb (newQty =? oldQty) then
                let sign := sign_of (newQty - oldQty) in
                let mag := Z.abs (newQty - oldQty) in
                let safeItemName := Tracker.clipName (prop (item_props item) "name") in
                postItemMessage h actor
                  (displayName ++ js "'s Item: " ++ safeItemName ++ js " — "
                     ++ show_Z oldQty ++ js " " ++ sign ++ js " " ++ show_Z mag
                     ++ js " → " ++ show_Z newQty)
              else ret tt
            | None => ret tt
            end
          else ret tt) ;;
    done <~ (if getWorldBool h "trackItemChanges" false then
            match Tracker.oldName stash with
            | Some oldName =>
              let newName := ToString (nullish (prop (item_props item) "name")
                                               (VString [])) in
              if negb (newName =?s oldName) then
                let safeOld := Tracker.clipName (VString oldName) in
                let safeNew := Tracker.clipName (VString newName) in
                postItemMessage h actor
                  (displayName ++ js "'s Item renamed: " ++ safeOld ++ js " → " ++ safeNew)
              else ret tt
            | None => ret tt
            end
          else ret tt) ;;
    if (system_id (game h) =?s js "dnd5e") && getWorldBool h "trackDnd5eSpellPrep" false
       && is_string (prop (item_props item) "type") "spell" then
      changedPrepared <~ host (either h change "system.prepared"
                                      "system.preparation.prepared") ;;
      changedMethod <~ host (either h change "system.method" "system.preparation.mode") ;;
      if changedPrepared || changedMethod then
        effectivePrepared <~ host (computePreparedAfter h item change) ;;
        let prefix := if effectivePrepared then js "prepared" else js "unprepared" in
        let safeItemName := Tracker.clipName (prop (item_props item) "name") in
        spellLevel <~ host (readNumber h (item_doc item) (Some (js "system.level"))) ;;
        let levelTxt := js " (Lv " ++ show_Z spellLevel ++ js ")" in
        whisper <~ host (buildRecipients h actor) ;;
        post h {| content := div "hp-delta-line hp-multiline"
                               (displayName ++ js " " ++ prefix ++ js ": " ++ safeItemName
                                ++ levelTxt);
                  whisper := whisper;
                  kind := js "spellprep";
                  cls := js "hp-spellprep" |}
      else ret tt
    else ret tt
  end.

(** [Hooks.on("updateItem")], lines 675-738. *)
Definition updateItem (h : Host) (item : Item) (change : JsVal) (user : jsstring)
  : Step (gmap jsstring Tracker.ItemStash) unit :=
  try_step (updateItem_body h item change user) "[tiny-hp-monitor] updateItem error".

(** An entry of [ITEM_DELETE_STASH], or [options[MOD_ID].itemDelete]:
    [None] where a field is [undefined]. *)
Record DeletePayload := {
  displayName : option jsstring;
  whisper_to : option (list jsstring);
  name : JsVal;
  qty : JsVal;
  actorId : JsVal
}.

(** The body of the [try] of [preDeleteItem], lines 742-755, on
    [ITEM_DELETE_STASH]. *)
Definition preDeleteItem_body (h : Host) (item : Item)
  : Step (gmap jsstring DeletePayload) unit :=
  if negb (getWorldBool h "trackItemChanges" false) then ret tt
  else match item_parent item with
       | None => ret tt
       | Some actor =>
         displayName <~ host (getDisplayName h actor) ;;
         whisper <~ host (buildRecipients h actor) ;;
         quantity <~ host (readNumber h (item_doc item) (Some (js "system.quantity"))) ;;
         stashes <~ load ;;
         store (<[item_uuid item :=
                    {| displayName := Some displayName;
                       whisper_to := Some whisper;
                       name := VString (Tracker.clipName (prop (item_props item) "name"));
                       qty := vnum (Monitor.or_number quantity 0);
                       actorId := prop (actor_props actor) "id" |}]> stashes)
       end.

(** [Hooks.on("preDeleteItem")], lines 740-759. *)
Definition preDeleteItem (h : Host) (item : Item)
  : Step (gmap jsstring DeletePayload) unit :=
  try_step (preDeleteItem_body h item) "[tiny-hp-monitor] preDeleteItem error".

(** The body of the [try] of [deleteItem], lines 763-787, on
    [ITEM_DELETE_STASH].  [itemDelete] is [options?.[MOD_ID]?.itemDelete] and
    [actors] answers [game.actors?.get]. *)
Definition deleteItem_body (h : Host) (item : Item) (itemDelete : option DeletePayload)
    (actors : JsVal -> option Actor) (user : jsstring)
  : Step (gmap jsstring DeletePayload) unit :=
  if negb (user =?s userId (game h)) then ret tt
  else if negb (getWorldBool h "trackItemChanges" false) then ret tt
  else
    stashes <~ load ;;
    let payload := match stashes !! item_uuid item with
                   | Some p => Some p
                   | None => itemDelete
                   end in
    done <~ store (delete (item_uuid item) stashes) ;;
    match payload with
    | None => ret tt
    | Some payload =>
      actor <~ host (match item_parent item with
                     | Some parent => Returns (Some parent)
                     | None =>
                       if ToBoolean (actorId payload)
                       then call h (ActorsGet (actorId payload)) (actors (actorId payload))
                       else Returns None
                     end) ;;
      let oldQty := ToNumber (nullish (qty payload) (vnum 0)) in
      let mag := oldQty in
      shown <~ host (match displayName payload with
                     | Some d => Returns d
                     | None => match actor with
                               | Some a => getDisplayName h a
                               | None => Returns (js "Actor")
                               end
                     end) ;;
      let line := shown ++ js "'s Item: " ++ ToString (name payload) ++ js " — "
                    ++ show_Number oldQty ++ js " - " ++ show_Number mag ++ js " → 0" in
      whisper <~ host (match whisper_to payload with
                       | Some w => Returns w
                       | None => match actor with
                                 | Some a => buildRecipients h a
                                 | None => Returns []
                                 end
                       end) ;;
      post h {| content := div "hp-delta-line hp-multiline" line;
                whisper := whisper;
                kind := js "item";
                cls := js "hp-item" |}
    end.

(** [Hooks.on("deleteItem")], lines 761-791. *)
Definition deleteItem (h : Host) (item : Item) (itemDelete : option DeletePayload)
    (actors : JsVal -> option Actor) (user : jsstring)
  : Step (gmap jsstring DeletePayload) unit :=
  try_step (deleteItem_body h item itemDelete actors user)
           "[tiny-hp-monitor] deleteItem error".

(** [renderChatMessage], lines 797-808, has the text of scripts/hp-delta.mjs,
    lines 398-409. *)
Definition renderChatMessage := Guarded.renderChatMessage.

End GuardedTracker.

End Boundary.

(** ** A sample world, for the examples *)

Module Sample.
Definition gm : User := {| user_id := js "gm1"; isGM := true |}.
Definition alice : User := {| user_id := js "alice"; isGM := false |}.

(** The world settings of the [Monitor] revision at their defaults, with
    [simpleOutput] as given. *)
Definition stored (simple : bool) : list (jsstring * JsVal) :=
  [(js "simpleOutput", VBool simple);
   (js "trackCurrency", VBool true);
   (js "trackItemChanges", VBool true);
   (js "trackDnd5eInspiration", VBool true);
   (js "trackDnd5eDeathSaves", VBool true);
   (js "trackDnd5eSpellPrep", VBool true);
   (js "trackDnd5eSpellSlots", VBool true);
   (js "autoDetectPaths", VBool true);
   (js "hpPath", vstr "");
   (js "tempHpPath", vstr "");
   (js "tempHpMaxPath", vstr "");
   (js "currencyBasePath", vstr "")].

Definition world (system : string) (simple : bool) (players : list User) : Game :=
  {| system_id := js system;
     npcAudience := vstr "gm-owners";
     settings := fun key => lookup_field key (stored simple);
     users := players;
     userId := js "gm1" |}.

Definition dnd5e : Game := world "dnd5e" false [gm; alice].
Definition dnd5e_simple : Game := world "dnd5e" true [gm; alice].
Definition demonlord : Game := world "demonlord" false [gm; alice].
Definition homebrew : Game := world "homebrew" false [gm; alice].
Definition no_gm : Game := world "dnd5e" false [alice].

Definition obj (fields : list (string * JsVal)) : JsVal :=
  VObject (List.map (fun f => (js (fst f), snd f)) fields).

(** A character owned by [alice], with [hp] hit points. *)
Definition hero (hp : Z) : Actor :=
  {| actor_uuid := js "Actor.abc";
     actor_props :=
       [(js "name", vstr "Hero"); (js "type", vstr "character");
        (js "system",
          obj [("attributes", obj [("hp", obj [("value", vnum hp); ("temp", vnum 0)])])])];
     actor_isToken := false;
     actor_token := None;
     getActiveTokens := [];
     testUserPermission := Some (fun u => user_id u =?s js "alice") |}.

(** An update that writes the hit points. *)
Definition hp_update (hp : Z) : JsVal :=
  obj [("system", obj [("attributes", obj [("hp", obj [("value", vnum hp)])])])].

(** A non-player character nobody owns, in a system that counts damage. *)
Definition ghoul (damage : Z) : Actor :=
  {| actor_uuid := js "Actor.ghoul";
     actor_props :=
       [(js "name", vstr "Ghoul"); (js "type", vstr "npc");
        (js "system",
          obj [("characteristics", obj [("health", obj [("value", vnum damage);
                                                         ("max", vnum 20)])])])];
     actor_isToken := false;
     actor_token := None;
     getActiveTokens := [];
     testUserPermission := Some (fun _ => false) |}.

(** A record of an unknown system, with hit points under [system.hp.value]. *)
Definition stranger : Actor :=
  {| actor_uuid := js "Actor.xyz";
     actor_props :=
       [(js "name", vstr "Stranger"); (js "type", vstr "character");
        (js "system", obj [("hp", obj [("value", vnum 7)])])];
     actor_isToken := false;
     actor_token := None;
     getActiveTokens := [];
     testUserPermission := None |}.

(** An item of the hero with a quantity, and one without the field. *)
Definition potion (quantity : Z) : Item :=
  {| item_uuid := js "Item.potion";
     item_props := [(js "name", vstr "Potion"); (js "type", vstr "consumable");
                    (js "system", obj [("quantity", vnum quantity)])];
     item_parent := Some (hero 10) |}.

Definition amulet : Item :=
  {| item_uuid := js "Item.amulet";
     item_props := [(js "name", vstr "Amulet"); (js "type", vstr "equipment");
                    (js "system", obj [])];
     item_parent := Some (hero 10) |}.

(** [needle] occurs in [hay]. *)
Fixpoint prefix_of (needle hay : jsstring) : bool :=
  match needle, hay with
  | [], _ => true
  | c :: n, d :: h => (c =? d)%N && prefix_of n h
  | _ :: _, [] => false
  end.

Fixpoint occurs (needle hay : jsstring) : bool :=
  prefix_of needle hay ||
  match hay with
  | [] => false
  | _ :: h => occurs needle h
  end.
End Sample.

(** * Properties *)

(** ** Whole-character truncation *)

Lemma jsstring_pair_ind (P : jsstring -> Prop) :
  P [] ->
  (forall c, P [c]) ->
  (forall c d r, P (d :: r) -> P r -> P (c :: d :: r)) ->
  forall s, P s.
Proof.
  intros H0 H1 H2 s.
  assert (H : P s /\ forall c, P (c :: s)).
  { induction s as [|d r [IHr IHc]].
    - split; [exact H0 | exact H1].
    - split; [apply IHc | intros c; apply H2; [apply IHc | exact IHr]]. }
  exact (proj1 H).
Qed.

Lemma Array_from_cons2 c d r :
  Array_from (c :: d :: r) =
    if is_lead c && is_trail d then [c; d] :: Array_from r
    else [c] :: Array_from (d :: r).
Proof. reflexivity. Qed.

Lemma join_cons ch chars : join (ch :: chars) = ch ++ join chars.
Proof. reflexivity. Qed.

Lemma join_Array_from s : join (Array_from s) = s.
Proof.
  induction s as [|c|c d r IH1 IH2] using jsstring_pair_ind; try reflexivity.
  rewrite Array_from_cons2.
  destruct (is_lead c && is_trail d); rewrite join_cons.
  - now rewrite IH2.
  - now rewrite IH1.
Qed.

Lemma Array_from_whole s : Forall whole_character (Array_from s).
Proof.
  induction s as [|c|c d r IH1 IH2] using jsstring_pair_ind.
  - constructor.
  - constructor; [left; now exists c | constructor].
  - rewrite Array_from_cons2.
    destruct (is_lead c && is_trail d) eqn:E.
    + apply andb_true_iff in E as [Hc Hd].
      constructor; [right; now exists c, d | exact IH2].
    + constructor; [left; now exists c | exact IH1].
Qed.

Lemma lead_not_trail c : is_lead c = true -> is_trail c = false.
Proof.
  unfold is_lead, is_trail. intros H.
  apply andb_true_iff in H as [_ H]. apply N.leb_le in H.
  apply andb_false_iff. left. apply N.leb_gt. lia.
Qed.

Lemma join_firstn_skipn n (chars : list jsstring) :
  join (firstn n chars) ++ join (skipn n chars) = join chars.
Proof.
  unfold join. rewrite <- concat_app. now rewrite firstn_skipn.
Qed.

Lemma splits_pair_app x a b :
  splits_pair (x ++ a) b -> (a = [] /\ splits_pair x b) \/ splits_pair a b.
Proof.
  intros (a' & h & l & b' & Ha & Hb & Hh & Hl).
  destruct a as [|y a0 _] using rev_ind.
  - left. split; [reflexivity |]. rewrite app_nil_r in Ha.
    now exists a', h, l, b'.
  - right. rewrite app_assoc in Ha. apply app_inj_tail in Ha as [_ ->].
    now exists a0, h, l, b'.
Qed.

Lemma splits_pair_nil b : ~ splits_pair [] b.
Proof.
  intros (a' & h & l & b' & Ha & _). now destruct a'.
Qed.

Lemma splits_pair_single c b :
  splits_pair [c] b -> is_lead c = true /\ exists l b', b = l :: b' /\ is_trail l = true.
Proof.
  intros (a' & h & l & b' & Ha & Hb & Hh & Hl).
  change [c] with ([] ++ [c]) in Ha. apply app_inj_tail in Ha as [_ ->].
  split; [exact Hh | now exists l, b'].
Qed.

Lemma splits_pair_pair c d b : is_trail d = true -> ~ splits_pair [c; d] b.
Proof.
  intros Hd (a' & h & l & b' & Ha & Hb & Hh & Hl).
  change [c; d] with ([c] ++ [d]) in Ha. apply app_inj_tail in Ha as [_ ->].
  apply lead_not_trail in Hh. congruence.
Qed.

(** No prefix of whole characters ends inside a surrogate pair. *)
Lemma Array_from_no_split s n :
  ~ splits_pair (join (firstn n (Array_from s))) (join (skipn n (Array_from s))).
Proof.
  revert n.
  induction s as [|c|c d r IH1 IH2] using jsstring_pair_ind; intros n.
  - rewrite firstn_nil. apply splits_pair_nil.
  - destruct n as [|n]; [apply splits_pair_nil |].
    simpl. rewrite firstn_nil, skipn_nil. intros H.
    apply splits_pair_single in H as (_ & l & b' & Hb & _). discriminate.
  - destruct n as [|n]; [apply splits_pair_nil |].
    rewrite Array_from_cons2.
    destruct (is_lead c && is_trail d) eqn:E;
      rewrite firstn_cons, skipn_cons, join_cons; intros H;
      apply splits_pair_app in H as [[Hnil H] | H].
    + apply andb_true_iff in E as [_ Hd].
      now apply splits_pair_pair in H.
    + now apply IH2 in H.
    + apply splits_pair_single in H as (Hc & l & b' & Hb & Hl).
      pose proof (join_firstn_skipn n (Array_from (d :: r))) as J.
      rewrite Hnil, join_Array_from, Hb in J. simpl in J.
      injection J as -> _. rewrite Hc, Hl in E. discriminate.
    + now apply IH1 in H.
Qed.

Lemma clip_spec budget marker s :
  clipped budget marker s
    (if (length (Array_from s) <=? budget)%nat then join (Array_from s)
     else join (slice0 budget (Array_from s)) ++ marker).
Proof.
  unfold clipped, slice0. split.
  - intros H. apply Nat.leb_le in H. rewrite H. apply join_Array_from.
  - intros H. assert (E : (length (Array_from s) <=? budget)%nat = false)
      by (apply Nat.leb_gt; exact H).
    rewrite E. repeat split.
    + apply firstn_length_le. lia.
    + apply Forall_take. apply Array_from_whole.
    + rewrite join_firstn_skipn. apply join_Array_from.
    + apply Array_from_no_split.
Qed.

(** C8.  For every string, each revision's [clipName] returns the string
    itself when it has at most the budget of whole characters (25, or 30 in
    the revision of unnamed/part_001), and otherwise the first budget whole
    characters followed by the marker; the cut is at a character boundary, so
    no surrogate pair is split. *)
Theorem clipName_whole_characters (s : jsstring) :
  clipped 25 (js "…") s (Monitor.clipName (VString s)) /\
  clipped 25 (js "…") s (Coalesced.clipName (VString s)) /\
  clipped 25 (js "[...]") s (MultiSystem.clipName (VString s)) /\
  clipped 25 (js "[...]") s (Tracker.clipName (VString s)) /\
  clipped 30 (js "[...]") s (Audience.clipName (VString s)).
Proof.
  split; [| split; [| split; [| split]]]; apply clip_spec.
Qed.

(** ** Path resolution by probing *)

(** [r] is the first candidate that probes finite on [sample], or [None]
    when no candidate does. *)
Definition first_match (sample : JsVal) (candidates : list jsstring)
    (r : option jsstring) : Prop :=
  match r with
  | Some p =>
    exists i, nth_error candidates i = Some p /\ probes sample p = true /\
      forall j q, (j < i)%nat -> nth_error candidates j = Some q -> probes sample q = false
  | None => forall q, In q candidates -> probes sample q = false
  end.

Lemma find_first_match sample candidates :
  first_match sample candidates (List.find (probes sample) candidates).
Proof.
  induction candidates as [|c cs IH]; simpl.
  - intros q [].
  - destruct (probes sample c) eqn:E.
    + exists 0%nat. repeat split; [exact E |]. intros j q Hj. lia.
    + destruct (List.find (probes sample) cs) as [p|]; simpl in *.
      * destruct IH as (i & Hi & Hp & Hlt). exists (S i). repeat split; auto.
        intros [|j] q Hj Hq; simpl in Hq.
        -- now injection Hq as <-.
        -- apply (Hlt j); [lia | exact Hq].
      * intros q [<- | Hq]; auto.
Qed.

Lemma find_or_null_find sample candidates :
  Forall (fun c => c <> []) candidates ->
  find_or_null sample candidates = List.find (probes sample) candidates.
Proof.
  intros H. unfold find_or_null.
  destruct (List.find (probes sample) candidates) as [[|c p]|] eqn:E; try reflexivity.
  apply find_some in E as [Hin _].
  rewrite List.Forall_forall in H. now apply H in Hin.
Qed.

Lemma find_or_null_first_match sample candidates :
  Forall (fun c => c <> []) candidates ->
  first_match sample candidates (find_or_null sample candidates).
Proof.
  intros H. rewrite (find_or_null_find _ _ H). apply find_first_match.
Qed.

Lemma Monitor_detect_unknown g sampleActor :
  system_id g <> js "dnd5e" -> system_id g <> js "pf2e" -> system_id g <> js "shadowdark" ->
  Monitor.detectSystemPaths g sampleActor =
    {| hpPath := find_or_null (sample_doc sampleActor) Monitor.candidatesHP;
       tempPath := find_or_null (sample_doc sampleActor) Monitor.candidatesTemp;
       tempMaxPath := find_or_null (sample_doc sampleActor) Monitor.candidatesTempMax;
       damageSystem := false |}.
Proof.
  intros H1 H2 H3. unfold Monitor.detectSystemPaths, jsstring_eqb.
  repeat case_bool_decide; try contradiction. reflexivity.
Qed.

(** C9.  For a system identifier outside the table (dnd5e, pf2e,
    shadowdark), [detectSystemPaths] resolves each of hp, temp and tempmax to
    the first path of its candidate list whose value on the sample record
    coerces to a finite number, and to null when no candidate does.  The
    function is total: there is no error outcome. *)
Theorem detectSystemPaths_probes_in_order (g : Game) (sampleActor : option Actor) :
  system_id g <> js "dnd5e" -> system_id g <> js "pf2e" -> system_id g <> js "shadowdark" ->
  let table := Monitor.detectSystemPaths g sampleActor in
  let sample := sample_doc sampleActor in
  first_match sample Monitor.candidatesHP (hpPath table) /\
  first_match sample Monitor.candidatesTemp (tempPath table) /\
  first_match sample Monitor.candidatesTempMax (tempMaxPath table).
Proof.
  intros H1 H2 H3. cbv zeta.
  rewrite (Monitor_detect_unknown g sampleActor H1 H2 H3). cbn [hpPath tempPath tempMaxPath].
  repeat split; apply find_or_null_first_match;
    repeat constructor; discriminate.
Qed.

(** ** Recipients *)

Lemma Map_set_not_nil {V} k (v : V) m : Map_set k v m <> [].
Proof.
  destruct m as [|[k' v'] r]; simpl; [discriminate |].
  destruct (k =?s k'); discriminate.
Qed.

Lemma Map_of_not_nil {V} (entries : list (jsstring * V)) :
  entries <> [] -> Map_of entries <> [].
Proof.
  unfold Map_of.
  assert (G : forall es (m : list (jsstring * V)), m <> [] ->
            fold_left (fun m e => Map_set (fst e) (snd e) m) es m <> []).
  { induction es as [|e es IH]; intros m Hm; simpl; [exact Hm |].
    apply IH. apply Map_set_not_nil. }
  destruct entries as [|e es]; [congruence |]. intros _. simpl.
  apply G. discriminate.
Qed.

Lemma uniq_not_nil (gmUsers others : list User) :
  gmUsers <> [] -> uniq [gmUsers; others] <> [].
Proof.
  intros H. unfold uniq. intros E.
  apply map_eq_nil in E. revert E. apply Map_of_not_nil.
  destruct gmUsers; [congruence | discriminate].
Qed.

Lemma uniq_nil_gm (gmUsers others : list User) :
  uniq [gmUsers; others] = [] -> gmUsers = [].
Proof.
  intros E. destruct gmUsers as [|u r]; [reflexivity |].
  exfalso. revert E. apply uniq_not_nil. discriminate.
Qed.

Lemma map_user_id_not_nil (l : list User) : l <> [] -> List.map user_id l <> [].
Proof. destruct l; [congruence | discriminate]. Qed.

Lemma MultiSystem_audience_not_nil g actor :
  List.filter isGM (users g) <> [] -> MultiSystem.audience g actor <> [].
Proof.
  intros H. unfold MultiSystem.audience.
  repeat match goal with |- context [if ?b then _ else _] => destruct b end;
    auto using uniq_not_nil.
Qed.

Lemma MultiSystem_audience_nil_gm g actor :
  MultiSystem.audience g actor = [] -> List.filter isGM (users g) = [].
Proof.
  intros E. destruct (List.filter isGM (users g)) eqn:G; [reflexivity |].
  exfalso. apply (MultiSystem_audience_not_nil g actor); [rewrite G; discriminate | exact E].
Qed.

(** C2, as the code has it.  With at least one game-master user the list of
    [buildRecipients] is not empty, in the revision with the fallback and in
    the debounced one without it.  Whenever the computed recipients are empty,
    the result is the list of the game-master users' ids (which is then empty
    as well). *)
Theorem buildRecipients_falls_back_to_gm (g : Game) (actor : Actor) :
  let gmUsers := List.filter isGM (users g) in
  (gmUsers <> [] ->
     MultiSystem.buildRecipients g actor <> [] /\ Monitor.buildRecipients g actor <> []) /\
  (MultiSystem.audience g actor = [] ->
     MultiSystem.buildRecipients g actor = List.map user_id gmUsers) /\
  (Monitor.buildRecipients g actor = [] ->
     Monitor.buildRecipients g actor = List.map user_id gmUsers).
Proof.
  cbv zeta. split; [| split].
  - intros H. split.
    + unfold MultiSystem.buildRecipients.
      pose proof (MultiSystem_audience_not_nil g actor H) as A.
      destruct (MultiSystem.audience g actor) as [|u r]; [congruence | discriminate].
    + unfold Monitor.buildRecipients.
      repeat match goal with |- context [if ?b then _ else _] => destruct b end;
        apply map_user_id_not_nil; auto using uniq_not_nil.
  - intros E. unfold MultiSystem.buildRecipients. now rewrite E.
  - intros E. rewrite E. symmetry.
    destruct (List.filter isGM (users g)) as [|u r] eqn:G; [reflexivity |].
    exfalso. revert E. unfold Monitor.buildRecipients. rewrite G.
    repeat match goal with |- context [if ?b then _ else _] => destruct b end;
      apply map_user_id_not_nil; try discriminate; apply uniq_not_nil; discriminate.
Qed.

(** ** No-op suppression *)

(** The effective value: 0 where the path is unset or the value does not
    coerce to a finite number. *)
Lemma readNumber_effective doc path :
  readNumber doc path =
    match path with
    | Some (c :: p) =>
      match ToNumber (getProperty doc (c :: p)) with
      | Fin z => z
      | _ => 0
      end
    | _ => 0
    end.
Proof. destruct path as [[|c p]|]; reflexivity. Qed.

Lemma readNumber_missing doc p :
  getProperty doc p = VUndefined -> readNumber doc (Some p) = 0.
Proof.
  intros H. rewrite readNumber_effective. destruct p; [reflexivity |]. now rewrite H.
Qed.

(** C3.  In [processActorUpdate], a tracked numeric field (hit points,
    temporary and temporary-maximum hit points, each coin, the two death-save
    counters, each spell slot) whose effective value after the update equals
    the stashed effective value before it produces no message; likewise the
    quantity of an item in [processItemUpdate]. *)
Theorem equal_values_post_nothing (g : Game) (actor : Actor) (data : Monitor.Pending) :
  let paths := Monitor.resolvePaths g (Some actor) in
  let doc := actor_doc actor in
  (Monitor.oldHP data = Some (readNumber doc (hpPath paths)) ->
     Monitor.hp_lines g actor data = []) /\
  (Monitor.oldTHP data = Some (readNumber doc (tempPath paths)) ->
     Monitor.temp_lines g actor data = []) /\
  (Monitor.oldTHPMax data = Some (readNumber doc (tempMaxPath paths)) ->
     Monitor.tempmax_lines g actor data = []) /\
  (forall base k,
     match Monitor.currencyOld data !! k with Some v => v | None => 0 end
       = readNumber doc (Some (base ++ js "." ++ k)) ->
     Monitor.currency_line g actor data base k = []) /\
  (Monitor.deathSavesOld data =
     Some (readNumber doc (Some Monitor.successPath), readNumber doc (Some Monitor.failurePath)) ->
     Monitor.deathsave_lines g actor data = []) /\
  (forall lvl slot,
     Monitor.spellSlotsOld data !! lvl = Some slot ->
     Monitor.oldValue slot = readNumber doc (Some (Monitor.path slot)) ->
     Monitor.spellslot_line g actor data lvl = []) /\
  (forall item q,
     q = Monitor.or_number (readNumber (item_doc item) (Some (js "system.quantity"))) 0 ->
     Monitor.processItemUpdate g item
       {| Monitor.ItemData.oldQty := Some q; Monitor.ItemData.oldName := None;
          Monitor.ItemData.timer := None |} = []).
Proof.
  cbv zeta. repeat split.
  - intros H. unfold Monitor.hp_lines. rewrite H, Z.sub_diag.
    now destruct (truthy_path _).
  - intros H. unfold Monitor.temp_lines. rewrite H, Z.sub_diag.
    now destruct (truthy_path _).
  - intros H. unfold Monitor.tempmax_lines. rewrite H, Z.sub_diag.
    now destruct (truthy_path _).
  - intros base k H. unfold Monitor.currency_line. rewrite H, Z.sub_diag. reflexivity.
  - intros H. unfold Monitor.deathsave_lines. rewrite H, !Z.eqb_refl. reflexivity.
  - intros lvl slot Hs Hv. unfold Monitor.spellslot_line. rewrite Hs, Hv, Z.sub_diag.
    reflexivity.
  - intros item q ->. unfold Monitor.processItemUpdate. cbn [Monitor.ItemData.oldQty
      Monitor.ItemData.oldName].
    destruct (item_parent item); [| reflexivity].
    now rewrite Z.eqb_refl.
Qed.

(** ** Sign and magnitude *)

(** The change text in the words of the specification: old value, [+] for a
    positive delta and [-] for a negative one, the magnitude, an arrow, the
    new value. *)
Definition spec_change_text (old new : Z) : jsstring :=
  let delta := new - old in
  show_Z old ++ js " " ++ (if 0 <? delta then js "+" else js "-") ++ js " "
    ++ show_Z (Z.abs delta) ++ js " → " ++ show_Z new.

Lemma sign_of_plus delta : sign_of delta = js "+" <-> 0 < delta.
Proof.
  unfold sign_of. destruct (0 <? delta) eqn:E.
  - apply Z.ltb_lt in E. split; [intros _; exact E | reflexivity].
  - apply Z.ltb_ge in E. split; [discriminate | lia].
Qed.

Lemma sign_of_minus delta : delta <> 0 -> (sign_of delta = js "-" <-> delta < 0).
Proof.
  intros Hd. unfold sign_of. destruct (0 <? delta) eqn:E.
  - apply Z.ltb_lt in E. split; [discriminate | lia].
  - apply Z.ltb_ge in E. split; [lia | reflexivity].
Qed.

Lemma formatDelta_nonzero delta :
  delta <> 0 ->
  Reporter.formatDelta (Fin delta) = sign_of delta ++ js " " ++ show_Z (Z.abs delta).
Proof.
  intros Hd. unfold Reporter.formatDelta, sign_of, num_nonneg, num_abs, show_Number.
  destruct (0 <=? delta) eqn:E1, (0 <? delta) eqn:E2; try reflexivity.
  - apply Z.leb_le in E1. apply Z.ltb_ge in E2. lia.
  - apply Z.leb_gt in E1. apply Z.ltb_lt in E2. lia.
Qed.

(** The delta text of the debounced revision: the change text, or only sign
    and magnitude when the simple output is on. *)
Definition spec_delta_text (simple : bool) (old new : Z) : jsstring :=
  if simple
  then (if 0 <? new - old then js "+" else js "-") ++ js " " ++ show_Z (Z.abs (new - old))
  else spec_change_text old new.

(** The text of a death-save line: the word for the direction, the
    magnitude, the counter's name in the singular for a magnitude of one, the
    new count. *)
Definition spec_save_text (one many : string) (old new : Z) : jsstring :=
  let delta := new - old in
  (if 0 <? delta then js "gained " else js "lost ") ++ show_Z (Z.abs delta)
    ++ js " Death Save " ++ (if Z.abs delta =? 1 then js one else js many)
    ++ js " (" ++ show_Z new ++ js "/3)".

(** The text of a spell-slot line: the word for the direction, the magnitude
    when it is more than one, the level. *)
Definition spec_slot_text (lvl old new : Z) : jsstring :=
  let delta := new - old in
  (if delta <? 0 then js "expended" else js "regained") ++ js " "
    ++ (if 1 <? Z.abs delta then show_Z (Z.abs delta) ++ js " " else [])
    ++ js "level " ++ show_Z lvl ++ js " " ++ (if Z.abs delta =? 1 then js "slot" else js "slots").

(** A message of the debounced revision, written out: the line's [div], the
    icon, the link to the actor, the text; whispered to the actor's
    recipients. *)
Definition message_of (multiline : bool) (g : Game) (actor : Actor) (icon_classes : string)
    (text : jsstring) (cls kind : string) : ChatMessage :=
  {| content :=
       js "<div class=" ++ dquote
         ++ js (if multiline then "tiny-monitor-line tm-multiline" else "tiny-monitor-line")
         ++ dquote ++ js ">"
         ++ ((js "<i class=" ++ dquote ++ js icon_classes ++ dquote ++ js "></i>")
             ++ (js "<span class=" ++ dquote ++ js "tm-actor" ++ dquote ++ js ">"
                 ++ (js "@UUID[" ++ actor_uuid actor ++ js "]{"
                     ++ Monitor.clipName
                          (js_or (match match actor_token actor with
                                        | Some t => Some t
                                        | None => head (getActiveTokens actor)
                                        end with
                                  | Some t => token_name t
                                  | None => VUndefined
                                  end)
                                 (prop (actor_props actor) "name"))
                     ++ js "}")
                 ++ js "</span>")
             ++ (js "<span class=" ++ dquote ++ js "tm-text" ++ dquote ++ js ">"
                 ++ text ++ js "</span>"))
         ++ js "</div>";
     whisper := Monitor.buildRecipients g actor;
     kind := js kind;
     cls := js cls |}.

Definition line_of : Game -> Actor -> string -> jsstring -> string -> string -> ChatMessage :=
  message_of false.

Lemma message_of_posted multiline g actor icon_classes text cls kind :
  Monitor.postMonitorMessage g actor
    (Monitor.buildMonitorLine actor (icon icon_classes) text) cls kind multiline
  = message_of multiline g actor icon_classes text cls kind.
Proof. destruct multiline; reflexivity. Qed.

(** C4, as the code has it.  For a numeric change with
    [delta = new - old <> 0], the lines for hit points, temporary hit points,
    their maximum, coins and item quantities show [+] exactly when
    [delta > 0] and [-] exactly when [delta < 0], and the magnitude
    [|delta|]; applying the shown sign and magnitude to the old value gives
    the new one.  So render [formatDelta] of the first revision, these lines
    of [processActorUpdate] and [processItemUpdate], and the hit-point lines
    of the revision of lines 1-409.  The other lines for a numeric change
    show no sign: a death-save line has "gained" or "lost", the magnitude and
    the new count; a spell-slot line has "expended" or "regained" and the
    magnitude only when it is more than one; an item that goes from 0 to 1 or
    from 1 to 0 is "added" or "deleted", without a number. *)
Theorem change_line_sign_and_magnitude (old new : Z) :
  new <> old ->
  let delta := new - old in
  (sign_of delta = js "+" <-> 0 < delta) /\
  (sign_of delta = js "-" <-> delta < 0) /\
  (if 0 <? delta then old + Z.abs delta else old - Z.abs delta) = new /\
  Reporter.formatDelta (Fin delta) = sign_of delta ++ js " " ++ show_Z (Z.abs delta) /\
  forall (g : Game) (actor : Actor) (data : Monitor.Pending),
    let paths := Monitor.resolvePaths g (Some actor) in
    let doc := actor_doc actor in
    let simple := getWorldBool g "simpleOutput" false in
    (Monitor.oldHP data = Some old -> truthy_path (hpPath paths) = true ->
     readNumber doc (hpPath paths) = new ->
     Monitor.hp_lines g actor data =
       [line_of g actor "fa-solid fa-heart"
          ((if damageSystem paths then js "Damage" else js "HP") ++ js ": "
           ++ spec_delta_text simple old new)
          (if (if damageSystem paths then delta <? 0 else 0 <? delta)
           then "tiny-monitor-gain" else "tiny-monitor-loss") "hp"]) /\
    (Monitor.oldTHP data = Some old -> truthy_path (tempPath paths) = true ->
     readNumber doc (tempPath paths) = new ->
     Monitor.temp_lines g actor data =
       [line_of g actor "fa-solid fa-shield-halved"
          (js "Temp: " ++ spec_delta_text simple old new) "tiny-monitor-temp" "temp"]) /\
    (Monitor.oldTHPMax data = Some old -> truthy_path (tempMaxPath paths) = true ->
     readNumber doc (tempMaxPath paths) = new ->
     Monitor.tempmax_lines g actor data =
       [line_of g actor "fa-solid fa-circle-plus"
          (js "Temp Max: " ++ spec_delta_text simple old new)
          "tiny-monitor-tempmax" "tempmax"]) /\
    (forall base k,
       Monitor.currencyOld data !! k = Some old ->
       readNumber doc (Some (base ++ js "." ++ k)) = new ->
       Monitor.currency_line g actor data base k =
         [line_of g actor "fa-solid fa-coins"
            (Monitor.coinLabel k (system_id g) ++ js ": " ++ spec_delta_text simple old new)
            (if 0 <? delta then "tiny-monitor-currency-gain"
             else "tiny-monitor-currency-loss") "currency"]) /\
    (forall oldFail,
       Monitor.deathSavesOld data = Some (old, oldFail) ->
       readNumber doc (Some Monitor.successPath) = new ->
       exists rest,
         Monitor.deathsave_lines g actor data =
           line_of g actor "fa-solid fa-heart-pulse"
             (spec_save_text "Success" "Successes" old new)
             (if 0 <? delta then "tiny-monitor-gain" else "tiny-monitor-loss") "deathsave"
           :: rest) /\
    (forall oldSucc,
       Monitor.deathSavesOld data = Some (oldSucc, old) ->
       readNumber doc (Some Monitor.failurePath) = new ->
       exists before,
         Monitor.deathsave_lines g actor data =
           before ++
           [line_of g actor "fa-solid fa-skull"
              (spec_save_text "Failure" "Failures" old new)
              (if 0 <? delta then "tiny-monitor-loss" else "tiny-monitor-gain") "deathsave"]) /\
    (forall lvl slot,
       Monitor.spellSlotsOld data !! lvl = Some slot ->
       Monitor.oldValue slot = old ->
       readNumber doc (Some (Monitor.path slot)) = new ->
       Monitor.spellslot_line g actor data lvl =
         [line_of g actor "fa-solid fa-hat-wizard" (spec_slot_text lvl old new)
            (if delta <? 0 then "tiny-monitor-spellslot-expend"
             else "tiny-monitor-spellslot-regain") "spellslot"]) /\
    (forall (item : Item) (idata : Monitor.ItemData.t),
       item_parent item = Some actor ->
       Monitor.ItemData.oldQty idata = Some old ->
       Monitor.or_number (readNumber (item_doc item) (Some (js "system.quantity"))) 0 = new ->
       let name := Monitor.clipName (prop (item_props item) "name") in
       exists rest,
         Monitor.processItemUpdate g item idata =
           message_of true g actor "fa-solid fa-backpack"
             (if (old =? 0) && (new =? 1) then js "added " ++ name
              else if (old =? 1) && (new =? 0) then js "deleted " ++ name
              else name ++ js ": " ++ spec_delta_text simple old new)
             (if (old =? 0) && (new =? 1) then "tiny-monitor-item-inc"
              else if (old =? 1) && (new =? 0) then "tiny-monitor-item-dec"
              else if 0 <? delta then "tiny-monitor-item-inc" else "tiny-monitor-item-dec")
             "item"
           :: rest) /\
    (forall payload : MultiSystem.Payload,
       let table := MultiSystem.resolvePaths g (Some actor) in
       let name := MultiSystem.getDisplayName actor in
       (MultiSystem.oldHP payload = Some old -> truthy_path (hpPath table) = true ->
        readNumber doc (hpPath table) = new ->
        exists rest,
          MultiSystem.results g actor payload =
            (name ++ js " HP: " ++ spec_change_text old new,
             if 0 <? delta then "hp-gain" else "hp-loss", "hp") :: rest) /\
       (MultiSystem.oldTHP payload = Some old -> truthy_path (tempPath table) = true ->
        readNumber doc (tempPath table) = new ->
        exists before rest,
          MultiSystem.results g actor payload =
            before ++ (name ++ js " Temp: " ++ spec_change_text old new, "hp-temp", "temp")
              :: rest) /\
       (MultiSystem.oldTHPMax payload = Some old -> truthy_path (tempMaxPath table) = true ->
        readNumber doc (tempMaxPath table) = new ->
        exists before rest,
          MultiSystem.results g actor payload =
            before ++ (name ++ js " Temp Max: " ++ spec_change_text old new,
                       "hp-tempmax", "tempmax") :: rest)).
Proof.
  intros Hne delta. assert (Hd : delta <> 0) by (unfold delta; lia).
  assert (Hz : (delta =? 0) = false) by (now apply Z.eqb_neq).
  assert (Hn : (new =? old) = false) by (now apply Z.eqb_neq).
  split; [apply sign_of_plus |].
  split; [apply sign_of_minus; exact Hd |].
  split; [destruct (0 <? delta) eqn:E;
          [apply Z.ltb_lt in E | apply Z.ltb_ge in E]; unfold delta in *; lia |].
  split; [apply formatDelta_nonzero; exact Hd |].
  intros g actor data. cbv zeta.
  unfold line_of, spec_delta_text, spec_change_text, spec_save_text, spec_slot_text.
  fold delta. repeat split.
  - intros Hold Hpath Hnew. unfold Monitor.hp_lines. rewrite Hold, Hpath, Hnew.
    fold delta. rewrite Hz. cbn [negb]. unfold sign_of. rewrite message_of_posted.
    destruct (getWorldBool g "simpleOutput" false); reflexivity.
  - intros Hold Hpath Hnew. unfold Monitor.temp_lines. rewrite Hold, Hpath, Hnew.
    fold delta. rewrite Hz. cbn [negb]. unfold sign_of. rewrite message_of_posted.
    destruct (getWorldBool g "simpleOutput" false); reflexivity.
  - intros Hold Hpath Hnew. unfold Monitor.tempmax_lines. rewrite Hold, Hpath, Hnew.
    fold delta. rewrite Hz. cbn [negb]. unfold sign_of. rewrite message_of_posted.
    destruct (getWorldBool g "simpleOutput" false); reflexivity.
  - intros base k Hold Hnew. unfold Monitor.currency_line. rewrite Hold, Hnew.
    fold delta. rewrite Hz. cbn [negb]. unfold sign_of. rewrite message_of_posted.
    destruct (getWorldBool g "simpleOutput" false); reflexivity.
  - intros oldFail Hold Hnew. unfold Monitor.deathsave_lines. rewrite Hold, Hnew.
    fold delta. rewrite Hn. cbn [negb].
    destruct (0 <? delta) eqn:E; rewrite message_of_posted; cbn [app]; eexists.
    + apply Z.ltb_lt in E. rewrite (Z.abs_eq delta) by lia. reflexivity.
    + reflexivity.
  - intros oldSucc Hold Hnew. unfold Monitor.deathsave_lines. rewrite Hold, Hnew.
    fold delta. rewrite Hn. cbn [negb].
    destruct (0 <? delta) eqn:E; rewrite message_of_posted; eexists.
    + apply Z.ltb_lt in E. rewrite (Z.abs_eq delta) by lia. reflexivity.
    + reflexivity.
  - intros lvl slot Hs Hold Hnew. unfold Monitor.spellslot_line. rewrite Hs, Hold, Hnew.
    fold delta. rewrite Hz. cbn [negb]. rewrite message_of_posted.
    now destruct (delta <? 0).
  - intros item idata Hp Hold Hnew. unfold Monitor.processItemUpdate.
    rewrite Hp, Hold, Hnew. fold delta. rewrite Hn. cbn [negb]. unfold sign_of.
    destruct ((old =? 0) && (new =? 1)); [| destruct ((old =? 1) && (new =? 0))];
      rewrite message_of_posted; cbn [app]; eexists; reflexivity.
  - intros Hold Hpath Hnew. unfold MultiSystem.results.
    rewrite Hold, Hpath, Hnew. fold delta. rewrite Hz. cbn [negb]. unfold sign_of.
    eexists. cbn [app]. reflexivity.
  - intros Hold Hpath Hnew. unfold MultiSystem.results.
    rewrite Hold, Hpath, Hnew. fold delta. rewrite Hz. cbn [negb]. unfold sign_of.
    eexists. eexists. cbn [app]. reflexivity.
  - intros Hold Hpath Hnew. unfold MultiSystem.results.
    rewrite Hold, Hpath, Hnew. fold delta. rewrite Hz. cbn [negb]. unfold sign_of.
    eexists. eexists. rewrite app_assoc. cbn [app]. reflexivity.
Qed.

(** ** Damage systems *)

(** The style tag of the hit-point entry of [results], when there is one. *)
Definition hp_style (rs : list (jsstring * string * string)) : option string :=
  match List.find (fun r => String.eqb (snd r) "hp") rs with
  | Some r => Some (snd (fst r))
  | None => None
  end.

Lemma Tracker_hp_style g actor payload old :
  Tracker.oldHP payload = Some old ->
  truthy_path (hpPath (Tracker.resolvePaths g (Some actor))) = true ->
  readNumber (actor_doc actor) (hpPath (Tracker.resolvePaths g (Some actor))) <> old ->
  hp_style (Tracker.results g actor payload) =
    let delta := readNumber (actor_doc actor) (hpPath (Tracker.resolvePaths g (Some actor)))
                 - old in
    Some (if damageSystem (Tracker.resolvePaths g (Some actor))
          then (if delta <? 0 then "hp-gain" else "hp-loss")
          else (if 0 <? delta then "hp-gain" else "hp-loss")).
Proof.
  intros Hold Hpath Hne. unfold Tracker.results. rewrite Hold, Hpath.
  assert (E : (readNumber (actor_doc actor) (hpPath (Tracker.resolvePaths g (Some actor)))
               - old =? 0) = false) by (apply Z.eqb_neq; lia).
  rewrite E. reflexivity.
Qed.

(** The debounced revisions carry the same test in [processActorUpdate], but
    their path tables never set the flag. *)
Lemma Monitor_never_damageSystem g actor :
  damageSystem (Monitor.resolvePaths g actor) = false.
Proof.
  unfold Monitor.resolvePaths, Monitor.detectSystemPaths.
  repeat match goal with |- context [if ?b then _ else _] => destruct b end; reflexivity.
Qed.

(** C6.  With [damageSystem = true] in the resolved path table, an increase
    of the tracked field is tagged as a loss and a decrease as a gain; with
    [damageSystem = false] an increase is a gain and a decrease a loss. *)
Theorem damage_system_inverts_style (g : Game) (actor : Actor)
    (payload : Tracker.Payload) (old : Z) :
  let paths := Tracker.resolvePaths g (Some actor) in
  let new := readNumber (actor_doc actor) (hpPath paths) in
  Tracker.oldHP payload = Some old ->
  truthy_path (hpPath paths) = true ->
  (damageSystem paths = true ->
     (old < new -> hp_style (Tracker.results g actor payload) = Some "hp-loss") /\
     (new < old -> hp_style (Tracker.results g actor payload) = Some "hp-gain")) /\
  (damageSystem paths = false ->
     (old < new -> hp_style (Tracker.results g actor payload) = Some "hp-gain") /\
     (new < old -> hp_style (Tracker.results g actor payload) = Some "hp-loss")).
Proof.
  intros paths new Hold Hpath.
  assert (S : new <> old ->
    hp_style (Tracker.results g actor payload) =
      Some (if damageSystem paths
            then (if new - old <? 0 then "hp-gain" else "hp-loss")
            else (if 0 <? new - old then "hp-gain" else "hp-loss"))).
  { intros Hne. exact (Tracker_hp_style g actor payload old Hold Hpath Hne). }
  split; intros Hd; rewrite Hd in S; split; intros Hlt; rewrite S by lia.
  - assert (E : (new - old <? 0) = false) by (apply Z.ltb_ge; lia). now rewrite E.
  - assert (E : (new - old <? 0) = true) by (apply Z.ltb_lt; lia). now rewrite E.
  - assert (E : (0 <? new - old) = true) by (apply Z.ltb_lt; lia). now rewrite E.
  - assert (E : (0 <? new - old) = false) by (apply Z.ltb_ge; lia). now rewrite E.
Qed.

(** ** Deleting an item *)

Lemma Monitor_preDeleteItem_stash g item parent stash :
  getWorldBool g "trackItemChanges" false = true ->
  item_parent item = Some parent ->
  exists p, Monitor.preDeleteItem g item stash !! item_uuid item = Some p /\
    Monitor.stash_hasQty p = hasProperty (item_doc item) (js "system.quantity") /\
    Monitor.stash_qty p = readNumber (item_doc item) (Some (js "system.quantity")).
Proof.
  intros Ht Hp. unfold Monitor.preDeleteItem. rewrite Ht, Hp. cbn [negb].
  eexists. rewrite lookup_insert_eq. repeat split.
Qed.

Lemma Monitor_deleteItem_silent g item user stash p :
  stash !! item_uuid item = Some p ->
  Monitor.stash_hasQty p = true -> Monitor.stash_qty p = 0 ->
  snd (Monitor.deleteItem g item user stash) = [].
Proof.
  intros Hs Hh Hq. unfold Monitor.deleteItem.
  destruct (_ || _); [reflexivity |]. rewrite Hs, Hh, Hq. reflexivity.
Qed.

Lemma Monitor_deleteItem_posts g item user stash :
  snd (Monitor.deleteItem g item user stash) <> [] ->
  exists p, stash !! item_uuid item = Some p /\
    (Monitor.stash_hasQty p = false \/ Monitor.stash_qty p <> 0).
Proof.
  unfold Monitor.deleteItem.
  destruct (_ || _); [intros H; now contradiction H |].
  destruct (stash !! item_uuid item) as [p|]; [| intros H; now contradiction H].
  destruct (Monitor.stash_hasQty p) eqn:Hh; [| intros _; exists p; auto].
  destruct (Monitor.stash_qty p =? 0) eqn:Hq; [intros H; now contradiction H |].
  intros _. exists p. split; [reflexivity |]. right. now apply Z.eqb_neq.
Qed.

Lemma Coalesced_preDeleteItem_stash g item parent stash :
  getWorldBool g "trackItemChanges" false = true ->
  item_parent item = Some parent ->
  exists p, Coalesced.preDeleteItem g item stash !! item_uuid item = Some p /\
    Coalesced.stash_hasQty p = hasProperty (item_doc item) (js "system.quantity") /\
    Coalesced.stash_qty p = readNumber (item_doc item) (Some (js "system.quantity")).
Proof.
  intros Ht Hp. unfold Coalesced.preDeleteItem. rewrite Ht, Hp. cbn [negb].
  eexists. rewrite lookup_insert_eq. repeat split.
Qed.

Lemma Coalesced_deleteItem_silent g item user stash p :
  stash !! item_uuid item = Some p ->
  Coalesced.stash_hasQty p = true -> Coalesced.stash_qty p = 0 ->
  snd (Coalesced.deleteItem g item user stash) = [].
Proof.
  intros Hs Hh Hq. unfold Coalesced.deleteItem.
  destruct (_ || _); [reflexivity |]. rewrite Hs, Hh, Hq. reflexivity.
Qed.

Lemma Coalesced_deleteItem_posts g item user stash :
  snd (Coalesced.deleteItem g item user stash) <> [] ->
  exists p, stash !! item_uuid item = Some p /\
    (Coalesced.stash_hasQty p = false \/ Coalesced.stash_qty p <> 0).
Proof.
  unfold Coalesced.deleteItem.
  destruct (_ || _); [intros H; now contradiction H |].
  destruct (stash !! item_uuid item) as [p|]; [| intros H; now contradiction H].
  destruct (Coalesced.stash_hasQty p) eqn:Hh; [| intros _; exists p; auto].
  destruct (Coalesced.stash_qty p =? 0) eqn:Hq; [intros H; now contradiction H |].
  intros _. exists p. split; [reflexivity |]. right. now apply Z.eqb_neq.
Qed.

(** C10.  When the deleted item (an item of an actor) has a quantity field
    and its quantity before the deletion was 0, [deleteItem] creates no
    message; a message is created only for a stashed item without a quantity
    field or with a nonzero quantity.  Both debounced revisions. *)
Theorem deleteItem_zero_quantity_is_silent (g : Game) (item : Item) (user : jsstring) :
  (forall stash stash' parent,
     item_parent item = Some parent ->
     hasProperty (item_doc item) (js "system.quantity") = true ->
     readNumber (item_doc item) (Some (js "system.quantity")) = 0 ->
     snd (Monitor.deleteItem g item user (Monitor.preDeleteItem g item stash)) = [] /\
     snd (Coalesced.deleteItem g item user (Coalesced.preDeleteItem g item stash')) = []) /\
  (forall stash,
     snd (Monitor.deleteItem g item user stash) <> [] ->
     exists p, stash !! item_uuid item = Some p /\
       (Monitor.stash_hasQty p = false \/ Monitor.stash_qty p <> 0)) /\
  (forall stash,
     snd (Coalesced.deleteItem g item user stash) <> [] ->
     exists p, stash !! item_uuid item = Some p /\
       (Coalesced.stash_hasQty p = false \/ Coalesced.stash_qty p <> 0)).
Proof.
  split; [| split].
  - intros stash stash' parent Hp Hh Hq.
    destruct (getWorldBool g "trackItemChanges" false) eqn:Ht.
    + split.
      * destruct (Monitor_preDeleteItem_stash g item parent stash Ht Hp)
          as (p & Hs & Hh' & Hq').
        apply (Monitor_deleteItem_silent g item user _ p Hs); congruence.
      * destruct (Coalesced_preDeleteItem_stash g item parent stash' Ht Hp)
          as (p & Hs & Hh' & Hq').
        apply (Coalesced_deleteItem_silent g item user _ p Hs); congruence.
    + unfold Monitor.deleteItem, Coalesced.deleteItem. rewrite Ht.
      now rewrite orb_true_r.
  - apply Monitor_deleteItem_posts.
  - apply Coalesced_deleteItem_posts.
Qed.

(** ** Item quantity phrasing *)

Definition quantity_data (old : Z) : Monitor.ItemData.t :=
  {| Monitor.ItemData.oldQty := Some old;
     Monitor.ItemData.oldName := None;
     Monitor.ItemData.timer := None |}.

(** The line [processItemUpdate] posts for a quantity that went from [old]
    to [new], in the words of the specification, with the simple mode of the
    code. *)
Definition spec_quantity_text (simple : bool) (name : jsstring) (old new : Z) : jsstring :=
  if (old =? 0) && (new =? 1) then js "added " ++ name
  else if (old =? 1) && (new =? 0) then js "deleted " ++ name
  else name ++ js ": " ++
       (if simple
        then (if 0 <? new - old then js "+" else js "-") ++ js " " ++ show_Z (Z.abs (new - old))
        else spec_change_text old new).

(** C7, as the code has it.  For a quantity that changed from [old] to
    [new <> old], [processItemUpdate] posts one line: ["added <name>"] for
    0 to 1, ["deleted <name>"] for 1 to 0, and otherwise a signed delta with
    sign and magnitude, preceded by the old value and followed by the new one
    unless the simple output is on.  The revision without debouncing
    (unnamed/part_002) posts the full signed delta for every pair. *)
Theorem quantity_change_phrasing (g : Game) (item : Item) (parent : Actor) (old : Z) :
  let new := Monitor.or_number (readNumber (item_doc item) (Some (js "system.quantity"))) 0 in
  let name := prop (item_props item) "name" in
  item_parent item = Some parent ->
  new <> old ->
  (exists cls,
     Monitor.processItemUpdate g item (quantity_data old) =
       [Monitor.postMonitorMessage g parent
          (Monitor.buildMonitorLine parent (icon "fa-solid fa-backpack")
             (spec_quantity_text (getWorldBool g "simpleOutput" false)
                (Monitor.clipName name) old new))
          cls "item" true]) /\
  (forall user stash,
     user = userId g ->
     getWorldBool g "trackItemChanges" false = true ->
     stash !! item_uuid item = Some {| Tracker.oldQty := Some old; Tracker.oldName := None |} ->
     exists rest,
       snd (Tracker.updateItem g item (VObject []) user stash) =
         Tracker.postItemMessage g parent
           (Tracker.getDisplayName parent ++ js "'s Item: " ++ Tracker.clipName name
              ++ js " — " ++ spec_change_text old new) :: rest).
Proof.
  intros new name Hp Hne. split.
  - unfold Monitor.processItemUpdate, quantity_data. rewrite Hp.
    cbn [Monitor.ItemData.oldQty Monitor.ItemData.oldName]. fold new. fold name.
    assert (E : (new =? old) = false) by (apply Z.eqb_neq; exact Hne).
    rewrite E. cbn [negb]. unfold spec_quantity_text, sign_of.
    destruct ((old =? 0) && (new =? 1)); [eexists; reflexivity |].
    destruct ((old =? 1) && (new =? 0)); [eexists; reflexivity |].
    rewrite app_nil_r.
    destruct (getWorldBool g "simpleOutput" false); eexists; reflexivity.
  - intros user stash -> Ht Hs. unfold Tracker.updateItem.
    assert (U : (userId g =?s userId g) = true)
      by (unfold jsstring_eqb; now apply bool_decide_eq_true).
    rewrite U, Hp, Hs.
    cbn [negb default from_option id snd Tracker.oldQty Tracker.oldName].
    rewrite Ht. fold new. fold name.
    assert (E : (new =? old) = false) by (apply Z.eqb_neq; exact Hne).
    rewrite E. cbn [negb]. eexists. unfold spec_change_text, sign_of. reflexivity.
Qed.

(** ** The debounce coalescer *)

(** The first value offered in a sequence of insertions. *)
Fixpoint first_some {A} (offers : list (option A)) : option A :=
  match offers with
  | [] => None
  | Some a :: _ => Some a
  | None :: r => first_some r
  end.

(** The bucket that a sequence of stashes leaves, from an empty one. *)
Definition bucket_of (stashes : list Monitor.Payload.t) : Monitor.Pending :=
  fold_left Monitor.merge stashes Monitor.fresh_pending.

(** What a stash offers for one coin, and for one spell level. *)
Definition coin_offer (k : jsstring) (p : Monitor.Payload.t) : option Z :=
  match Monitor.Payload.currency p with
  | Some c =>
    if existsb (fun k' => k' =?s k) (Monitor.Payload.coins c)
    then Monitor.Payload.old c !! k else None
  | None => None
  end.

Definition slot_offer (lvl : Z) (p : Monitor.Payload.t) : option Monitor.Slot :=
  match Monitor.Payload.spellSlots p with
  | Some slots => List.find (fun s => Monitor.level s =? lvl) slots
  | None => None
  end.

Lemma keep_first_some {A} (cur : option A) (offers : list (option A)) :
  fold_left Monitor.keep offers cur = Monitor.keep cur (first_some offers).
Proof.
  revert cur. induction offers as [|o r IH]; intros cur; simpl.
  - now destruct cur.
  - rewrite IH. destruct cur, o; reflexivity.
Qed.

Lemma jsstring_eqb_eq a b : (a =?s b) = true <-> a = b.
Proof. unfold jsstring_eqb. apply bool_decide_eq_true. Qed.

Lemma jsstring_eqb_refl a : (a =?s a) = true.
Proof. now apply jsstring_eqb_eq. Qed.

Lemma jsstring_eqb_neq a b : (a =?s b) = false <-> a <> b.
Proof. unfold jsstring_eqb. apply bool_decide_eq_false. Qed.

Lemma merge_currencyOld_lookup (c : Monitor.Payload.Currency) (m : gmap jsstring Z)
    (k : jsstring) :
  Monitor.merge_currencyOld c m !! k =
    match m !! k with
    | Some v => Some v
    | None => if existsb (fun k' => k' =?s k) (Monitor.Payload.coins c)
              then Monitor.Payload.old c !! k else None
    end.
Proof.
  unfold Monitor.merge_currencyOld.
  generalize (Monitor.Payload.coins c) as coins. intros coins. revert m.
  induction coins as [|k' coins IH]; intros m; simpl.
  - now destruct (m !! k).
  - rewrite IH. clear IH.
    destruct (k' =?s k) eqn:E; simpl.
    + apply jsstring_eqb_eq in E as ->.
      destruct (m !! k) as [v|] eqn:Hm.
      * now rewrite Hm.
      * destruct (Monitor.Payload.old c !! k) as [v|] eqn:Ho.
        -- now rewrite lookup_insert_eq.
        -- rewrite Hm. now destruct (existsb _ coins).
    + apply jsstring_eqb_neq in E.
      destruct (m !! k') as [v'|]; [reflexivity |].
      destruct (Monitor.Payload.old c !! k') as [v'|]; [| reflexivity].
      now rewrite lookup_insert_ne.
Qed.

Lemma merge_spellSlotsOld_lookup (slots : list Monitor.Slot) (m : gmap Z Monitor.Slot)
    (lvl : Z) :
  Monitor.merge_spellSlotsOld slots m !! lvl =
    match m !! lvl with
    | Some s => Some s
    | None => List.find (fun s => Monitor.level s =? lvl) slots
    end.
Proof.
  unfold Monitor.merge_spellSlotsOld. revert m.
  induction slots as [|s slots IH]; intros m; simpl.
  - now destruct (m !! lvl).
  - rewrite IH. clear IH.
    destruct (Monitor.level s =? lvl) eqn:E.
    + apply Z.eqb_eq in E. subst lvl.
      destruct (m !! Monitor.level s) as [s'|] eqn:Hm.
      * now rewrite Hm.
      * now rewrite lookup_insert_eq.
    + apply Z.eqb_neq in E.
      destruct (m !! Monitor.level s) as [s'|]; [reflexivity |].
      now rewrite lookup_insert_ne.
Qed.

(** Field by field, a bucket holds the first value offered. *)
Lemma merged_fields (stashes : list Monitor.Payload.t) (p : Monitor.Pending) :
  let b := fold_left Monitor.merge stashes p in
  Monitor.oldHP b =
    Monitor.keep (Monitor.oldHP p) (first_some (List.map Monitor.Payload.oldHP stashes)) /\
  Monitor.oldTHP b =
    Monitor.keep (Monitor.oldTHP p) (first_some (List.map Monitor.Payload.oldTHP stashes)) /\
  Monitor.oldTHPMax b =
    Monitor.keep (Monitor.oldTHPMax p)
      (first_some (List.map Monitor.Payload.oldTHPMax stashes)) /\
  Monitor.oldInspiration b =
    Monitor.keep (Monitor.oldInspiration p)
      (first_some (List.map Monitor.Payload.oldInspiration stashes)) /\
  Monitor.deathSavesOld b =
    Monitor.keep (Monitor.deathSavesOld p)
      (first_some (List.map Monitor.Payload.deathSaves stashes)) /\
  (forall k, Monitor.currencyOld b !! k =
     Monitor.keep (Monitor.currencyOld p !! k) (first_some (List.map (coin_offer k) stashes))) /\
  (forall lvl, Monitor.spellSlotsOld b !! lvl =
     Monitor.keep (Monitor.spellSlotsOld p !! lvl)
       (first_some (List.map (slot_offer lvl) stashes))) /\
  Monitor.timer b = Monitor.timer p.
Proof.
  revert p. induction stashes as [|s r IH]; intros p.
  - cbn. repeat split; try (now destruct (_ p)).
    + intros k. now destruct (_ !! k).
    + intros lvl. now destruct (_ !! lvl).
  - cbn [fold_left List.map]. specialize (IH (Monitor.merge p s)).
    cbv zeta in IH. destruct IH as (H1 & H2 & H3 & H4 & H5 & H6 & H7 & H8).
    cbv zeta. rewrite H1, H2, H3, H4, H5, H8.
    cbn [Monitor.merge Monitor.oldHP Monitor.oldTHP Monitor.oldTHPMax
         Monitor.oldInspiration Monitor.deathSavesOld Monitor.timer first_some].
    repeat split.
    + now destruct (Monitor.oldHP p), (Monitor.Payload.oldHP s).
    + now destruct (Monitor.oldTHP p), (Monitor.Payload.oldTHP s).
    + now destruct (Monitor.oldTHPMax p), (Monitor.Payload.oldTHPMax s).
    + now destruct (Monitor.oldInspiration p), (Monitor.Payload.oldInspiration s).
    + now destruct (Monitor.deathSavesOld p), (Monitor.Payload.deathSaves s).
    + intros k. rewrite H6. cbn [Monitor.merge Monitor.currencyOld]. unfold coin_offer.
      destruct (Monitor.Payload.currency s) as [c|].
      * rewrite merge_currencyOld_lookup.
        destruct (Monitor.currencyOld p !! k); [reflexivity |].
        now destruct (existsb _ _); [destruct (Monitor.Payload.old c !! k) |].
      * now destruct (Monitor.currencyOld p !! k).
    + intros lvl. rewrite H7. cbn [Monitor.merge Monitor.spellSlotsOld]. unfold slot_offer.
      destruct (Monitor.Payload.spellSlots s) as [slots|].
      * rewrite merge_spellSlotsOld_lookup.
        destruct (Monitor.spellSlotsOld p !! lvl); [reflexivity |].
        now destruct (List.find _ slots).
      * now destruct (Monitor.spellSlotsOld p !! lvl).
Qed.

Section Coalescer.
Import Monitor.
Variable g : Game.
Variable uuid : jsstring.

Definition in_quiet_period (d : Delta) : Prop :=
  actor_uuid (after d) = uuid /\ 0 <= gap d < DEBOUNCE_MS.

Lemma bucket_of_snoc stashes s :
  bucket_of (stashes ++ [s]) = merge (bucket_of stashes) s.
Proof. unfold bucket_of. now rewrite fold_left_app. Qed.

Lemma last_default {A} (l : list A) (x a b : A) :
  List.last (x :: l) a = List.last (x :: l) b.
Proof.
  revert x. induction l as [|y l IH]; intros x; [reflexivity |].
  change (List.last (y :: l) a = List.last (y :: l) b). apply IH.
Qed.

(** The flushes of the record. *)
Definition own (fl : list (jsstring * Pending)) : list (jsstring * Pending) :=
  List.filter (fun f => fst f =?s uuid) fl.

(** Every pending timer but [mine] belongs to another record. *)
Definition foreign (rt : Runtime) (mine : option positive) : Prop :=
  forall h t, timers rt !! h = Some t -> Some h <> mine -> closure_uuid t <> uuid.

Lemma own_app fl fl' : own (fl ++ fl') = own fl ++ own fl'.
Proof. unfold own. apply List.filter_app. Qed.

Lemma own_other fl u p : u <> uuid -> own (fl ++ [(u, p)]) = own fl.
Proof.
  intros H. rewrite own_app. unfold own at 2. cbn.
  apply jsstring_eqb_neq in H. rewrite H. apply app_nil_r.
Qed.

Lemma own_mine fl p : own (fl ++ [(uuid, p)]) = own fl ++ [(uuid, p)].
Proof.
  rewrite own_app. unfold own at 2. cbn. now rewrite jsstring_eqb_refl.
Qed.

Lemma due_elements t rt h tm :
  In (h, tm) (due t rt) -> timers rt !! h = Some tm /\ deadline tm <= t.
Proof.
  unfold due. intros H.
  apply (Permutation_in _ (merge_sort_Permutation earlier _)) in H.
  apply filter_In in H as [H D]. cbn in D. apply Z.leb_le in D.
  apply list_elem_of_In, elem_of_map_to_list in H. now split.
Qed.

Lemma due_complete t rt h tm :
  timers rt !! h = Some tm -> deadline tm <= t -> In (h, tm) (due t rt).
Proof.
  intros H D. unfold due.
  apply (Permutation_in _ (Permutation_sym (merge_sort_Permutation earlier _))).
  apply filter_In. split.
  - now apply list_elem_of_In, elem_of_map_to_list.
  - cbn. now apply Z.leb_le.
Qed.

Lemma due_NoDup t rt : List.NoDup (due t rt).
Proof.
  unfold due.
  apply (Permutation_NoDup (Permutation_sym (merge_sort_Permutation earlier _))).
  apply List.NoDup_filter. apply NoDup_ListNoDup, NoDup_map_to_list.
Qed.

(** The record has no bucket open, its flushes so far are [mine], and
    [segment] is in the chat since [rt0]. *)
Record Settled (rt0 rt : Runtime) (mine : list (jsstring * Pending))
    (segment : list ChatMessage) : Prop := {
  settled_map : ACTOR_DEBOUNCE rt !! uuid = None;
  settled_foreign : foreign rt None;
  settled_flushes : own (flushes rt) = mine;
  settled_chat : exists before after, chat rt = chat rt0 ++ before ++ segment ++ after
}.

(** The bucket of the record is open: it holds the merge of [stashes], its
    timer [h] is due at [due_at], and nothing of the record was flushed
    since [rt0]. *)
Record Pending_flush (rt0 rt : Runtime) (actor : Actor) (stashes : list Payload.t)
    (address h : positive) (due_at : Z) : Prop := {
  pending_map : ACTOR_DEBOUNCE rt !! uuid = Some address;
  pending_heap : heap rt !! address = Some (set_timer (Some h) (bucket_of stashes));
  pending_timer : timers rt !! h =
    Some {| deadline := due_at; closure_actor := uuid; closure_uuid := uuid;
            closure_pending := address |};
  pending_foreign : foreign rt (Some h);
  pending_actor : actors rt !! uuid = Some actor;
  pending_flushes : own (flushes rt) = own (flushes rt0);
  pending_chat : exists extra, chat rt = chat rt0 ++ extra
}.

Lemma settled_run rt0 rt mine segment ht :
  Settled rt0 rt mine segment -> Settled rt0 (run_timer g rt ht) mine segment.
Proof.
  intros [Hm Hf Hl Hc]. unfold run_timer.
  destruct (timers rt !! fst ht) as [t|] eqn:Ht; [| now constructor].
  assert (Hu : closure_uuid t <> uuid) by (apply (Hf _ _ Ht); discriminate).
  unfold callback. constructor; cbn [ACTOR_DEBOUNCE timers flushes chat heap actors].
  - now rewrite lookup_delete_ne.
  - intros h' t' H' _. cbn [timers] in H'. apply lookup_delete_Some in H' as [_ H'].
    apply (Hf _ _ H'). discriminate.
  - now rewrite own_other.
  - destruct Hc as (before & after & Hc). rewrite Hc.
    eexists before, (after ++ _). now rewrite <- !app_assoc.
Qed.

Lemma settled_fold rt0 mine segment l : forall rt,
  Settled rt0 rt mine segment -> Settled rt0 (fold_left (run_timer g) l rt) mine segment.
Proof.
  induction l as [|ht l IH]; intros rt H; [exact H |].
  cbn [fold_left]. apply IH. now apply settled_run.
Qed.

Lemma pending_run rt0 rt actor stashes address h due_at ht :
  Pending_flush rt0 rt actor stashes address h due_at -> fst ht <> h ->
  Pending_flush rt0 (run_timer g rt ht) actor stashes address h due_at.
Proof.
  intros [Hm Hh Ht Hf Ha Hl Hc] Hne. unfold run_timer.
  destruct (timers rt !! fst ht) as [t|] eqn:Hx; [| now constructor].
  assert (Hu : closure_uuid t <> uuid) by (apply (Hf _ _ Hx); congruence).
  unfold callback. constructor; cbn [ACTOR_DEBOUNCE timers flushes chat heap actors].
  - now rewrite lookup_delete_ne.
  - exact Hh.
  - now rewrite lookup_delete_ne.
  - intros h' t' H' Hn. cbn [timers] in H'. apply lookup_delete_Some in H' as [_ H'].
    now apply (Hf _ _ H').
  - exact Ha.
  - now rewrite own_other.
  - destruct Hc as (extra & Hc). rewrite Hc. eexists (extra ++ _). now rewrite <- app_assoc.
Qed.

Lemma pending_fold rt0 actor stashes address h due_at l : forall rt,
  Pending_flush rt0 rt actor stashes address h due_at ->
  (forall ht, In ht l -> fst ht <> h) ->
  Pending_flush rt0 (fold_left (run_timer g) l rt) actor stashes address h due_at.
Proof.
  induction l as [|ht l IH]; intros rt H Hl; [exact H |].
  cbn [fold_left]. apply IH.
  - apply pending_run; [exact H | apply Hl; now left].
  - intros ht' Hin. apply Hl. now right.
Qed.

Lemma settled_elapse rt0 rt mine segment ms :
  Settled rt0 rt mine segment -> Settled rt0 (elapse g ms rt) mine segment.
Proof.
  intros H. unfold elapse.
  destruct (settled_fold rt0 mine segment (due (now rt + ms) rt) rt H) as [Hm Hf Hl Hc].
  constructor; cbn [ACTOR_DEBOUNCE timers flushes chat]; assumption.
Qed.

Lemma pending_elapse rt0 rt actor stashes address h due_at ms :
  Pending_flush rt0 rt actor stashes address h due_at -> now rt + ms < due_at ->
  Pending_flush rt0 (elapse g ms rt) actor stashes address h due_at.
Proof.
  intros H Hlt. unfold elapse.
  destruct (pending_fold rt0 actor stashes address h due_at (due (now rt + ms) rt) rt H)
    as [Hm Hh Ht Hf Ha Hl Hc].
  - intros [h' t'] Hin Heq. cbn in Heq. subst h'.
    apply due_elements in Hin as [Hin Hd].
    rewrite (pending_timer _ _ _ _ _ _ _ H) in Hin. injection Hin as <-.
    cbn [deadline] in Hd. lia.
  - constructor; cbn [ACTOR_DEBOUNCE timers flushes chat heap actors]; assumption.
Qed.

Lemma settled_ingest rt0 rt d :
  Settled rt0 rt (own (flushes rt0)) [] -> actor_uuid (after d) = uuid ->
  exists address h,
    Pending_flush rt0 (ingest g rt d) (after d) [stash d] address h
      (now (ingest g rt d) + DEBOUNCE_MS).
Proof.
  intros H Hu. apply (settled_elapse _ _ _ _ (gap d)) in H.
  destruct H as [Hm Hf Hl Hc].
  set (rt1 := elapse g (gap d) rt) in *.
  exists (next_address rt1), (next_handle rt1).
  unfold ingest. fold rt1. unfold updateActor, commit.
  rewrite jsstring_eqb_refl. cbn [negb].
  cbn [ACTOR_DEBOUNCE heap timers next_address next_handle now]. rewrite Hu, Hm.
  cbn [timer fresh_pending].
  constructor; cbn [ACTOR_DEBOUNCE heap timers actors chat flushes now].
  - apply lookup_insert_eq.
  - rewrite lookup_insert_eq. reflexivity.
  - apply lookup_insert_eq.
  - intros h' t' H' Hn. cbn [timers] in H'.
    rewrite lookup_insert_ne in H' by congruence. apply (Hf _ _ H'). discriminate.
  - rewrite <- Hu. apply lookup_insert_eq.
  - exact Hl.
  - destruct Hc as (before & after' & Hc). exists (before ++ after'). exact Hc.
Qed.

Lemma pending_ingest rt0 rt actor stashes address h d :
  Pending_flush rt0 rt actor stashes address h (now rt + DEBOUNCE_MS) ->
  in_quiet_period d ->
  exists h',
    Pending_flush rt0 (ingest g rt d) (after d) (stashes ++ [stash d]) address h'
      (now (ingest g rt d) + DEBOUNCE_MS).
Proof.
  intros H [Hu Hg]. apply (pending_elapse _ _ _ _ _ _ _ (gap d)) in H; [| lia].
  destruct H as [Hm Hh Ht Hf Ha Hl Hc].
  set (rt1 := elapse g (gap d) rt) in *.
  exists (next_handle rt1).
  unfold ingest. fold rt1. unfold updateActor, commit.
  rewrite jsstring_eqb_refl. cbn [negb].
  cbn [ACTOR_DEBOUNCE heap timers next_address next_handle now]. rewrite Hu, Hm, Hh.
  cbn [default from_option id timer set_timer].
  constructor; cbn [ACTOR_DEBOUNCE heap timers actors chat flushes now].
  - apply lookup_insert_eq.
  - rewrite lookup_insert_eq, bucket_of_snoc. reflexivity.
  - apply lookup_insert_eq.
  - intros h' t' H' Hn. cbn [timers] in H'.
    rewrite lookup_insert_ne in H' by congruence.
    apply lookup_delete_Some in H' as [Hd H']. apply (Hf _ _ H'). congruence.
  - rewrite <- Hu. apply lookup_insert_eq.
  - exact Hl.
  - exact Hc.
Qed.

Lemma pending_burst rt0 ds : forall rt actor stashes address h,
  Pending_flush rt0 rt actor stashes address h (now rt + DEBOUNCE_MS) ->
  Forall (in_quiet_period) ds ->
  exists h',
    Pending_flush rt0 (burst g ds rt) (List.last (List.map after ds) actor)
      (stashes ++ List.map stash ds) address h' (now (burst g ds rt) + DEBOUNCE_MS).
Proof.
  induction ds as [|d ds IH]; intros rt actor stashes address h Ho Hq.
  - exists h. cbn. now rewrite app_nil_r.
  - apply Forall_cons in Hq as [Hd Hq].
    destruct (pending_ingest _ _ _ _ _ _ d Ho Hd) as [h1 Ho1].
    destruct (IH _ _ _ _ _ Ho1 Hq) as [h' Ho'].
    exists h'. cbn [burst fold_left List.map].
    rewrite <- app_assoc in Ho'. cbn [app] in Ho'.
    replace (List.last (after d :: List.map after ds) actor)
      with (List.last (List.map after ds) (after d)); [exact Ho' |].
    destruct (List.map after ds) as [|a l]; [reflexivity |].
    change (List.last (after d :: a :: l) actor) with (List.last (a :: l) actor).
    apply last_default.
Qed.

Lemma pending_expires rt0 rt actor stashes address h :
  Pending_flush rt0 rt actor stashes address h (now rt + DEBOUNCE_MS) ->
  let bucket := set_timer (Some h) (bucket_of stashes) in
  Settled rt0 (elapse g DEBOUNCE_MS rt)
    (own (flushes rt0) ++ [(uuid, bucket)]) (processActorUpdate g actor bucket).
Proof.
  intros H bucket.
  set (mine := {| deadline := now rt + DEBOUNCE_MS; closure_actor := uuid;
                  closure_uuid := uuid; closure_pending := address |}).
  assert (Hin : In (h, mine) (due (now rt + DEBOUNCE_MS) rt)).
  { apply due_complete; [apply (pending_timer _ _ _ _ _ _ _ H) | cbn [deadline mine]; lia]. }
  pose proof (due_NoDup (now rt + DEBOUNCE_MS) rt) as Hnd.
  assert (Hother : forall ht, In ht (due (now rt + DEBOUNCE_MS) rt) -> ht <> (h, mine) ->
                              fst ht <> h).
  { intros [h' t'] Hi Hne Heq. cbn in Heq. subst h'.
    apply due_elements in Hi as [Hi _].
    rewrite (pending_timer _ _ _ _ _ _ _ H) in Hi. injection Hi as <-. now apply Hne. }
  apply in_split in Hin as (l1 & l2 & Hsplit).
  rewrite Hsplit in Hnd, Hother.
  apply List.NoDup_remove_2 in Hnd.
  assert (H1 : forall ht, In ht l1 -> fst ht <> h).
  { intros ht Hi. apply Hother.
    - apply in_or_app. now left.
    - intros ->. apply Hnd. apply in_or_app. now left. }
  unfold elapse. rewrite Hsplit, fold_left_app. cbn [fold_left].
  pose proof (pending_fold rt0 actor stashes address h _ l1 rt H H1)
    as [Hm Hh Ht Hf Ha Hl Hc].
  set (rt1 := fold_left (run_timer g) l1 rt) in *.
  assert (S1 : Settled rt0 (run_timer g rt1 (h, mine))
                 (own (flushes rt0) ++ [(uuid, bucket)])
                 (processActorUpdate g actor bucket)).
  { unfold run_timer. cbn [fst]. rewrite Ht. unfold callback.
    cbn [ACTOR_DEBOUNCE heap timers actors chat flushes closure_pending closure_actor
         closure_uuid]. rewrite Hh, Ha. cbn [default from_option id].
    constructor; cbn [ACTOR_DEBOUNCE timers flushes chat].
    - apply lookup_delete_eq.
    - intros h' t' H' _. cbn [timers] in H'. apply lookup_delete_Some in H' as [Hd H'].
      apply (Hf _ _ H'). congruence.
    - now rewrite own_mine, Hl.
    - destruct Hc as (extra & Hc). rewrite Hc. exists extra, [].
      now rewrite app_nil_r, <- app_assoc. }
  destruct (settled_fold rt0 _ _ l2 _ S1) as [Sm Sf Sl Sc].
  constructor; cbn [ACTOR_DEBOUNCE timers flushes chat]; assumption.
Qed.
End Coalescer.

(** Field by field, [bucket] holds the before-value of the first insertion. *)
Definition holds_first_insertions (bucket : Monitor.Pending)
    (stashes : list Monitor.Payload.t) : Prop :=
  Monitor.oldHP bucket = first_some (List.map Monitor.Payload.oldHP stashes) /\
  Monitor.oldTHP bucket = first_some (List.map Monitor.Payload.oldTHP stashes) /\
  Monitor.oldTHPMax bucket = first_some (List.map Monitor.Payload.oldTHPMax stashes) /\
  Monitor.oldInspiration bucket
    = first_some (List.map Monitor.Payload.oldInspiration stashes) /\
  Monitor.deathSavesOld bucket = first_some (List.map Monitor.Payload.deathSaves stashes) /\
  (forall k, Monitor.currencyOld bucket !! k = first_some (List.map (coin_offer k) stashes)) /\
  (forall lvl, Monitor.spellSlotsOld bucket !! lvl
     = first_some (List.map (slot_offer lvl) stashes)).

(** A further insertion leaves every before-value that is set as it is. *)
Definition never_overwritten (bucket : Monitor.Pending) : Prop :=
  forall s : Monitor.Payload.t,
    let b := Monitor.merge bucket s in
    (forall v, Monitor.oldHP bucket = Some v -> Monitor.oldHP b = Some v) /\
    (forall v, Monitor.oldTHP bucket = Some v -> Monitor.oldTHP b = Some v) /\
    (forall v, Monitor.oldTHPMax bucket = Some v -> Monitor.oldTHPMax b = Some v) /\
    (forall v, Monitor.oldInspiration bucket = Some v -> Monitor.oldInspiration b = Some v) /\
    (forall v, Monitor.deathSavesOld bucket = Some v -> Monitor.deathSavesOld b = Some v) /\
    (forall k v, Monitor.currencyOld bucket !! k = Some v ->
                 Monitor.currencyOld b !! k = Some v) /\
    (forall lvl v, Monitor.spellSlotsOld bucket !! lvl = Some v ->
                   Monitor.spellSlotsOld b !! lvl = Some v).

Lemma merge_never_overwrites (bucket : Monitor.Pending) : never_overwritten bucket.
Proof.
  intros s. destruct (merged_fields [s] bucket) as (H1 & H2 & H3 & H4 & H5 & H6 & H7 & _).
  cbn [fold_left] in *. cbv zeta.
  repeat split.
  - intros v E. now rewrite H1, E.
  - intros v E. now rewrite H2, E.
  - intros v E. now rewrite H3, E.
  - intros v E. now rewrite H4, E.
  - intros v E. now rewrite H5, E.
  - intros k v E. now rewrite H6, E.
  - intros lvl v E. now rewrite H7, E.
Qed.

Lemma bucket_holds_first (stashes : list Monitor.Payload.t) (h : option positive) :
  holds_first_insertions (Monitor.set_timer h (bucket_of stashes)) stashes.
Proof.
  destruct (merged_fields stashes Monitor.fresh_pending)
    as (H1 & H2 & H3 & H4 & H5 & H6 & H7 & _).
  unfold holds_first_insertions, bucket_of.
  cbn [Monitor.set_timer Monitor.oldHP Monitor.oldTHP Monitor.oldTHPMax
       Monitor.oldInspiration Monitor.deathSavesOld Monitor.currencyOld
       Monitor.spellSlotsOld].
  repeat split; [exact H1 | exact H2 | exact H3 | exact H4 | exact H5 | |].
  - intros k. rewrite H6. cbn [Monitor.fresh_pending Monitor.currencyOld].
    now rewrite lookup_empty.
  - intros lvl. rewrite H7. cbn [Monitor.fresh_pending Monitor.spellSlotsOld].
    now rewrite lookup_empty.
Qed.

(** C1.  Take any burst of delta events for one record, each within the
    quiet period of the one before, starting with no bucket open and no
    flush of the record pending; other records may have theirs.  While the
    bucket is open nothing of the record is flushed, and the bucket holds,
    field by field, the before-value of the first insertion, which no later
    insertion overwrites.  When the timer expires, [processActorUpdate] runs
    exactly once for the record, on that bucket and on the record as it is
    then (so with the latest after-value), and its messages are in the chat;
    afterwards the bucket is gone and no timer of the record is left. *)
Theorem burst_flushes_once (g : Game) (rt : Monitor.Runtime) (uuid : jsstring)
    (d : Monitor.Delta) (ds : list Monitor.Delta) :
  Monitor.ACTOR_DEBOUNCE rt !! uuid = None ->
  foreign uuid rt None ->
  Forall (in_quiet_period uuid) (d :: ds) ->
  let stashes := List.map Monitor.stash (d :: ds) in
  let latest := List.last (List.map Monitor.after ds) (Monitor.after d) in
  let open := Monitor.burst g (d :: ds) rt in
  let closed := Monitor.elapse g Monitor.DEBOUNCE_MS open in
  exists address bucket,
    Monitor.ACTOR_DEBOUNCE open !! uuid = Some address /\
    Monitor.heap open !! address = Some bucket /\
    own uuid (Monitor.flushes open) = own uuid (Monitor.flushes rt) /\
    holds_first_insertions bucket stashes /\
    never_overwritten bucket /\
    own uuid (Monitor.flushes closed) = own uuid (Monitor.flushes rt) ++ [(uuid, bucket)] /\
    (exists before after,
       Monitor.chat closed =
         Monitor.chat rt ++ before ++ Monitor.processActorUpdate g latest bucket ++ after) /\
    Monitor.ACTOR_DEBOUNCE closed !! uuid = None /\
    foreign uuid closed None.
Proof.
  intros Hm Hf Hq. cbv zeta.
  apply Forall_cons in Hq as [[Hu _] Hq].
  assert (S0 : Settled uuid rt rt (own uuid (Monitor.flushes rt)) []).
  { constructor; try assumption; [reflexivity |].
    exists [], []. now rewrite !app_nil_r. }
  destruct (settled_ingest g uuid rt rt d S0 Hu) as (address & h & Ho).
  destruct (pending_burst g uuid rt ds _ _ _ _ _ Ho Hq) as (h' & Ho').
  change (Monitor.burst g (d :: ds) rt) with (Monitor.burst g ds (Monitor.ingest g rt d)).
  change ([Monitor.stash d] ++ List.map Monitor.stash ds)
    with (List.map Monitor.stash (d :: ds)) in Ho'.
  pose proof (pending_expires g uuid _ _ _ _ _ _ Ho') as [Sm Sf Sl Sc].
  exists address, (Monitor.set_timer (Some h') (bucket_of (List.map Monitor.stash (d :: ds)))).
  destruct Ho' as [Om Oh Ot Of Oa Ol Oc].
  refine (conj Om (conj Oh (conj Ol (conj _ (conj _ (conj Sl (conj Sc (conj Sm Sf)))))))).
  - apply bucket_holds_first.
  - apply merge_never_overwrites.
Qed.

(** * Worked examples *)

Section Examples.
Import Sample.

(** ** Truncation *)

(** Thirty grinning faces are thirty characters and sixty units: the first
    twenty-five faces remain, fifty units, then the marker. *)
Example clipName_faces :
  let faces := List.concat (repeat (js "😀") 30) in
  length faces = 60%nat /\
  Monitor.clipName (VString faces) = List.concat (repeat (js "😀") 25) ++ js "…" /\
  Audience.clipName (VString faces) = faces.
Proof. vm_compute. repeat split. Qed.

Example clipName_short :
  Monitor.clipName (vstr "Hero") = js "Hero" /\
  MultiSystem.clipName (vstr "An exceedingly long creature name")
    = js "An exceedingly long creat[...]".
Proof. vm_compute. split; reflexivity. Qed.

(** ** Recipients *)

(** A world without a game-master user: the list is empty, with and
    without the fallback. *)
Lemma buildRecipients_empty_without_gm :
  MultiSystem.audience no_gm (ghoul 3) = [] /\
  MultiSystem.buildRecipients no_gm (ghoul 3) = [] /\
  Monitor.buildRecipients no_gm (ghoul 3) = [].
Proof. vm_compute. repeat split. Qed.

Lemma buildRecipients_with_gm :
  List.filter isGM (users dnd5e) <> [] /\
  MultiSystem.buildRecipients dnd5e (ghoul 3) <> [] /\
  Monitor.buildRecipients dnd5e (ghoul 3) <> [].
Proof.
  assert (H : List.filter isGM (users dnd5e) <> []) by (vm_compute; discriminate).
  split; [exact H |].
  exact (proj1 (buildRecipients_falls_back_to_gm dnd5e (ghoul 3)) H).
Defined.

Example buildRecipients_owner :
  Monitor.buildRecipients dnd5e (hero 10) = [js "gm1"; js "alice"] /\
  Monitor.buildRecipients dnd5e (ghoul 3) = [js "gm1"].
Proof. vm_compute. split; reflexivity. Qed.

(** ** Path probing *)

Lemma detectSystemPaths_stranger :
  let table := Monitor.detectSystemPaths homebrew (Some stranger) in
  let sample := sample_doc (Some stranger) in
  first_match sample Monitor.candidatesHP (hpPath table) /\
  first_match sample Monitor.candidatesTemp (tempPath table) /\
  first_match sample Monitor.candidatesTempMax (tempMaxPath table).
Proof.
  apply (detectSystemPaths_probes_in_order homebrew (Some stranger));
    vm_compute; discriminate.
Defined.

Example detectSystemPaths_stranger_table :
  Monitor.detectSystemPaths homebrew (Some stranger) =
    {| hpPath := Some (js "system.hp.value"); tempPath := None; tempMaxPath := None;
       damageSystem := false |}.
Proof. vm_compute. reflexivity. Qed.

(** ** Sign and magnitude *)

Example change_text_gain : spec_change_text 10 15 = js "10 + 5 → 15".
Proof. vm_compute. reflexivity. Qed.

Example change_text_loss : spec_change_text 5 2 = js "5 - 3 → 2".
Proof. vm_compute. reflexivity. Qed.

Lemma change_line_ten_to_fifteen :
  15 <> 10 /\
  Reporter.formatDelta (Fin (15 - 10)) = js "+ 5" /\
  (sign_of (15 - 10) = js "+" <-> 0 < 15 - 10).
Proof.
  assert (H : 15 <> 10) by lia.
  destruct (change_line_sign_and_magnitude 10 15 H) as (Hp & _ & _ & Hf & _).
  split; [exact H |]. split; [exact Hf | exact Hp].
Defined.

(** A caster with [slots] level-3 spell slots and [successes] death-save
    successes. *)
Definition caster (slots successes : Z) : Actor :=
  {| actor_uuid := js "Actor.mage";
     actor_props :=
       [(js "name", vstr "Mage"); (js "type", vstr "character");
        (js "system",
          obj [("attributes", obj [("death", obj [("success", vnum successes);
                                                  ("failure", vnum 0)])]);
               ("spells", obj [("spell3", obj [("value", vnum slots)])])])];
     actor_isToken := false;
     actor_token := None;
     getActiveTokens := [];
     testUserPermission := Some (fun u => user_id u =?s js "alice") |}.

(** The update that spends a slot and records two successes. *)
Definition slot_update : JsVal :=
  obj [("system",
         obj [("attributes", obj [("death", obj [("success", vnum 2)])]);
              ("spells", obj [("spell3", obj [("value", vnum 2)])])])].

(** One slot of three is spent and two death saves succeed: both changes are
    posted, the deltas are -1 and 2, and neither line has a sign; the slot
    line has no magnitude either. *)
Lemma slot_and_save_lines_show_no_sign :
  exists stash,
    Monitor.preUpdateActor dnd5e (caster 3 0) slot_update = Some stash /\
    Monitor.Payload.deathSaves stash = Some (0, 0) /\
    List.map Monitor.oldValue (default [] (Monitor.Payload.spellSlots stash)) = [3] /\
    Monitor.processActorUpdate dnd5e (caster 2 2) (Monitor.merge Monitor.fresh_pending stash)
      = [line_of dnd5e (caster 2 2) "fa-solid fa-heart-pulse"
           (js "gained 2 Death Save Successes (2/3)") "tiny-monitor-gain" "deathsave";
         line_of dnd5e (caster 2 2) "fa-solid fa-hat-wizard"
           (js "expended level 3 slot") "tiny-monitor-spellslot-expend" "spellslot"].
Proof.
  eexists. split; [vm_compute; reflexivity |].
  vm_compute. repeat split.
Qed.

(** ** Damage systems *)

Definition damage_stash (old : Z) : Tracker.Payload :=
  {| Tracker.oldHP := Some old; Tracker.oldTHP := None; Tracker.oldTHPMax := None;
     Tracker.oldInspiration := None; Tracker.currency := None; Tracker.deathSaves := None |}.

Lemma damage_taken_is_a_loss :
  damageSystem (Tracker.resolvePaths demonlord (Some (ghoul 5))) = true /\
  hp_style (Tracker.results demonlord (ghoul 5) (damage_stash 2)) = Some "hp-loss" /\
  hp_style (Tracker.results demonlord (ghoul 1) (damage_stash 2)) = Some "hp-gain".
Proof.
  split; [reflexivity |]. split.
  - destruct (damage_system_inverts_style demonlord (ghoul 5) (damage_stash 2) 2
                eq_refl eq_refl) as [H _].
    destruct (H eq_refl) as [Hup _]. apply Hup. vm_compute. reflexivity.
  - destruct (damage_system_inverts_style demonlord (ghoul 1) (damage_stash 2) 2
                eq_refl eq_refl) as [H _].
    destruct (H eq_refl) as [_ Hdown]. apply Hdown. vm_compute. reflexivity.
Defined.

(** ** Item quantities *)

(** With the simple output on, 5 to 3 is posted as ["Potion: - 2"]: neither
    the old value nor the arrow is in the message. *)
Lemma simple_output_hides_the_values :
  let posted := Monitor.processItemUpdate dnd5e_simple (potion 3) (quantity_data 5) in
  List.map content posted =
    [div "tiny-monitor-line tm-multiline"
       (Monitor.buildMonitorLine (hero 10) (icon "fa-solid fa-backpack") (js "Potion: - 2"))] /\
  forallb (fun m => negb (occurs (show_Z 5) (content m))
                    && negb (occurs (js "→") (content m))) posted = true.
Proof. vm_compute. split; reflexivity. Qed.

(** The revision without debouncing shows the arithmetic for 0 to 1 too. *)
Example Tracker_zero_to_one :
  List.map content
    (snd (Tracker.updateItem dnd5e (potion 1) (VObject []) (js "gm1")
            {[ js "Item.potion" := {| Tracker.oldQty := Some 0; Tracker.oldName := None |} ]}))
  = [div "hp-delta-line hp-multiline" (js "Hero's Item: Potion — 0 + 1 → 1")].
Proof. vm_compute. reflexivity. Qed.

Lemma quantity_five_to_three :
  item_parent (potion 3) = Some (hero 10) /\
  List.map content (Monitor.processItemUpdate dnd5e (potion 3) (quantity_data 5)) =
    [div "tiny-monitor-line tm-multiline"
       (Monitor.buildMonitorLine (hero 10) (icon "fa-solid fa-backpack")
          (js "Potion: 5 - 2 → 3"))].
Proof.
  split; [reflexivity |].
  destruct (quantity_change_phrasing dnd5e (potion 3) (hero 10) 5) as [[c E] _].
  - reflexivity.
  - vm_compute. discriminate.
  - rewrite E. vm_compute. reflexivity.
Defined.

Example quantity_boundaries :
  List.map content (Monitor.processItemUpdate dnd5e (potion 1) (quantity_data 0)) =
    [div "tiny-monitor-line tm-multiline"
       (Monitor.buildMonitorLine (hero 10) (icon "fa-solid fa-backpack")
          (js "added Potion"))] /\
  List.map content (Monitor.processItemUpdate dnd5e (potion 0) (quantity_data 1)) =
    [div "tiny-monitor-line tm-multiline"
       (Monitor.buildMonitorLine (hero 10) (icon "fa-solid fa-backpack")
          (js "deleted Potion"))].
Proof. vm_compute. split; reflexivity. Qed.

(** ** Deleting items *)

Example delete_zero_quantity :
  snd (Monitor.deleteItem dnd5e (potion 0) (js "gm1")
         (Monitor.preDeleteItem dnd5e (potion 0) ∅)) = [].
Proof. vm_compute. reflexivity. Qed.

Example delete_without_quantity :
  List.map content
    (snd (Monitor.deleteItem dnd5e amulet (js "gm1") (Monitor.preDeleteItem dnd5e amulet ∅)))
  = [div "tiny-monitor-line tm-multiline"
       (Monitor.buildMonitorLine (hero 10) (icon "fa-solid fa-backpack")
          (js "deleted Amulet"))].
Proof. vm_compute. reflexivity. Qed.

Example delete_four :
  List.map content
    (snd (Monitor.deleteItem dnd5e (potion 4) (js "gm1")
            (Monitor.preDeleteItem dnd5e (potion 4) ∅)))
  = [div "tiny-monitor-line tm-multiline"
       (Monitor.buildMonitorLine (hero 10) (icon "fa-solid fa-backpack")
          (js "Potion: 4 - 4 → 0"))].
Proof. vm_compute. reflexivity. Qed.
End Examples.

Section CoalescerExamples.
Import Sample.
Import Monitor.

Definition hp_stash (old : Z) : Payload.t :=
  {| Payload.oldHP := Some old; Payload.oldTHP := None; Payload.oldTHPMax := None;
     Payload.oldInspiration := None; Payload.currency := None;
     Payload.deathSaves := None; Payload.spellSlots := None |}.

(** The stash is what [preUpdateActor] computes from the record and the update. *)
Example preUpdateActor_stash :
  preUpdateActor dnd5e (hero 10) (hp_update 12) = Some (hp_stash 10).
Proof. vm_compute. reflexivity. Qed.

(** Three rapid updates, 10 to 12 to 9 to 14, a tenth of a second apart. *)
Definition rapid : list Delta :=
  [ {| gap := 0; after := hero 12; stash := hp_stash 10 |};
    {| gap := 100; after := hero 9; stash := hp_stash 12 |};
    {| gap := 100; after := hero 14; stash := hp_stash 9 |} ].

Lemma rapid_updates_flush_once :
  let closed := elapse dnd5e DEBOUNCE_MS (burst dnd5e rapid boot) in
  List.map (fun f => (fst f, oldHP (snd f))) (own (js "Actor.abc") (flushes closed))
    = [(js "Actor.abc", Some 10)] /\
  List.map content (chat closed)
    = [div "tiny-monitor-line"
         (buildMonitorLine (hero 14) (icon "fa-solid fa-heart") (js "HP: 10 + 4 → 14"))] /\
  ACTOR_DEBOUNCE closed !! js "Actor.abc" = None /\
  foreign (js "Actor.abc") closed None.
Proof.
  destruct (burst_flushes_once dnd5e boot (js "Actor.abc")
              {| gap := 0; after := hero 12; stash := hp_stash 10 |}
              [ {| gap := 100; after := hero 9; stash := hp_stash 12 |};
                {| gap := 100; after := hero 14; stash := hp_stash 9 |} ])
    as (address & bucket & _ & _ & _ & Hfirst & _ & Hf & _ & Hd & Ht).
  - reflexivity.
  - intros h t Hh. discriminate Hh.
  - repeat constructor; vm_compute; congruence.
  - fold rapid in Hf, Hd, Ht. cbv zeta.
    destruct Hfirst as (Hhp & _).
    split; [| split; [| split]].
    + rewrite Hf. cbn [List.map flushes boot own List.filter app fst snd].
      rewrite Hhp. reflexivity.
    + vm_compute. reflexivity.
    + exact Hd.
    + exact Ht.
Defined.

(** The same burst while another record's flush is pending: the start is
    within the theorem's hypotheses, and each record is flushed once, with
    its own first before-value. *)
Definition sidekick (hp : Z) : Actor :=
  {| actor_uuid := js "Actor.def";
     actor_props := actor_props (hero hp);
     actor_isToken := false;
     actor_token := None;
     getActiveTokens := [];
     testUserPermission := testUserPermission (hero hp) |}.

Example rapid_updates_beside_another_record :
  let busy := ingest dnd5e boot {| gap := 0; after := sidekick 5; stash := hp_stash 8 |} in
  let closed := elapse dnd5e DEBOUNCE_MS (burst dnd5e rapid busy) in
  ACTOR_DEBOUNCE busy !! js "Actor.abc" = None /\
  foreign (js "Actor.abc") busy None /\
  List.map (fun f => (fst f, oldHP (snd f))) (flushes closed)
    = [(js "Actor.def", Some 8); (js "Actor.abc", Some 10)] /\
  List.map content (chat closed)
    = [div "tiny-monitor-line"
         (buildMonitorLine (sidekick 5) (icon "fa-solid fa-heart") (js "HP: 8 - 3 → 5"));
       div "tiny-monitor-line"
         (buildMonitorLine (hero 14) (icon "fa-solid fa-heart") (js "HP: 10 + 4 → 14"))].
Proof.
  cbv zeta. split; [reflexivity | split; [| split; vm_compute; reflexivity]].
  intros h t Hh _.
  assert (E : closure_uuid <$> timers
                (ingest dnd5e boot {| gap := 0; after := sidekick 5; stash := hp_stash 8 |})
              = {[ 1%positive := js "Actor.def" ]})
    by (vm_compute; reflexivity).
  apply (f_equal (fun m => m !! h)) in E. rewrite lookup_fmap, Hh in E.
  symmetry in E. apply lookup_singleton_Some in E as [_ E]. cbn in E.
  rewrite <- E. vm_compute. congruence.
Qed.

(** The same through both hooks, each update committed by the host. *)
Example rapid_updates_through_the_hooks :
  let r1 := update_cycle dnd5e (hero 10) (hero 12) (hp_update 12) (commit (hero 10) boot) in
  let r2 := update_cycle dnd5e (hero 12) (hero 9) (hp_update 9) (elapse dnd5e 100 r1) in
  let r3 := update_cycle dnd5e (hero 9) (hero 14) (hp_update 14) (elapse dnd5e 100 r2) in
  chat r3 = [] /\
  List.map content (chat (elapse dnd5e 350 r3))
    = [div "tiny-monitor-line"
         (buildMonitorLine (hero 14) (icon "fa-solid fa-heart") (js "HP: 10 + 4 → 14"))] /\
  chat (elapse dnd5e 350 (elapse dnd5e 350 r3)) = chat (elapse dnd5e 350 r3).
Proof. vm_compute. repeat split. Qed.

(** A burst that returns to the first value flushes once and posts nothing. *)
Example back_to_the_first_value :
  let r1 := update_cycle dnd5e (hero 10) (hero 12) (hp_update 12) (commit (hero 10) boot) in
  let r2 := update_cycle dnd5e (hero 12) (hero 10) (hp_update 10) (elapse dnd5e 100 r1) in
  let closed := elapse dnd5e 350 r2 in
  length (flushes closed) = 1%nat /\ chat closed = [].
Proof. vm_compute. split; reflexivity. Qed.

(** An update that writes the value the record already has: a stash is
    taken, and the flush posts nothing. *)
Example write_same_value :
  preUpdateActor dnd5e (hero 10) (hp_update 10) = Some (hp_stash 10) /\
  chat (elapse dnd5e 350
          (update_cycle dnd5e (hero 10) (hero 10) (hp_update 10) (commit (hero 10) boot)))
    = [].
Proof. vm_compute. split; reflexivity. Qed.

(** A value that is missing or not numeric counts as 0. *)
Example effective_zero :
  readNumber (obj [("system", obj [("hp", obj [("value", vstr "n/a")])])])
             (Some (js "system.hp.value")) = 0 /\
  readNumber (obj [("system", obj [])]) (Some (js "system.hp.value")) = 0 /\
  readNumber (obj [("system", obj [("hp", obj [("value", vstr " 12 ")])])])
             (Some (js "system.hp.value")) = 12.
Proof. vm_compute. repeat split. Qed.
End CoalescerExamples.

(** ** The hook boundary *)

Section Answering.
Variable g : Game.

Lemma call_answers {A} (c : Boundary.HostCall) (a : A) : Boundary.call (Boundary.answering g) c a = Boundary.Returns a.
Proof. reflexivity. Qed.

Lemma getWorldBool_answers key def :
  Boundary.getWorldBool (Boundary.answering g) key def = getWorldBool g key def.
Proof.
  unfold Boundary.getWorldBool, getWorldBool, Boundary.settings_get. cbn [Boundary.game Boundary.answering].
  now destruct (settings g (js key)).
Qed.

Lemma getWorldPath_answers key :
  Boundary.getWorldPath (Boundary.answering g) key = getWorldPath g key.
Proof.
  unfold Boundary.getWorldPath, getWorldPath, Boundary.settings_get. cbn [Boundary.game Boundary.answering].
  now destruct (settings g (js key)) as [[]|].
Qed.

Lemma readNumber_answers doc path :
  Boundary.readNumber (Boundary.answering g) doc path = Boundary.Returns (readNumber doc path).
Proof.
  unfold Boundary.readNumber, readNumber.
  destruct (negb (truthy_path path)); [reflexivity |]. now destruct path.
Qed.

Lemma readRaw_answers doc path :
  Boundary.readRaw (Boundary.answering g) doc path = Boundary.Returns (readRaw doc path).
Proof.
  unfold Boundary.readRaw, readRaw.
  destruct (negb (truthy_path path)); [reflexivity |]. now destruct path.
Qed.

Lemma willUpdatePath_answers update path :
  Boundary.willUpdatePath (Boundary.answering g) update path = Boundary.Returns (willUpdatePath update path).
Proof.
  unfold Boundary.willUpdatePath, willUpdatePath.
  destruct path as [p|]; [| reflexivity]. now destruct (truthy_path (Some p)).
Qed.

Lemma findE_answers {A} (f : A -> Boundary.Outcome bool) (fp : A -> bool) l :
  (forall x, f x = Boundary.Returns (fp x)) -> Boundary.findE f l = Boundary.Returns (List.find fp l).
Proof.
  intros H. induction l as [|x r IH]; [reflexivity |].
  cbn [Boundary.findE List.find]. rewrite H. cbn [Boundary.bind]. now destruct (fp x).
Qed.

Lemma filterE_answers {A} (f : A -> Boundary.Outcome bool) (fp : A -> bool) l :
  (forall x, f x = Boundary.Returns (fp x)) -> Boundary.filterE f l = Boundary.Returns (List.filter fp l).
Proof.
  intros H. induction l as [|x r IH]; [reflexivity |].
  cbn [Boundary.filterE List.filter]. rewrite H, IH. cbn [Boundary.bind]. now destruct (fp x).
Qed.

Lemma someE_answers {A} (f : A -> Boundary.Outcome bool) (fp : A -> bool) l :
  (forall x, f x = Boundary.Returns (fp x)) -> Boundary.someE f l = Boundary.Returns (existsb fp l).
Proof.
  intros H. induction l as [|x r IH]; [reflexivity |].
  cbn [Boundary.someE existsb]. rewrite H. cbn [Boundary.bind]. now destruct (fp x).
Qed.

Lemma mapE_answers {A B} (f : A -> Boundary.Outcome B) (fp : A -> B) l :
  (forall x, f x = Boundary.Returns (fp x)) -> Boundary.mapE f l = Boundary.Returns (List.map fp l).
Proof.
  intros H. induction l as [|x r IH]; [reflexivity |].
  cbn [Boundary.mapE List.map]. now rewrite H, IH.
Qed.

Lemma find_or_null_answers sample candidates :
  Boundary.find_or_null (Boundary.answering g) sample candidates
    = Boundary.Returns (find_or_null sample candidates).
Proof.
  unfold Boundary.find_or_null, find_or_null.
  rewrite (findE_answers _ (probes sample)); reflexivity.
Qed.

Lemma Guarded_resolvePaths_answers actor :
  Boundary.Guarded.resolvePaths (Boundary.answering g) actor = Boundary.Returns (MultiSystem.resolvePaths g actor).
Proof.
  unfold Boundary.Guarded.resolvePaths, MultiSystem.resolvePaths.
  rewrite getWorldBool_answers, !getWorldPath_answers.
  destruct (getWorldBool g "autoDetectPaths" true); [| reflexivity].
  unfold Boundary.Guarded.detectSystemPaths, MultiSystem.detectSystemPaths. cbn [Boundary.game Boundary.answering].
  repeat match goal with |- context [if ?b then _ else _] => destruct b end;
    try reflexivity.
  now rewrite !find_or_null_answers.
Qed.

Lemma Guarded_getDisplayName_answers actor :
  Boundary.Guarded.getDisplayName (Boundary.answering g) actor = Boundary.Returns (MultiSystem.getDisplayName actor).
Proof.
  unfold Boundary.Guarded.getDisplayName, MultiSystem.getDisplayName, tokenName.
  destruct (actor_isToken actor && bool_decide (is_Some (actor_token actor)));
    reflexivity.
Qed.

Lemma Guarded_buildRecipients_answers actor :
  Boundary.Guarded.buildRecipients (Boundary.answering g) actor = Boundary.Returns (MultiSystem.buildRecipients g actor).
Proof.
  unfold Boundary.Guarded.buildRecipients, MultiSystem.buildRecipients, MultiSystem.audience, owners_of.
  cbn [Boundary.game Boundary.answering].
  destruct (testUserPermission actor) as [test|].
  - rewrite (filterE_answers _ test); reflexivity.
  - reflexivity.
Qed.

(** On a host that answers, the guarded hooks compute what the bodies of
    [MultiSystem] compute. *)
Lemma Guarded_stashed_answers actor update options :
  Boundary.Guarded.stashed (Boundary.answering g) actor update options
    = Boundary.Returns (MultiSystem.preUpdateActor g actor update options).
Proof.
  unfold Boundary.Guarded.stashed, MultiSystem.preUpdateActor.
  rewrite Guarded_resolvePaths_answers. cbn [Boundary.bind].
  rewrite !willUpdatePath_answers. cbn [Boundary.bind Boundary.game Boundary.answering].
  rewrite !getWorldBool_answers.
  destruct (truthy_path _); rewrite ?willUpdatePath_answers; cbn [Boundary.bind];
    (destruct (negb _ && negb _ && negb _ && negb _); [reflexivity |]);
    rewrite !readNumber_answers; cbn [Boundary.bind];
    destruct ((system_id g =?s js "dnd5e") && getWorldBool g "trackDnd5eInspiration" false);
    rewrite ?readRaw_answers; reflexivity.
Qed.

Lemma Guarded_plan_answers actor payload :
  Boundary.Guarded.plan (Boundary.answering g) actor payload
    = Boundary.Returns (List.map (MultiSystem.create (MultiSystem.buildRecipients g actor))
                        (MultiSystem.results g actor payload)).
Proof.
  unfold Boundary.Guarded.plan, MultiSystem.results.
  rewrite Guarded_resolvePaths_answers, Guarded_getDisplayName_answers,
    Guarded_buildRecipients_answers. cbn [Boundary.bind Boundary.game Boundary.answering].
  rewrite !getWorldBool_answers.
  destruct (MultiSystem.oldHP payload), (MultiSystem.oldTHP payload),
    (MultiSystem.oldTHPMax payload), (MultiSystem.oldInspiration payload);
    repeat match goal with
           | |- context [if truthy_path ?p then _ else _] => destruct (truthy_path p)
           | |- context [if ?a && ?b then _ else _] => destruct (a && b)
           end;
    rewrite ?readNumber_answers, ?readRaw_answers; reflexivity.
Qed.
End Answering.

Section AnsweringUnguarded.
Variable g : Game.

Lemma Unguarded_resolvePaths_answers actor :
  Boundary.Unguarded.resolvePaths (Boundary.answering g) actor
    = Boundary.Returns (Monitor.resolvePaths g actor).
Proof.
  unfold Boundary.Unguarded.resolvePaths, Monitor.resolvePaths.
  rewrite getWorldBool_answers, !getWorldPath_answers.
  destruct (getWorldBool g "autoDetectPaths" true); [| reflexivity].
  unfold Boundary.Unguarded.detectSystemPaths, Monitor.detectSystemPaths.
  cbn [Boundary.game Boundary.answering].
  repeat match goal with |- context [if ?b then _ else _] => destruct b end;
    try reflexivity.
  now rewrite !find_or_null_answers.
Qed.

Lemma Unguarded_detectCurrencyInfo_answers actor :
  Boundary.Unguarded.detectCurrencyInfo (Boundary.answering g) actor
    = Boundary.Returns (Monitor.detectCurrencyInfo g actor).
Proof.
  unfold Boundary.Unguarded.detectCurrencyInfo, Monitor.detectCurrencyInfo.
  rewrite getWorldPath_answers. cbn [Boundary.game Boundary.answering].
  rewrite (findE_answers _ (fun p => Monitor.is_object (getProperty (actor_doc actor) p)));
    [| reflexivity].
  cbn [Boundary.bind].
  now destruct (List.find _ _) as [[|c p]|].
Qed.

(** On a host that answers, the unguarded hook computes the stash of
    [Monitor.preUpdateActor]. *)
Lemma Unguarded_preUpdateActor_answers actor update :
  Boundary.Unguarded.preUpdateActor (Boundary.answering g) actor update
    = Boundary.Returns (Monitor.preUpdateActor g actor update).
Proof.
  unfold Boundary.Unguarded.preUpdateActor, Monitor.preUpdateActor.
  rewrite Unguarded_resolvePaths_answers. cbn [Boundary.bind].
  rewrite !willUpdatePath_answers. cbn [Boundary.bind Boundary.game Boundary.answering].
  rewrite !getWorldBool_answers.
  set (paths := Monitor.resolvePaths g (Some actor)).
  set (willHP := willUpdatePath update (hpPath paths)).
  set (willTHP := willUpdatePath update (tempPath paths)).
  set (willTHPMax := willUpdatePath update (tempMaxPath paths)).
  set (inspPath := if (system_id g =?s js "dnd5e")
                      && getWorldBool g "trackDnd5eInspiration" false
                   then Some Monitor.getDnd5eInspirationPath else None).
  (* inspiration *)
  assert (EI : (if truthy_path inspPath
                then Boundary.Returns (willUpdatePath update inspPath)
                else Boundary.Returns false)
               = Boundary.Returns (if truthy_path inspPath
                                   then willUpdatePath update inspPath else false)).
  { now destruct (truthy_path inspPath). }
  rewrite EI. cbn [Boundary.bind]. clear EI.
  set (willInsp := if truthy_path inspPath then willUpdatePath update inspPath else false).
  (* currency *)
  rewrite Unguarded_detectCurrencyInfo_answers.
  set (currencyE := if getWorldBool g "trackCurrency" false && _ then _ else _).
  set (currencyP := if getWorldBool g "trackCurrency" false && _ then _ else _).
  assert (EC : currencyE = Boundary.Returns currencyP).
  { subst currencyE currencyP.
    destruct (getWorldBool g "trackCurrency" false && _); [| reflexivity].
    cbn [Boundary.bind].
    destruct (Monitor.detectCurrencyInfo g actor) as [[base|] coins]; cbn [fst snd];
      [| reflexivity].
    destruct (truthy_path (Some base) && negb (length coins =? 0)%nat); [| reflexivity].
    rewrite ?willUpdatePath_answers. cbn [Boundary.bind].
    destruct (willUpdatePath update (Some base)); cbn [Boundary.bind orb]; [reflexivity |].
    rewrite (someE_answers _ (fun k => willUpdatePath update (Some (base ++ js "." ++ k))));
      [reflexivity |]. intros k. apply willUpdatePath_answers. }
  rewrite EC. cbn [Boundary.bind]. clear EC currencyE.
  (* death saves *)
  set (deathE := if (system_id g =?s js "dnd5e")
                    && getWorldBool g "trackDnd5eDeathSaves" false && _ then _ else _).
  set (deathP := if (system_id g =?s js "dnd5e")
                    && getWorldBool g "trackDnd5eDeathSaves" false && _ then _ else _).
  assert (ED : deathE = Boundary.Returns deathP).
  { subst deathE deathP.
    destruct ((system_id g =?s js "dnd5e")
              && getWorldBool g "trackDnd5eDeathSaves" false && _); [| reflexivity].
    rewrite ?willUpdatePath_answers. cbn [Boundary.bind].
    destruct (willUpdatePath update (Some Monitor.successPath)); cbn [Boundary.bind orb].
    - now rewrite !readNumber_answers.
    - rewrite ?willUpdatePath_answers. cbn [Boundary.bind].
      destruct (willUpdatePath update (Some Monitor.failurePath)); [| reflexivity].
      now rewrite !readNumber_answers. }
  rewrite ED. cbn [Boundary.bind]. clear ED deathE.
  (* spell slots *)
  set (slotsE := if (system_id g =?s js "dnd5e")
                    && getWorldBool g "trackDnd5eSpellSlots" true then _ else _).
  set (slotsP := if (system_id g =?s js "dnd5e")
                    && getWorldBool g "trackDnd5eSpellSlots" true then _ else _).
  assert (ES : slotsE = Boundary.Returns slotsP).
  { subst slotsE slotsP.
    destruct ((system_id g =?s js "dnd5e") && getWorldBool g "trackDnd5eSpellSlots" true);
      [| reflexivity].
    rewrite (filterE_answers _ (fun s => willUpdatePath update (Some (snd s))));
      [| intros s; apply willUpdatePath_answers].
    cbn [Boundary.bind].
    destruct (0 <? length _)%nat; [| reflexivity].
    rewrite (mapE_answers _
      (fun s => {| Monitor.level := fst s; Monitor.path := snd s;
                   Monitor.oldValue := readNumber (actor_doc actor) (Some (snd s)) |}));
      [reflexivity |].
    intros s. now rewrite readNumber_answers. }
  rewrite ES. cbn [Boundary.bind]. clear ES slotsE.
  (* the stash *)
  destruct (negb willHP && negb willTHP && negb willTHPMax && negb willInsp && _ && _ && _);
    [reflexivity |].
  rewrite !readNumber_answers, readRaw_answers.
  destruct willHP, willTHP, willTHPMax, willInsp; cbn [Boundary.bind];
    (destruct currencyP as [[base coins]|]; cbn [Boundary.bind];
     [rewrite (mapE_answers _
        (fun k => (k, readNumber (actor_doc actor) (Some (base ++ js "." ++ k)))));
        [reflexivity | intros k; now rewrite readNumber_answers]
     | reflexivity]).
Qed.
End AnsweringUnguarded.

(** ** What the wrapped callbacks contain *)

Section Containment.
Import Boundary.

(** The chat log after the messages [ms] were created. *)
Definition posted_all (ms : list ChatMessage) (st : State) : State :=
  fold_left (fun st m => posted m st) ms st.

(** What [try]/[catch] around the whole of a callback gives: the callback
    returns; when its body raised, the error was logged under [label], once,
    and store and state are as the body left them. *)
Definition contains_errors {S} (hook body : Step S unit) (label : string) : Prop :=
  forall s st,
    match body s st with
    | (s', st', Returns _) => hook s st = (s', st', Returns tt)
    | (s', st', Raises e) => hook s st = (s', log label e st', Returns tt)
    end.

(** A step that leaves the store and the state alone. *)
Definition reads_only {S A} (c : Step S A) : Prop :=
  forall s st, fst (c s st) = (s, st).

(** A step that leaves the chat log and the console alone. *)
Definition silent {S A} (c : Step S A) : Prop :=
  forall s st,
    chat (snd (fst (c s st))) = chat st /\ console (snd (fst (c s st))) = console st.

(** A step that leaves the console alone and only appends to the chat log. *)
Definition appends {S A} (c : Step S A) : Prop :=
  forall s st,
    console (snd (fst (c s st))) = console st /\
    exists ms, chat (snd (fst (c s st))) = chat st ++ ms.

(** A step that, when it raises, has changed neither store nor state. *)
Definition fails_clean {S A} (c : Step S A) : Prop :=
  forall s st s' st' e, c s st = (s', st', Raises e) -> s' = s /\ st' = st.

(** A step that, when it raises, has posted nothing. *)
Definition fails_silent {S A} (c : Step S A) : Prop :=
  forall s st s' st' e, c s st = (s', st', Raises e) -> chat st' = chat st.

(** An [updateActor] callback and the messages it plans.  When a read of
    the plan raises, nothing is posted and the error is logged.  When the
    plan is made, either all its messages are posted, or a [create] raised:
    then the messages before it stay posted and the error is logged. *)
Definition posts_plan (h : Host) (hook : Step unit unit)
    (plan : Outcome (list ChatMessage)) (label : string) : Prop :=
  forall st,
    match plan with
    | Raises e => hook tt st = (tt, log label e st, Returns tt)
    | Returns ms =>
      hook tt st = (tt, posted_all ms st, Returns tt) \/
      exists before m rest e,
        ms = before ++ m :: rest /\
        raises h (ChatMessageCreate (content m)) = Some e /\
        hook tt st = (tt, log label e (posted_all before st), Returns tt)
    end.

Lemma chat_posted_all ms st : chat (posted_all ms st) = chat st ++ ms.
Proof.
  revert st. induction ms as [|m r IH]; intros st; cbn.
  - now rewrite app_nil_r.
  - change (chat (posted_all r (posted m st)) = chat st ++ m :: r).
    rewrite IH. cbn. now rewrite <- app_assoc.
Qed.

Lemma console_posted_all ms st : console (posted_all ms st) = console st.
Proof.
  revert st. induction ms as [|m r IH]; intros st; cbn; [reflexivity |].
  change (console (posted_all r (posted m st)) = console st). now rewrite IH.
Qed.

(** The loop of creates stops at the first that raises. *)
Lemma create_all_stops h ms st :
  create_all h ms st = (posted_all ms st, Returns tt) \/
  exists before m rest e,
    ms = before ++ m :: rest /\
    raises h (ChatMessageCreate (content m)) = Some e /\
    create_all h ms st = (posted_all before st, Raises e).
Proof.
  revert st. induction ms as [|m r IH]; intros st.
  - left. reflexivity.
  - cbn [create_all]. unfold create.
    destruct (raises h (ChatMessageCreate (content m))) as [e|] eqn:E.
    + right. exists [], m, r, e. repeat split. exact E.
    + destruct (IH (posted m st)) as [H | (before & m' & rest & e & -> & He & H)].
      * left. exact H.
      * right. exists (m :: before), m', rest, e. repeat split; assumption.
Qed.

Lemma try_step_contains {S} (body : Step S unit) label :
  contains_errors (try_step body label) body label.
Proof.
  intros s st. unfold try_step. now destruct (body s st) as [[s' st'] [[]|e]].
Qed.

(** *** Steps that read *)

Lemma reads_only_ret {S A} (a : A) : reads_only (@ret S A a).
Proof. intros s st. reflexivity. Qed.

Lemma reads_only_host {S A} (c : Outcome A) : reads_only (@host S A c).
Proof. intros s st. reflexivity. Qed.

Lemma reads_only_load {S} : reads_only (@load S).
Proof. intros s st. reflexivity. Qed.

Lemma reads_only_and_then {S A B} (c : Step S A) (k : A -> Step S B) :
  reads_only c -> (forall a, reads_only (k a)) -> reads_only (and_then c k).
Proof.
  intros Hc Hk s st. unfold and_then. specialize (Hc s st).
  destruct (c s st) as [[s' st'] [a|e]]; cbn in Hc; injection Hc as -> ->.
  - apply Hk.
  - reflexivity.
Qed.

(** *** Steps that post nothing *)

Lemma silent_reads_only {S A} (c : Step S A) : reads_only c -> silent c.
Proof. intros H s st. rewrite (H s st). split; reflexivity. Qed.

Lemma silent_store {S} (s' : S) : silent (store s').
Proof. intros s st. split; reflexivity. Qed.

Lemma silent_classList_add {S} h c cls : silent (@render S h c (classList_add cls)).
Proof. intros s st. unfold render. destruct (call h c tt); split; reflexivity. Qed.

Lemma silent_content_addClass {S} h c cls (found : bool) :
  silent (@render S h c (if found then content_addClass cls else fun st => st)).
Proof.
  intros s st. unfold render. destruct (call h c tt), found; split; reflexivity.
Qed.

Lemma silent_and_then {S A B} (c : Step S A) (k : A -> Step S B) :
  silent c -> (forall a, silent (k a)) -> silent (and_then c k).
Proof.
  intros Hc Hk s st. unfold and_then. specialize (Hc s st).
  destruct (c s st) as [[s' st'] [a|e]]; cbn in Hc.
  - destruct (Hk a s' st') as [H1 H2]. destruct Hc as [H3 H4]. split; congruence.
  - exact Hc.
Qed.

(** *** Steps that append to the chat log *)

Lemma appends_silent {S A} (c : Step S A) : silent c -> appends c.
Proof.
  intros H s st. destruct (H s st) as [H1 H2]. split; [exact H2 |].
  exists []. now rewrite app_nil_r.
Qed.

Lemma appends_post {S} h m : appends (@post S h m).
Proof.
  intros s st. unfold post, create.
  destruct (raises h (ChatMessageCreate (content m))); cbn.
  - split; [reflexivity |]. exists []. now rewrite app_nil_r.
  - split; [reflexivity |]. now exists [m].
Qed.

Lemma appends_post_all {S} h ms : appends (@post_all S h ms).
Proof.
  intros s st. unfold post_all.
  destruct (create_all_stops h ms st) as [H | (before & m & rest & e & _ & _ & H)];
    rewrite H; cbn; rewrite console_posted_all, chat_posted_all;
    (split; [reflexivity | eexists; reflexivity]).
Qed.

Lemma appends_and_then {S A B} (c : Step S A) (k : A -> Step S B) :
  appends c -> (forall a, appends (k a)) -> appends (and_then c k).
Proof.
  intros Hc Hk s st. unfold and_then. specialize (Hc s st).
  destruct (c s st) as [[s' st'] [a|e]]; cbn in Hc.
  - destruct (Hk a s' st') as [H1 [ms2 H2]]. destruct Hc as [H3 [ms1 H4]].
    split; [congruence |]. exists (ms1 ++ ms2). rewrite H2, H4. now rewrite app_assoc.
  - exact Hc.
Qed.

(** *** Steps that fail before they change anything *)

Lemma fails_clean_reads_only {S A} (c : Step S A) : reads_only c -> fails_clean c.
Proof.
  intros H s st s' st' e E. specialize (H s st). rewrite E in H. cbn in H.
  now injection H as -> ->.
Qed.

Lemma fails_clean_store {S} (s' : S) : fails_clean (store s').
Proof. intros s st s1 st1 e E. discriminate E. Qed.

Lemma fails_clean_post {S} h m : fails_clean (@post S h m).
Proof.
  intros s st s' st' e. unfold post, create.
  destruct (raises h (ChatMessageCreate (content m))); intros E.
  - now injection E as <- <-.
  - discriminate E.
Qed.

Lemma fails_clean_and_then {S A B} (c : Step S A) (k : A -> Step S B) :
  reads_only c -> (forall a, fails_clean (k a)) -> fails_clean (and_then c k).
Proof.
  intros Hc Hk s st s' st' e. unfold and_then. specialize (Hc s st).
  destruct (c s st) as [[s1 st1] [a|e1]]; cbn in Hc; injection Hc as -> ->.
  - apply Hk.
  - intros E. now injection E as <- <-.
Qed.

(** *** Steps that fail before they post *)

Lemma fails_silent_silent {S A} (c : Step S A) : silent c -> fails_silent c.
Proof.
  intros H s st s' st' e E. destruct (H s st) as [H1 _]. now rewrite E in H1.
Qed.

Lemma fails_silent_post {S} h m : fails_silent (@post S h m).
Proof.
  intros s st s' st' e E. now destruct (fails_clean_post h m s st s' st' e E) as [_ ->].
Qed.

Lemma fails_silent_and_then {S A B} (c : Step S A) (k : A -> Step S B) :
  silent c -> (forall a, fails_silent (k a)) -> fails_silent (and_then c k).
Proof.
  intros Hc Hk s st s' st' e. unfold and_then. specialize (Hc s st).
  destruct (c s st) as [[s1 st1] [a|e1]]; cbn in Hc; destruct Hc as [Hc _].
  - intros E. rewrite <- Hc. exact (Hk a s1 st1 s' st' e E).
  - intros E. now injection E as <- <- <-.
Qed.

(** An [updateActor] body that makes its plan and posts it. *)
Lemma try_step_posts_plan h (plan : Outcome (list ChatMessage)) label :
  posts_plan h (try_step (messages <~ host plan ;; post_all h messages) label) plan label.
Proof.
  intros st. unfold try_step, and_then, host, post_all.
  destruct plan as [ms|e]; [| reflexivity].
  destruct (create_all_stops h ms st) as [H | (before & m & rest & e & E & He & H)];
    rewrite H.
  - now left.
  - right. now exists before, m, rest, e.
Qed.

End Containment.

Ltac step_cases :=
  match goal with
  | |- _ (if ?b then _ else _) => destruct b
  | |- _ (match ?x with _ => _ end) => destruct x
  end.

Ltac reading :=
  repeat (lazy beta zeta;
          first [ apply reads_only_ret | apply reads_only_host | apply reads_only_load
                | apply reads_only_and_then; [| intros ?]
                | step_cases ]).

Ltac silence :=
  repeat (lazy beta zeta;
          first [ apply silent_reads_only;
                  first [apply reads_only_ret | apply reads_only_host | apply reads_only_load]
                | apply silent_store | apply silent_classList_add
                | apply silent_content_addClass
                | apply silent_and_then; [| intros ?]
                | step_cases ]).

Ltac appending :=
  repeat (lazy beta zeta;
          first [ apply appends_post | apply appends_post_all
                | apply appends_silent;
                  first [ apply silent_store
                        | apply silent_reads_only;
                          first [apply reads_only_ret | apply reads_only_host
                                | apply reads_only_load] ]
                | apply appends_and_then; [| intros ?]
                | step_cases ]).

Ltac failing_clean :=
  repeat (lazy beta zeta;
          first [ apply fails_clean_store | apply fails_clean_post
                | apply fails_clean_reads_only;
                  first [apply reads_only_ret | apply reads_only_host | apply reads_only_load]
                | apply fails_clean_and_then;
                  [first [apply reads_only_ret | apply reads_only_host | apply reads_only_load]
                  | intros ?]
                | step_cases ]).

Ltac failing_silent :=
  repeat (lazy beta zeta;
          first [ apply fails_silent_post
                | apply fails_silent_silent;
                  first [ apply silent_store
                        | apply silent_reads_only;
                          first [apply reads_only_ret | apply reads_only_host
                                | apply reads_only_load] ]
                | apply fails_silent_and_then;
                  [first [ apply silent_store
                         | apply silent_reads_only;
                           first [apply reads_only_ret | apply reads_only_host
                                 | apply reads_only_load] ]
                  | intros ?]
                | step_cases ]).

(** ** The wrapped callbacks on a host that answers *)

Section AnsweringHooks.
Variable g : Game.

Lemma post_all_answers {S} ms (s : S) st :
  Boundary.post_all (Boundary.answering g) ms s st
    = (s, posted_all ms st, Boundary.Returns tt).
Proof.
  unfold Boundary.post_all.
  destruct (create_all_stops (Boundary.answering g) ms st)
    as [H | (before & m & rest & e & _ & He & _)]; [now rewrite H | discriminate He].
Qed.

Lemma tokenName_answers actor :
  Boundary.tokenName (Boundary.answering g) actor = Boundary.Returns (tokenName actor).
Proof.
  unfold Boundary.tokenName, tokenName.
  now destruct (actor_isToken actor && bool_decide (is_Some (actor_token actor))).
Qed.

Lemma owners_of_answers actor :
  Boundary.owners_of (Boundary.answering g) actor = Boundary.Returns (owners_of g actor).
Proof.
  unfold Boundary.owners_of, owners_of. destruct (testUserPermission actor) as [test|].
  - now rewrite (filterE_answers _ test).
  - reflexivity.
Qed.

(** scripts/hp-delta.mjs, lines 1-409 *)
Lemma Guarded_updateActor_answers actor options user st :
  Boundary.Guarded.updateActor (Boundary.answering g) actor options user tt st
    = (tt, posted_all (MultiSystem.updateActor g actor options user) st, Boundary.Returns tt).
Proof.
  unfold Boundary.Guarded.updateActor, Boundary.Guarded.updateActor_body,
    MultiSystem.updateActor, Boundary.try_step. cbn [Boundary.game Boundary.answering].
  destruct (negb (user =?s userId g)); [reflexivity |].
  destruct options as [payload|]; [| reflexivity].
  unfold Boundary.and_then, Boundary.host. rewrite Guarded_plan_answers.
  now rewrite post_all_answers.
Qed.

Lemma Guarded_preUpdateActor_answers actor update options st :
  Boundary.Guarded.preUpdateActor (Boundary.answering g) actor update options st
    = (MultiSystem.preUpdateActor g actor update options, st, Boundary.Returns tt).
Proof.
  unfold Boundary.Guarded.preUpdateActor, Boundary.Guarded.preUpdateActor_body,
    Boundary.try_step, Boundary.and_then, Boundary.load, Boundary.host, Boundary.store.
  now rewrite Guarded_stashed_answers.
Qed.

(** unnamed/part_003 *)
Lemma GuardedReporter_updateActor_answers actor options user st :
  Boundary.GuardedReporter.updateActor (Boundary.answering g) actor options user tt st
    = (tt, posted_all (Reporter.updateActor g actor options user) st, Boundary.Returns tt).
Proof.
  unfold Boundary.GuardedReporter.updateActor, Boundary.GuardedReporter.updateActor_body,
    Reporter.updateActor, Boundary.try_step. cbn [Boundary.game Boundary.answering].
  destruct (negb (system_id g =?s js "dnd5e")); [reflexivity |].
  destruct (negb (user =?s userId g)); [reflexivity |].
  destruct options as [payload|]; [| reflexivity].
  unfold Boundary.and_then, Boundary.host, Boundary.GuardedReporter.plan.
  rewrite tokenName_answers. cbn [Boundary.bind Boundary.game Boundary.answering].
  rewrite owners_of_answers.
  destruct (is_string (prop (actor_props actor) "type") "npc");
    cbn [Boundary.bind]; now rewrite post_all_answers.
Qed.

(** unnamed/part_002 *)
Lemma GuardedTracker_resolvePaths_answers actor :
  Boundary.GuardedTracker.resolvePaths (Boundary.answering g) actor
    = Boundary.Returns (Tracker.resolvePaths g actor).
Proof.
  unfold Boundary.GuardedTracker.resolvePaths, Tracker.resolvePaths.
  rewrite getWorldBool_answers, !getWorldPath_answers.
  destruct (getWorldBool g "autoDetectPaths" true); [| reflexivity].
  unfold Boundary.GuardedTracker.detectSystemPaths, Tracker.detectSystemPaths.
  cbn [Boundary.game Boundary.answering].
  repeat match goal with |- context [if ?b then _ else _] => destruct b end;
    try reflexivity.
  now rewrite !find_or_null_answers.
Qed.

Lemma GuardedTracker_getDisplayName_answers actor :
  Boundary.GuardedTracker.getDisplayName (Boundary.answering g) actor
    = Boundary.Returns (Tracker.getDisplayName actor).
Proof.
  unfold Boundary.GuardedTracker.getDisplayName. now rewrite tokenName_answers.
Qed.

Lemma GuardedTracker_buildRecipients_answers actor :
  Boundary.GuardedTracker.buildRecipients (Boundary.answering g) actor
    = Boundary.Returns (Tracker.buildRecipients g actor).
Proof.
  unfold Boundary.GuardedTracker.buildRecipients.
  now rewrite Guarded_buildRecipients_answers.
Qed.

Lemma GuardedTracker_plan_answers actor payload :
  Boundary.GuardedTracker.plan (Boundary.answering g) actor payload
    = Boundary.Returns (List.map (MultiSystem.create (Tracker.buildRecipients g actor))
                                 (Tracker.results g actor payload)).
Proof.
  unfold Boundary.GuardedTracker.plan, Tracker.results.
  rewrite GuardedTracker_resolvePaths_answers, GuardedTracker_getDisplayName_answers,
    GuardedTracker_buildRecipients_answers.
  cbn [Boundary.bind Boundary.game Boundary.answering].
  rewrite !getWorldBool_answers.
  set (paths := Tracker.resolvePaths g (Some actor)).
  set (name := Tracker.getDisplayName actor).
  assert (EC : forall c,
    Boundary.mapE (fun k =>
       Boundary.bind
         (Boundary.readNumber (Boundary.answering g) (actor_doc actor)
            (Some (Tracker.basePath c ++ js "." ++ k)))
         (fun newAmt =>
            Boundary.Returns
              (if newAmt - default 0 (Tracker.old c !! k) =? 0 then []
               else [(name ++ js " " ++ Tracker.coinLabel k (system_id g) ++ js ": "
                        ++ show_Z (default 0 (Tracker.old c !! k)) ++ js " "
                        ++ sign_of (newAmt - default 0 (Tracker.old c !! k)) ++ js " "
                        ++ show_Z (Z.abs (newAmt - default 0 (Tracker.old c !! k)))
                        ++ js " → " ++ show_Z newAmt, "hp-currency", "currency")])))
      (Tracker.coins c)
    = Boundary.Returns (List.map (fun k =>
         let newAmt := readNumber (actor_doc actor)
                         (Some (Tracker.basePath c ++ js "." ++ k)) in
         if newAmt - default 0 (Tracker.old c !! k) =? 0 then []
         else [(name ++ js " " ++ Tracker.coinLabel k (system_id g) ++ js ": "
                  ++ show_Z (default 0 (Tracker.old c !! k)) ++ js " "
                  ++ sign_of (newAmt - default 0 (Tracker.old c !! k)) ++ js " "
                  ++ show_Z (Z.abs (newAmt - default 0 (Tracker.old c !! k)))
                  ++ js " → " ++ show_Z newAmt, "hp-currency", "currency")])
         (Tracker.coins c))).
  { intros c. apply mapE_answers. intros k. now rewrite readNumber_answers. }
  destruct (Tracker.oldHP payload), (Tracker.oldTHP payload),
    (Tracker.oldTHPMax payload), (Tracker.oldInspiration payload),
    (Tracker.currency payload) as [c|], (Tracker.deathSaves payload) as [[oldSucc oldFail]|];
    repeat match goal with
           | |- context [if truthy_path ?p then _ else _] => destruct (truthy_path p)
           | |- context [if ?a && ?b then _ else _] => destruct (a && b)
           end;
    rewrite ?readNumber_answers, ?readRaw_answers; cbn [Boundary.bind];
    try (change (fun k => match Tracker.old c !! k with Some v => v | None => 0 end)
           with (fun k => default 0 (Tracker.old c !! k)));
    rewrite ?EC; reflexivity.
Qed.

Lemma GuardedTracker_updateActor_answers actor options user st :
  Boundary.GuardedTracker.updateActor (Boundary.answering g) actor options user tt st
    = (tt, posted_all (Tracker.updateActor g actor options user) st, Boundary.Returns tt).
Proof.
  unfold Boundary.GuardedTracker.updateActor, Boundary.GuardedTracker.updateActor_body,
    Tracker.updateActor, Boundary.try_step. cbn [Boundary.game Boundary.answering].
  destruct (negb (user =?s userId g)); [reflexivity |].
  destruct options as [payload|]; [| reflexivity].
  unfold Boundary.and_then, Boundary.host. rewrite GuardedTracker_plan_answers.
  now rewrite post_all_answers.
Qed.

Lemma posted_all_app a b st : posted_all (a ++ b) st = posted_all b (posted_all a st).
Proof. apply fold_left_app. Qed.

Lemma postItemMessage_answers {S} actor line (s : S) st :
  Boundary.GuardedTracker.postItemMessage (Boundary.answering g) actor line s st
    = (s, Boundary.posted (Tracker.postItemMessage g actor line) st, Boundary.Returns tt).
Proof.
  unfold Boundary.GuardedTracker.postItemMessage, Boundary.and_then, Boundary.host.
  now rewrite GuardedTracker_buildRecipients_answers.
Qed.

Lemma dnd5eIsSpellPreparedLike_answers item :
  Boundary.GuardedTracker.dnd5eIsSpellPreparedLike (Boundary.answering g) item
    = Boundary.Returns (Tracker.dnd5eIsSpellPreparedLike item).
Proof.
  unfold Boundary.GuardedTracker.dnd5eIsSpellPreparedLike, Tracker.dnd5eIsSpellPreparedLike.
  now rewrite !readRaw_answers.
Qed.

Lemma computePreparedAfter_answers item change :
  Boundary.GuardedTracker.computePreparedAfter (Boundary.answering g) item change
    = Boundary.Returns (Tracker.computePreparedAfter item change).
Proof.
  unfold Boundary.GuardedTracker.computePreparedAfter, Tracker.computePreparedAfter,
    Boundary.has, Boundary.get.
  rewrite !call_answers. cbn [Boundary.bind].
  destruct (hasProperty change (js "system.method")),
    (hasProperty change (js "system.preparation.mode")),
    (hasProperty change (js "system.prepared")),
    (hasProperty change (js "system.preparation.prepared"));
    cbn [Boundary.bind fst snd andb negb];
    rewrite ?bool_decide_eq_true_2 by (eexists; reflexivity);
    rewrite ?bool_decide_eq_false_2 by (intros [? ?]; discriminate);
    cbn [andb negb];
    repeat match goal with |- context [if ?b =?s ?c then _ else _] => destruct (b =?s c) end;
    rewrite ?readRaw_answers, ?dnd5eIsSpellPreparedLike_answers; reflexivity.
Qed.

Lemma either_answers change a b :
  Boundary.GuardedTracker.either (Boundary.answering g) change a b
    = Boundary.Returns (willUpdatePath change (Some (js a))
                        || willUpdatePath change (Some (js b))).
Proof.
  unfold Boundary.GuardedTracker.either. rewrite !willUpdatePath_answers.
  cbn [Boundary.bind]. now destruct (willUpdatePath change (Some (js a))).
Qed.

Lemma GuardedTracker_updateItem_answers item change user stashes st :
  Boundary.GuardedTracker.updateItem (Boundary.answering g) item change user stashes st
    = (fst (Tracker.updateItem g item change user stashes),
       posted_all (snd (Tracker.updateItem g item change user stashes)) st,
       Boundary.Returns tt).
Proof.
  unfold Boundary.GuardedTracker.updateItem, Boundary.GuardedTracker.updateItem_body,
    Tracker.updateItem, Boundary.try_step. cbn [Boundary.game Boundary.answering].
  destruct (negb (user =?s userId g)); [reflexivity |].
  destruct (item_parent item) as [actor|]; [| reflexivity].
  unfold Boundary.and_then at 1 2 3. unfold Boundary.load, Boundary.store, Boundary.host at 1.
  rewrite GuardedTracker_getDisplayName_answers.
  rewrite !getWorldBool_answers. cbn [fst snd].
  change Boundary.GuardedTracker.empty_stash
    with {| Tracker.oldQty := None; Tracker.oldName := None |}.
  set (stash := default _ (stashes !! item_uuid item)).
  rewrite !posted_all_app.
  (* quantity *)
  unfold Boundary.and_then at 1.
  match goal with
  | |- context [(if getWorldBool g "trackItemChanges" false then ?a else ?b) ?s ?t] =>
    assert (E : (if getWorldBool g "trackItemChanges" false then a else b) s t
                = (s, posted_all
                        (match Tracker.oldQty stash with
                         | Some oldQty =>
                           if getWorldBool g "trackItemChanges" false then
                             let newQty := Monitor.or_number
                                 (readNumber (item_doc item) (Some (js "system.quantity"))) 0 in
                             if negb (newQty =? oldQty) then
                               [Tracker.postItemMessage g actor
                                  (Tracker.getDisplayName actor ++ js "'s Item: "
                                     ++ Tracker.clipName (prop (item_props item) "name")
                                     ++ js " — " ++ show_Z oldQty ++ js " "
                                     ++ sign_of (newQty - oldQty) ++ js " "
                                     ++ show_Z (Z.abs (newQty - oldQty)) ++ js " → "
                                     ++ show_Z newQty)]
                             else []
                           else []
                         | None => []
                         end) t, Boundary.Returns tt))
  end.
  { destruct (getWorldBool g "trackItemChanges" false), (Tracker.oldQty stash) as [oldQty|];
      try reflexivity.
    unfold Boundary.and_then, Boundary.host. rewrite readNumber_answers. cbv zeta.
    destruct (negb (_ =? oldQty)); [| reflexivity].
    now rewrite postItemMessage_answers. }
  rewrite E. clear E.
  (* name *)
  unfold Boundary.and_then at 1.
  match goal with
  | |- context [(if getWorldBool g "trackItemChanges" false then ?a else ?b) ?s ?t] =>
    assert (E : (if getWorldBool g "trackItemChanges" false then a else b) s t
                = (s, posted_all
                        (match Tracker.oldName stash with
                         | Some oldName =>
                           if getWorldBool g "trackItemChanges" false then
                             let newName := ToString (nullish (prop (item_props item) "name")
                                                              (VString [])) in
                             if negb (newName =?s oldName) then
                               [Tracker.postItemMessage g actor
                                  (Tracker.getDisplayName actor ++ js "'s Item renamed: "
                                     ++ Tracker.clipName (VString oldName) ++ js " → "
                                     ++ Tracker.clipName (VString newName))]
                             else []
                           else []
                         | None => []
                         end) t, Boundary.Returns tt))
  end.
  { destruct (getWorldBool g "trackItemChanges" false), (Tracker.oldName stash) as [oldName|];
      try reflexivity.
    cbv zeta. destruct (negb (_ =?s oldName)); [| reflexivity].
    now rewrite postItemMessage_answers. }
  rewrite E. clear E.
  (* spell preparation *)
  destruct ((system_id g =?s js "dnd5e") && getWorldBool g "trackDnd5eSpellPrep" false
            && is_string (prop (item_props item) "type") "spell"); [| reflexivity].
  unfold Boundary.and_then, Boundary.host. rewrite !either_answers.
  destruct (_ || _ || (_ || _)); [| reflexivity].
  rewrite computePreparedAfter_answers, readNumber_answers,
    GuardedTracker_buildRecipients_answers.
  reflexivity.
Qed.

End AnsweringHooks.

Ltac bodies :=
  cbv delta [Boundary.Guarded.preUpdateActor_body Boundary.Guarded.updateActor_body
             Boundary.Guarded.renderChatMessage_body
             Boundary.GuardedReporter.preUpdateActor_body
             Boundary.GuardedReporter.updateActor_body
             Boundary.GuardedReporter.renderChatMessage_body
             Boundary.GuardedAudience.preUpdateActor_body
             Boundary.GuardedAudience.updateActor_body
             Boundary.GuardedTracker.preUpdateActor_body
             Boundary.GuardedTracker.updateActor_body
             Boundary.GuardedTracker.createItem_body
             Boundary.GuardedTracker.preUpdateItem_body
             Boundary.GuardedTracker.updateItem_body
             Boundary.GuardedTracker.preDeleteItem_body
             Boundary.GuardedTracker.deleteItem_body
             Boundary.GuardedTracker.postItemMessage].

Ltac contain :=
  lazymatch goal with
  | |- contains_errors _ _ _ => apply try_step_contains
  | |- silent _ => bodies; silence
  | |- appends _ => bodies; appending
  | |- fails_clean _ => bodies; failing_clean
  | |- fails_silent _ => bodies; failing_silent
  end.

Section HookBoundary.
Import Boundary.

(** C5, as the code has it.  In the four revisions whose callbacks are
    wrapped in [try]/[catch] (scripts/hp-delta.mjs lines 1-409,
    unnamed/part_003, unnamed/part_001, unnamed/part_002) every callback
    registered with [Hooks.on] returns whatever the host raises inside it:
    [preUpdateActor], [updateActor] and [renderChatMessage], and in
    unnamed/part_002 also [createItem], [preUpdateItem], [updateItem],
    [preDeleteItem] and [deleteItem].  The error is logged once, under
    [[tiny-hp-monitor] <hook> error], and what the body did before it raised
    stays done.  No body touches the console, and none removes a message.
    A failing [preUpdateActor] (but for unnamed/part_002), [createItem],
    [preUpdateItem] or [preDeleteItem] has written and posted nothing; a
    failing [deleteItem] has posted nothing.  An [updateActor] whose reads
    fail posts nothing; when a [ChatMessage.create] of its loop fails, the
    messages created before it stay posted. *)
Theorem guarded_hooks_contain_errors (h : Host) :
  (* scripts/hp-delta.mjs, lines 1-409 *)
  ((forall actor update,
      contains_errors (Guarded.preUpdateActor h actor update)
                      (Guarded.preUpdateActor_body h actor update)
                      "[tiny-hp-monitor] preUpdateActor error" /\
      silent (Guarded.preUpdateActor_body h actor update) /\
      fails_clean (Guarded.preUpdateActor_body h actor update)) /\
   (forall actor options user,
      contains_errors (Guarded.updateActor h actor options user)
                      (Guarded.updateActor_body h actor options user)
                      "[tiny-hp-monitor] updateActor error" /\
      appends (Guarded.updateActor_body h actor options user)) /\
   (forall actor payload,
      posts_plan h (Guarded.updateActor h actor (Some payload) (userId (game h)))
                 (Guarded.plan h actor payload) "[tiny-hp-monitor] updateActor error") /\
   (forall flags li,
      contains_errors (Guarded.renderChatMessage h flags li)
                      (Guarded.renderChatMessage_body h flags li)
                      "[tiny-hp-monitor] renderChatMessage error" /\
      silent (Guarded.renderChatMessage_body h flags li))) /\
  (* unnamed/part_003 *)
  ((forall actor update,
      contains_errors (GuardedReporter.preUpdateActor h actor update)
                      (GuardedReporter.preUpdateActor_body h actor update)
                      "[tiny-hp-monitor] preUpdateActor error" /\
      silent (GuardedReporter.preUpdateActor_body h actor update) /\
      fails_clean (GuardedReporter.preUpdateActor_body h actor update)) /\
   (forall actor options user,
      contains_errors (GuardedReporter.updateActor h actor options user)
                      (GuardedReporter.updateActor_body h actor options user)
                      "[tiny-hp-monitor] updateActor error" /\
      appends (GuardedReporter.updateActor_body h actor options user)) /\
   (forall actor payload,
      if system_id (game h) =?s js "dnd5e" then
        posts_plan h (GuardedReporter.updateActor h actor (Some payload) (userId (game h)))
                   (GuardedReporter.plan h actor payload)
                   "[tiny-hp-monitor] updateActor error"
      else
        forall st, GuardedReporter.updateActor h actor (Some payload) (userId (game h)) tt st
                   = (tt, st, Returns tt)) /\
   (forall flags content,
      contains_errors (GuardedReporter.renderChatMessage h flags content)
                      (GuardedReporter.renderChatMessage_body h flags content)
                      "[tiny-hp-monitor] renderChatMessage error" /\
      silent (GuardedReporter.renderChatMessage_body h flags content))) /\
  (* unnamed/part_001 *)
  ((forall actor update,
      contains_errors (GuardedAudience.preUpdateActor h actor update)
                      (GuardedAudience.preUpdateActor_body h actor update)
                      "[tiny-hp-monitor] preUpdateActor error" /\
      silent (GuardedAudience.preUpdateActor_body h actor update) /\
      fails_clean (GuardedAudience.preUpdateActor_body h actor update)) /\
   (forall actor options user,
      contains_errors (GuardedAudience.updateActor h actor options user)
                      (GuardedAudience.updateActor_body h actor options user)
                      "[tiny-hp-monitor] updateActor error" /\
      appends (GuardedAudience.updateActor_body h actor options user)) /\
   (forall actor payload,
      if system_id (game h) =?s js "dnd5e" then
        posts_plan h (GuardedAudience.updateActor h actor (Some payload) (userId (game h)))
                   (GuardedAudience.plan h actor payload)
                   "[tiny-hp-monitor] updateActor error"
      else
        forall st, GuardedAudience.updateActor h actor (Some payload) (userId (game h)) tt st
                   = (tt, st, Returns tt)) /\
   (forall flags li,
      contains_errors (GuardedAudience.renderChatMessage h flags li)
                      (Guarded.renderChatMessage_body h flags li)
                      "[tiny-hp-monitor] renderChatMessage error")) /\
  (* unnamed/part_002 *)
  ((forall actor update,
      contains_errors (GuardedTracker.preUpdateActor h actor update)
                      (GuardedTracker.preUpdateActor_body h actor update)
                      "[tiny-hp-monitor] preUpdateActor error" /\
      silent (GuardedTracker.preUpdateActor_body h actor update)) /\
   (forall actor options user,
      contains_errors (GuardedTracker.updateActor h actor options user)
                      (GuardedTracker.updateActor_body h actor options user)
                      "[tiny-hp-monitor] updateActor error" /\
      appends (GuardedTracker.updateActor_body h actor options user)) /\
   (forall actor payload,
      posts_plan h (GuardedTracker.updateActor h actor (Some payload) (userId (game h)))
                 (GuardedTracker.plan h actor payload) "[tiny-hp-monitor] updateActor error") /\
   (forall item user,
      contains_errors (GuardedTracker.createItem h item user)
                      (GuardedTracker.createItem_body h item user)
                      "[tiny-hp-monitor] createItem error" /\
      appends (GuardedTracker.createItem_body h item user) /\
      fails_clean (GuardedTracker.createItem_body h item user)) /\
   (forall item change,
      contains_errors (GuardedTracker.preUpdateItem h item change)
                      (GuardedTracker.preUpdateItem_body h item change)
                      "[tiny-hp-monitor] preUpdateItem error" /\
      silent (GuardedTracker.preUpdateItem_body h item change) /\
      fails_clean (GuardedTracker.preUpdateItem_body h item change)) /\
   (forall item change user,
      contains_errors (GuardedTracker.updateItem h item change user)
                      (GuardedTracker.updateItem_body h item change user)
                      "[tiny-hp-monitor] updateItem error" /\
      appends (GuardedTracker.updateItem_body h item change user)) /\
   (forall item,
      contains_errors (GuardedTracker.preDeleteItem h item)
                      (GuardedTracker.preDeleteItem_body h item)
                      "[tiny-hp-monitor] preDeleteItem error" /\
      silent (GuardedTracker.preDeleteItem_body h item) /\
      fails_clean (GuardedTracker.preDeleteItem_body h item)) /\
   (forall item itemDelete actors user,
      contains_errors (GuardedTracker.deleteItem h item itemDelete actors user)
                      (GuardedTracker.deleteItem_body h item itemDelete actors user)
                      "[tiny-hp-monitor] deleteItem error" /\
      appends (GuardedTracker.deleteItem_body h item itemDelete actors user) /\
      fails_silent (GuardedTracker.deleteItem_body h item itemDelete actors user)) /\
   (forall flags li,
      contains_errors (GuardedTracker.renderChatMessage h flags li)
                      (Guarded.renderChatMessage_body h flags li)
                      "[tiny-hp-monitor] renderChatMessage error")).
Proof.
  repeat match goal with
         | |- _ /\ _ => split
         | |- forall _, _ => intro
         end;
    try contain.
  - unfold Guarded.updateActor, Guarded.updateActor_body.
    rewrite jsstring_eqb_refl. apply try_step_posts_plan.
  - unfold GuardedReporter.updateActor, GuardedReporter.updateActor_body.
    destruct (system_id (game h) =?s js "dnd5e").
    + rewrite jsstring_eqb_refl. apply try_step_posts_plan.
    + reflexivity.
  - unfold GuardedAudience.updateActor, GuardedAudience.updateActor_body.
    destruct (system_id (game h) =?s js "dnd5e").
    + rewrite jsstring_eqb_refl. apply try_step_posts_plan.
    + reflexivity.
  - unfold GuardedTracker.updateActor, GuardedTracker.updateActor_body.
    rewrite jsstring_eqb_refl. apply try_step_posts_plan.
Qed.

End HookBoundary.


Section BoundaryExamples.
Import Sample.

(** A host on which reading the property [path] raises. *)
Definition read_raises (g : Game) (path : string) : Boundary.Host :=
  {| Boundary.game := g;
     Boundary.raises := fun c =>
       match c with
       | Boundary.GetProperty key => if key =?s js path then Some (js "TypeError") else None
       | _ => None
       end |}.

(** A host on which reading the hit points of a record raises. *)
Definition hp_read_raises (g : Game) : Boundary.Host :=
  read_raises g "system.attributes.hp.value".

(** A host that refuses to create a message whose content has [needle]. *)
Definition create_raises (g : Game) (needle : string) : Boundary.Host :=
  {| Boundary.game := g;
     Boundary.raises := fun c =>
       match c with
       | Boundary.ChatMessageCreate content =>
         if occurs (js needle) content then Some (js "Error") else None
       | _ => None
       end |}.

Definition quiet : Boundary.State :=
  {| Boundary.chat := []; Boundary.console := []; Boundary.classes := [];
     Boundary.content_classes := [] |}.

(** Hit points and temporary hit points were both written. *)
Definition both_changed : MultiSystem.Payload :=
  {| MultiSystem.oldHP := Some 10; MultiSystem.oldTHP := Some 5;
     MultiSystem.oldTHPMax := None; MultiSystem.oldInspiration := None |}.

Definition hp_line (text cls : string) : ChatMessage :=
  {| content := div "hp-delta-line" (js text);
     whisper := [js "gm1"; js "alice"];
     kind := js "hp";
     cls := js cls |}.

(** The callback of lines 710-758 has no [try]: the error leaves it. *)
Lemma unguarded_preUpdateActor_raises :
  Boundary.Unguarded.preUpdateActor (hp_read_raises dnd5e) (hero 10) (hp_update 12)
    = Boundary.Raises (js "TypeError").
Proof. vm_compute. reflexivity. Qed.

(** The callback of lines 275-304 on the same host: the error is logged,
    nothing is stashed. *)
Lemma guarded_preUpdateActor_logs :
  Boundary.Guarded.preUpdateActor (hp_read_raises dnd5e) (hero 10) (hp_update 12) None quiet
    = (None,
       Boundary.log "[tiny-hp-monitor] preUpdateActor error" (js "TypeError") quiet,
       Boundary.Returns tt).
Proof.
  pose proof (proj1 (proj1 (proj1 (guarded_hooks_contain_errors (hp_read_raises dnd5e)))
                       (hero 10) (hp_update 12)) None quiet) as H.
  assert (E : Boundary.Guarded.preUpdateActor_body (hp_read_raises dnd5e) (hero 10)
                (hp_update 12) None quiet
              = (None, quiet, Boundary.Raises (js "TypeError")))
    by (vm_compute; reflexivity).
  rewrite E in H. exact H.
Defined.

(** A record with coins. *)
Definition merchant (hp gp : Z) : Actor :=
  {| actor_uuid := js "Actor.merchant";
     actor_props :=
       [(js "name", vstr "Merchant"); (js "type", vstr "character"); (js "id", vstr "m1");
        (js "system",
          obj [("attributes", obj [("hp", obj [("value", vnum hp); ("temp", vnum 0)])]);
               ("currency", obj [("gp", vnum gp)])])];
     actor_isToken := false;
     actor_token := None;
     getActiveTokens := [];
     testUserPermission := Some (fun u => user_id u =?s js "alice") |}.

Definition hp_and_gold (hp gp : Z) : JsVal :=
  obj [("system", obj [("attributes", obj [("hp", obj [("value", vnum hp)])]);
                       ("currency", obj [("gp", vnum gp)])])].

(** The stash of a potion that had quantity 3 and the name Elixir. *)
Definition elixir_stash : gmap jsstring Tracker.ItemStash :=
  {[js "Item.potion" := {| Tracker.oldQty := Some 3; Tracker.oldName := Some (js "Elixir") |}]}.

Definition item_line (text : string) : ChatMessage :=
  {| content := div "hp-delta-line hp-multiline" (js text);
     whisper := [js "gm1"; js "alice"];
     kind := js "item";
     cls := js "hp-item" |}.

(** Where a callback does not do what C5 says.  The callback of lines
    710-758 lets the error of a host call out.  The wrapped callbacks catch
    the error, but what they did before it stays: the [updateActor] of lines
    311-392 has posted its first message when the second
    [ChatMessage.create] raises; the [updateItem] of unnamed/part_002 has
    posted the quantity line and cleared the stash when the create of the
    rename line raises; the [preUpdateActor] of unnamed/part_002 has written
    the old hit points to [options] when reading the coins raises. *)
Lemma unguarded_raises_and_guarded_leave_parts :
  Boundary.Unguarded.preUpdateActor (hp_read_raises dnd5e) (hero 10) (hp_update 12)
    = Boundary.Raises (js "TypeError") /\
  Boundary.Guarded.plan (create_raises dnd5e " Temp: ") (hero 12) both_changed
    = Boundary.Returns
        [hp_line "Hero HP: 10 + 2 → 12" "hp-gain";
         {| content := div "hp-delta-line" (js "Hero Temp: 5 - 5 → 0");
            whisper := [js "gm1"; js "alice"];
            kind := js "temp";
            cls := js "hp-temp" |}] /\
  Boundary.Guarded.updateActor (create_raises dnd5e " Temp: ") (hero 12) (Some both_changed)
      (js "gm1") tt quiet
    = (tt,
       Boundary.log "[tiny-hp-monitor] updateActor error" (js "Error")
         (Boundary.posted (hp_line "Hero HP: 10 + 2 → 12" "hp-gain") quiet),
       Boundary.Returns tt) /\
  Boundary.GuardedTracker.updateItem (create_raises dnd5e "renamed") (potion 2) (obj [])
      (js "gm1") elixir_stash quiet
    = (∅,
       Boundary.log "[tiny-hp-monitor] updateItem error" (js "Error")
         (Boundary.posted (item_line "Hero's Item: Potion — 3 - 1 → 2") quiet),
       Boundary.Returns tt) /\
  Boundary.GuardedTracker.preUpdateActor (read_raises dnd5e "system.currency.gp")
      (merchant 10 50) (hp_and_gold 12 40) None quiet
    = (Some {| Tracker.oldHP := Some 10; Tracker.oldTHP := None; Tracker.oldTHPMax := None;
               Tracker.oldInspiration := None; Tracker.currency := None;
               Tracker.deathSaves := None |},
       Boundary.log "[tiny-hp-monitor] preUpdateActor error" (js "TypeError") quiet,
       Boundary.Returns tt).
Proof. repeat split; vm_compute; reflexivity. Qed.

Example guarded_updateActor_logs :
  Boundary.Guarded.updateActor (hp_read_raises dnd5e) (hero 12)
    (Some {| MultiSystem.oldHP := Some 10; MultiSystem.oldTHP := None;
             MultiSystem.oldTHPMax := None; MultiSystem.oldInspiration := None |})
    (js "gm1") tt quiet
    = (tt, Boundary.log "[tiny-hp-monitor] updateActor error" (js "TypeError") quiet,
       Boundary.Returns tt).
Proof. vm_compute. reflexivity. Qed.

(** On a host that answers, the guarded hook posts the line. *)
Example guarded_updateActor_posts :
  Boundary.Guarded.updateActor (Boundary.answering dnd5e) (hero 15)
    (Some {| MultiSystem.oldHP := Some 10; MultiSystem.oldTHP := None;
             MultiSystem.oldTHPMax := None; MultiSystem.oldInspiration := None |})
    (js "gm1") tt quiet
    = (tt, Boundary.posted (hp_line "Hero HP: 10 + 5 → 15" "hp-gain") quiet,
       Boundary.Returns tt).
Proof. vm_compute. reflexivity. Qed.

(** unnamed/part_003 and unnamed/part_001 on the same record. *)
Example reporter_updateActor_posts :
  Boundary.GuardedReporter.updateActor (Boundary.answering dnd5e) (hero 15)
    (Some {| Reporter.oldHP := Some (Fin 10); Reporter.oldTHP := None;
             Reporter.oldTHPMax := None |})
    (js "gm1") tt quiet
    = (tt, Boundary.posted (hp_line "Hero HP: 10 + 5 → 15" "hp-gain") quiet,
       Boundary.Returns tt).
Proof. vm_compute. reflexivity. Qed.

Example audience_updateActor_logs :
  Boundary.GuardedAudience.updateActor (create_raises dnd5e " HP: ") (hero 15)
    (Some {| Reporter.oldHP := Some (Fin 10); Reporter.oldTHP := None;
             Reporter.oldTHPMax := None |})
    (js "gm1") tt quiet
    = (tt, Boundary.log "[tiny-hp-monitor] updateActor error" (js "Error") quiet,
       Boundary.Returns tt).
Proof. vm_compute. reflexivity. Qed.

(** The class of the message element and of its content, unnamed/part_003. *)
Example reporter_renderChatMessage_marks :
  Boundary.GuardedReporter.renderChatMessage (Boundary.answering dnd5e)
    (fun key => if key =?s js "isHpDelta" then VBool true
                else if key =?s js "cls" then vstr "hp-gain" else VUndefined)
    true tt quiet
    = (tt,
       {| Boundary.chat := []; Boundary.console := [];
          Boundary.classes := [js "hp-delta"; js "hp-gain"];
          Boundary.content_classes := [js "hp-delta-content"] |},
       Boundary.Returns tt).
Proof. vm_compute. reflexivity. Qed.

Example tracker_preUpdateActor_stashes :
  exists stash,
    Boundary.GuardedTracker.preUpdateActor (Boundary.answering dnd5e)
      (merchant 10 50) (hp_and_gold 12 40) None quiet
      = (Some stash, quiet, Boundary.Returns tt) /\
    Tracker.oldHP stash = Some 10 /\
    (Tracker.old <$> Tracker.currency stash) = Some {[js "gp" := 50]}.
Proof. eexists. split; [vm_compute; reflexivity |]. split; vm_compute; reflexivity. Qed.

(** unnamed/part_002: deleting a stashed item. *)
Example tracker_deleteItem_posts :
  exists stashes,
    Boundary.GuardedTracker.preDeleteItem (Boundary.answering dnd5e) (potion 2) ∅ quiet
      = (stashes, quiet, Boundary.Returns tt) /\
    Boundary.GuardedTracker.deleteItem (Boundary.answering dnd5e) (potion 2) None
      (fun _ => None) (js "gm1") stashes quiet
      = (∅, Boundary.posted (item_line "Hero's Item: Potion — 2 - 2 → 0") quiet,
         Boundary.Returns tt).
Proof. eexists. split; [vm_compute; reflexivity |]. vm_compute. reflexivity. Qed.

Example tracker_createItem_logs :
  Boundary.GuardedTracker.createItem (read_raises dnd5e "system.quantity") (potion 2)
    (js "gm1") tt quiet
    = (tt, Boundary.log "[tiny-hp-monitor] createItem error" (js "TypeError") quiet,
       Boundary.Returns tt).
Proof. vm_compute. reflexivity. Qed.
End BoundaryExamples.

(** ** Numbers read and shown *)

Example numeric_strings_read :
  List.map (fun s => StringToNumber (js s))
    ["12"; " -12 "; "1e3"; "12.0"; "0x10"; "0b101"; "150e-1"; ""; "12px"; "-0x10"; "1e400";
     "9007199254740993"; "3.0000000000000000001"]
  = [Fin 12; Fin (-12); Fin 1000; Fin 12; Fin 16; Fin 5; Fin 15; Fin 0; NaN; NaN;
     Infinity false; Fin 9007199254740992; Fin 3].
Proof. vm_compute. reflexivity. Qed.

Example numbers_shown :
  List.map show_Z [0; -5; 10 ^ 21 - 1; 10 ^ 21; - 15 * 10 ^ 20; 2 ^ 70]
  = List.map js ["0"; "-5"; "999999999999999999999"; "1e+21"; "-1.5e+21";
                 "1.1805916207174113e+21"].
Proof. vm_compute. reflexivity. Qed.

Section MoreExamples.
Import Sample.

Definition hp_bucket (old : Z) : Monitor.Pending :=
  Monitor.merge Monitor.fresh_pending (hp_stash old).

(** Before 10, after 10: the flush creates no hit-point message. *)
Lemma same_hit_points_post_nothing :
  Monitor.oldHP (hp_bucket 10)
    = Some (readNumber (actor_doc (hero 10))
              (hpPath (Monitor.resolvePaths dnd5e (Some (hero 10))))) /\
  Monitor.hp_lines dnd5e (hero 10) (hp_bucket 10) = [] /\
  Monitor.processActorUpdate dnd5e (hero 10) (hp_bucket 10) = [].
Proof.
  assert (H : Monitor.oldHP (hp_bucket 10)
              = Some (readNumber (actor_doc (hero 10))
                        (hpPath (Monitor.resolvePaths dnd5e (Some (hero 10))))))
    by (vm_compute; reflexivity).
  split; [exact H |]. split.
  - exact (proj1 (equal_values_post_nothing dnd5e (hero 10) (hp_bucket 10)) H).
  - vm_compute. reflexivity.
Defined.

(** A potion with quantity 0 is deleted without a message. *)
Lemma empty_potion_deleted_silently :
  item_parent (potion 0) = Some (hero 10) /\
  hasProperty (item_doc (potion 0)) (js "system.quantity") = true /\
  readNumber (item_doc (potion 0)) (Some (js "system.quantity")) = 0 /\
  snd (Monitor.deleteItem dnd5e (potion 0) (js "gm1")
         (Monitor.preDeleteItem dnd5e (potion 0) ∅)) = [].
Proof.
  assert (Hp : item_parent (potion 0) = Some (hero 10)) by reflexivity.
  assert (Hh : hasProperty (item_doc (potion 0)) (js "system.quantity") = true)
    by (vm_compute; reflexivity).
  assert (Hq : readNumber (item_doc (potion 0)) (Some (js "system.quantity")) = 0)
    by (vm_compute; reflexivity).
  repeat (split; [assumption |]).
  exact (proj1 (proj1 (deleteItem_zero_quantity_is_silent dnd5e (potion 0) (js "gm1"))
                  ∅ ∅ (hero 10) Hp Hh Hq)).
Defined.
End MoreExamples.
